(** * BaiZe monitor: SNMP trap ingestion and dedup-dispatch core

    A shallow embedding of the Go sources of the trap pipeline
    (response engines and manager in [pkg/snmp], the trap handler and the
    server coordinator in [internal/server/snmp], the lock contract in
    [pkg/storage]) together with the properties the design document
    states about them.

    Conventions of the embedding:
    - a Go [(T, error)] result is a [result T];
    - a [panic] is [None] of an [option];
    - Go integers are [Z]; conversions that truncate are written out;
    - [time.Duration] is a [Z] counting nanoseconds, as in Go;
    - [[]byte] is [list byte]; a nil slice is [None] where the code
      distinguishes it from an empty one;
    - library calls ([encoding/asn1], [gosnmp], [net]) are operations of a
      type class, with an executable instance for concrete runs;
    - effects (datagrams sent, lock backend, egress queue) are threaded as
      explicit state. *)

From Stdlib Require Import ZArith Lia Strings.Byte.
From stdpp Require Import base option list strings gmap pretty.

Local Open Scope Z_scope.

(** ** Go runtime basics *)

Abbreviation bytes := (list byte).

Definition b2z (b : byte) : Z := Z.of_N (Byte.to_N b).

(** [time.Duration]: a signed count of nanoseconds. *)
Module time.
Definition Duration := Z.
Definition Nanosecond : Duration := 1.
Definition Microsecond : Duration := 1000 * Nanosecond.
Definition Millisecond : Duration := 1000 * Microsecond.
Definition Second : Duration := 1000 * Millisecond.
(** The conversion [time.Duration(n)] of an [int]: the same number,
    now read as nanoseconds. *)
Definition Duration_of_int (n : Z) : Duration := n.
End time.

(** Unsigned conversions of Go ([uint32(v)] keeps the low 32 bits). *)
Definition MaxUint32 : Z := 4294967295.
Definition to_uint32 (v : Z) : Z := v mod 2 ^ 32.

(** ** Errors ([pkg/snmp/response_engine_interface.go]) *)

Inductive error : Type :=
| ErrNilRequest
| ErrUnsupportedVersion
| ErrParseSNMPVersion
| ErrIligelVersion
| ErrDecodeSNMPrequest
| ErrVersionMissMatch
| ErrDisableVersion
| ErrV1InformNotSupported
| ErrV1TrapNotSupported
| ErrInvalidInformRequest
| ErrEmptyCommunity
| ErrInvalidCommunity
| ErrUnsupportedPDUType
| Errorf (format : string) (cause : error)   (* fmt.Errorf with an error argument *)
| LibError (msg : string).                   (* any other error value *)

Inductive result (A : Type) : Type :=
| Ok (a : A)
| Err (e : error).
Arguments Ok {A} a.
Arguments Err {A} e.

Definition is_ok {A} (r : result A) : bool :=
  match r with Ok _ => true | Err _ => false end.

(** ** [encoding/asn1]: the part the sniffers use *)

Module asn1.
Record RawValue : Type := mkRawValue {
Class : Z;
Tag : Z;
IsCompound : bool;
Bytes : bytes;
FullBytes : bytes
}.

Definition ClassUniversal : Z := 0.
Definition TagInteger : Z := 2.
Definition TagOctetString : Z := 4.
Definition TagSequence : Z := 16.

(** [Unmarshal(b, &rawValue)] returns the element and the rest;
    [Unmarshal(b, &int)] returns the integer (its rest is never used by
    the callers). *)
Class Codec : Type := {
  UnmarshalRaw : bytes -> result (RawValue * bytes);
  UnmarshalInt : bytes -> result Z
}.
End asn1.

(** *** The DER reader of Go's [encoding/asn1], for concrete runs *)

Module goasn1.
Import asn1.

Record tagAndLength : Type := mkTL {
  tl_class : Z; tl_tag : Z; tl_length : Z; tl_isCompound : bool
}.

(** [parseBase128Int]: the tag number of the high-tag-number form. *)
Fixpoint parseBase128Int (shifted : nat) (ret64 : Z) (bs : bytes)
  : result (Z * bytes) :=
  match bs with
  | [] => Err (LibError "asn1: syntax error: truncated base 128 integer")
  | b :: rest =>
      if (shifted =? 5)%nat
      then Err (LibError "asn1: structure error: base 128 integer too large")
      else if (shifted =? 0)%nat && (b2z b =? 128)
      then Err (LibError "asn1: syntax error: integer is not minimally encoded")
      else
        let ret64 := Z.lor (Z.shiftl ret64 7) (Z.land (b2z b) 127) in
        if Z.land (b2z b) 128 =? 0
        then if ret64 >? 2147483647
             then Err (LibError "asn1: structure error: base 128 integer too large")
             else Ok (ret64, rest)
        else parseBase128Int (S shifted) ret64 rest
  end.

(** The long form of a length: [numBytes] octets, big endian. *)
Fixpoint parseLongLength (numBytes : nat) (len : Z) (bs : bytes)
  : result (Z * bytes) :=
  match numBytes with
  | O => if len <? 128
         then Err (LibError "asn1: structure error: non-minimal length")
         else Ok (len, bs)
  | S n =>
      match bs with
      | [] => Err (LibError "asn1: syntax error: truncated tag or length")
      | b :: rest =>
          if len >=? 2 ^ 23
          then Err (LibError "asn1: structure error: length too large")
          else
            let len := Z.lor (Z.shiftl len 8) (b2z b) in
            if len =? 0
            then Err (LibError "asn1: structure error: superfluous leading zeros in length")
            else parseLongLength n len rest
      end
  end.

Definition parseTagAndLength (bs : bytes) : result (tagAndLength * bytes) :=
  match bs with
  | [] => Err (LibError "asn1: internal error in parseTagAndLength")
  | b :: rest =>
      let class := Z.shiftr (b2z b) 6 in
      let isCompound := Z.land (b2z b) 32 =? 32 in
      let tag := Z.land (b2z b) 31 in
      let tagged :=
        if tag =? 31
        then match parseBase128Int 0 0 rest with
             | Err e => Err e
             | Ok (t, rest') =>
                 if t <? 31
                 then Err (LibError "asn1: syntax error: non-minimal tag")
                 else Ok (t, rest')
             end
        else Ok (tag, rest) in
      match tagged with
      | Err e => Err e
      | Ok (tag, rest) =>
          match rest with
          | [] => Err (LibError "asn1: syntax error: truncated tag or length")
          | l :: rest' =>
              if Z.land (b2z l) 128 =? 0
              then Ok (mkTL class tag (Z.land (b2z l) 127) isCompound, rest')
              else
                let numBytes := Z.land (b2z l) 127 in
                if numBytes =? 0
                then Err (LibError "asn1: syntax error: indefinite length found (not DER)")
                else match parseLongLength (Z.to_nat numBytes) 0 rest' with
                     | Err e => Err e
                     | Ok (len, rest'') => Ok (mkTL class tag len isCompound, rest'')
                     end
          end
      end
  end.

(** The element's header, its content and what follows it. *)
Definition parseElement (bs : bytes)
  : result (tagAndLength * bytes * bytes * bytes) :=
  match bs with
  | [] => Err (LibError "asn1: syntax error: sequence truncated")
  | _ =>
      match parseTagAndLength bs with
      | Err e => Err e
      | Ok (t, body) =>
          if Z.of_nat (length body) <? tl_length t
          then Err (LibError "asn1: syntax error: data truncated")
          else
            let n := Z.to_nat (tl_length t) in
            let inner := take n body in
            let rest := drop n body in
            let full := take (length bs - length rest)%nat bs in
            Ok (t, inner, full, rest)
      end
  end.

Definition UnmarshalRaw (bs : bytes) : result (RawValue * bytes) :=
  match parseElement bs with
  | Err e => Err e
  | Ok (t, inner, full, rest) =>
      Ok (mkRawValue (tl_class t) (tl_tag t) (tl_isCompound t) inner full, rest)
  end.

Definition checkInteger (bs : bytes) : result unit :=
  match bs with
  | [] => Err (LibError "asn1: structure error: empty integer")
  | [_] => Ok tt
  | b0 :: b1 :: _ =>
      if ((b2z b0 =? 0) && (Z.land (b2z b1) 128 =? 0))
         || ((b2z b0 =? 255) && (Z.land (b2z b1) 128 =? 128))
      then Err (LibError "asn1: structure error: integer not minimally-encoded")
      else Ok tt
  end.

Definition be_unsigned (bs : bytes) : Z :=
  fold_left (fun acc b => Z.lor (Z.shiftl acc 8) (b2z b)) bs 0.

(** [parseInt64]: big endian, two's complement, at most 8 octets. *)
Definition parseInt64 (bs : bytes) : result Z :=
  match checkInteger bs with
  | Err e => Err e
  | Ok _ =>
      if (8 <? length bs)%nat
      then Err (LibError "asn1: structure error: integer too large")
      else
        let u := be_unsigned bs in
        let w := 8 * Z.of_nat (length bs) in
        Ok (if u <? 2 ^ (w - 1) then u else u - 2 ^ w)
  end.

Definition UnmarshalInt (bs : bytes) : result Z :=
  match parseElement bs with
  | Err e => Err e
  | Ok (t, inner, _, _) =>
      if negb (tl_class t =? ClassUniversal) || negb (tl_tag t =? TagInteger)
         || tl_isCompound t
      then Err (LibError "asn1: structure error: tags don't match")
      else parseInt64 inner
  end.

#[export] Instance codec : Codec :=
  {| asn1.UnmarshalRaw := UnmarshalRaw; asn1.UnmarshalInt := UnmarshalInt |}.
End goasn1.

(** ** [gosnmp]: the data the core touches *)

Module gosnmp.
Definition SnmpVersion := Z.
Definition Version1 : SnmpVersion := 0.
Definition Version2c : SnmpVersion := 1.
Definition Version3 : SnmpVersion := 3.

(** [SnmpVersion.String]. *)
Definition SnmpVersion_String (s : SnmpVersion) : string :=
  if s =? Version1 then "1" else if s =? Version2c then "2c" else "3".

Definition PDUType := Z.
Definition Sequence : PDUType := 48.          (* 0x30 *)
Definition GetRequest : PDUType := 160.       (* 0xa0 *)
Definition GetNextRequest : PDUType := 161.   (* 0xa1 *)
Definition GetResponse : PDUType := 162.      (* 0xa2 *)
Definition SetRequest : PDUType := 163.       (* 0xa3 *)
Definition Trap : PDUType := 164.             (* 0xa4 *)
Definition GetBulkRequest : PDUType := 165.   (* 0xa5 *)
Definition InformRequest : PDUType := 166.    (* 0xa6 *)
Definition SNMPv2Trap : PDUType := 167.       (* 0xa7 *)
Definition Report : PDUType := 168.           (* 0xa8 *)

Definition SnmpV3MsgFlags := Z.
Definition NoAuthNoPriv : SnmpV3MsgFlags := 0.
Definition AuthNoPriv : SnmpV3MsgFlags := 1.
Definition AuthPriv : SnmpV3MsgFlags := 3.

Inductive SnmpV3AuthProtocol := NoAuth | MD5 | SHA.
Inductive SnmpV3PrivProtocol := NoPriv | DES | AES | AES192 | AES256.
Inductive SnmpV3SecurityModel := NoSecurityModel | UserSecurityModel.

(** The dynamic type and value behind an [interface{}]. *)
Inductive Value : Type :=
| VNil
| VInt (v : Z)
| VInt64 (v : Z)
| VUint (v : Z)
| VUint32 (v : Z)
| VUint64 (v : Z)
| VBytes (v : bytes)
| VString (v : string)
| VOther (type_name : string) (printed : string).

Record SnmpPDU : Type := mkPDU {
  Name : string;
  Type_ : Z;
  Value_ : Value
}.

Record UsmSecurityParameters : Type := mkUsm {
  UserName : string;
  AuthenticationProtocol : SnmpV3AuthProtocol;
  AuthenticationPassphrase : string;
  PrivacyProtocol : SnmpV3PrivProtocol;
  PrivacyPassphrase : string
}.

(** The [SnmpV3SecurityParameters] interface value. *)
Inductive SecurityParameters_ : Type :=
| Usm (p : UsmSecurityParameters)
| OtherParameters (type_name : string).

Record SnmpPacket : Type := mkPacket {
  Version : SnmpVersion;
  MsgFlags : SnmpV3MsgFlags;
  SecurityParameters : option SecurityParameters_;
  Community : string;
  PDUType_ : PDUType;
  RequestID : Z;
  Error : Z;
  ErrorIndex : Z;
  Variables : list SnmpPDU
}.

(** The decoding handle [gosnmp.GoSNMP]. *)
Record GoSNMP : Type := mkGoSNMP {
  g_Community : string;
  g_Version : SnmpVersion;
  g_Timeout : time.Duration;
  g_Retries : Z;
  g_ExponentialTimeout : bool;
  g_SecurityModel : SnmpV3SecurityModel;
  g_SecurityParameters : option SecurityParameters_;
  g_MsgFlags : SnmpV3MsgFlags
}.

(** What the core calls in the library. *)
Class Lib : Type := {
  SnmpDecodePacket : GoSNMP -> bytes -> result SnmpPacket;
  MarshalMsg : SnmpPacket -> result bytes;
  ToBigInt : Value -> Z
}.
End gosnmp.

(** ** [fmt]: the verbs [%v] and [%T] on the values above *)

Module fmt.
Import gosnmp.

Definition Sprint_bytes (bs : bytes) : string :=
  "[" +:+ String.concat " " (map (fun b => pretty (b2z b)) bs) +:+ "]".

Definition Sprintf_v (v : Value) : string :=
  match v with
  | VNil => "<nil>"
  | VInt z | VInt64 z | VUint z | VUint32 z | VUint64 z => pretty z
  | VBytes bs => Sprint_bytes bs
  | VString s => s
  | VOther _ printed => printed
  end.

Definition Sprintf_T (v : Value) : string :=
  match v with
  | VNil => "<nil>"
  | VInt _ => "int"
  | VInt64 _ => "int64"
  | VUint _ => "uint"
  | VUint32 _ => "uint32"
  | VUint64 _ => "uint64"
  | VBytes _ => "[]uint8"
  | VString _ => "string"
  | VOther t _ => t
  end.
End fmt.

(** ** [net]: addresses, sockets and the datagrams written to them *)

Module net.
Record UDPAddr : Type := mkAddr { IP : bytes; Port : Z }.

(** A socket handle; [fd] names the socket. *)
Record UDPConn : Type := mkConn { fd : Z }.

(** The network as the sender sees it: [WriteToUDP] either hands the
    datagram over or fails, and moves the network to a new state. *)
Class Stack : Type := {
  Net : Type;
  WriteToUDP : option UDPConn -> bytes -> UDPAddr -> Net -> Net * result Z
}.
End net.

(** ** [pkg/models]: packets in and out of the core *)

Module models.
(** [RemoteAddr] is a pointer in Go; [receiveLoop] fills it with the
    address [ReadFromUDP] returned and the handler dereferences it
    without a test, so the embedding keeps the address itself. *)
Record RawPacket : Type := mkRaw {
  Data : option bytes;
  Conn : option net.UDPConn;
  RemoteAddr : net.UDPAddr
}.

Record TrapMessage : Type := mkTrap {
  ReceivedAt : Z;
  ProcessedAt : Z;
  SourceIP : bytes;
  SourcePort : Z;
  AgentType : string;
  Hostname : string;
  Version : gosnmp.SnmpVersion;
  Community : string;
  SecurityModel : string;
  UserName : string;
  PDUType : gosnmp.PDUType;
  RequestID : Z;
  V1EnterpriseOID : string;
  V1GenericTrap : Z;
  V1SpecificTrap : Z;
  V2cV3Timestamp : Z;
  VariableMap : gmap string string;
  RawData : option bytes;
  NeedsResponse : bool;
  AlertType : string;
  Severity : string;
  Component : string;
  Message : string;
  SerialNumber : string
}.

(** The bytes of a slice that may be nil. *)
Definition slice (d : option bytes) : bytes := default [] d.
End models.

(** ** [pkg/config]: engine and server configuration *)

Module config.
Record V1EngineConfig : Type := mkV1Config {
  v1_ReadCommunity : string;
  v1_ReadWriteCommunity : string;
  v1_Enabled : bool
}.

Record V2cEngineConfig : Type := mkV2cConfig {
  v2c_ReadCommunity : string;
  v2c_ReadWriteCommunity : string;
  v2c_Enabled : bool
}.

Record V3EngineConfig : Type := mkV3Config {
  v3_Enabled : bool;
  v3_UserName : string;
  v3_MsgFlags : string;
  v3_AuthProtocol : string;
  v3_PrivProtocol : string;
  v3_PrivPassphrase : string;
  v3_AuthPassphrase : string
}.

(** The three pointers of the factory configuration; [None] is nil. *)
Record ResponseEngineFactoryConfig : Type := mkFactoryConfig {
  V1Config : option V1EngineConfig;
  V2cConfig : option V2cEngineConfig;
  V3Config : option V3EngineConfig
}.

Record ResponseManagerConfig : Type := mkManagerConfig {
  EngineFactoryConfig : ResponseEngineFactoryConfig
}.

Record ReceiverConfig : Type := mkReceiverConfig { Port : Z }.

Record TrapHandlerConfig : Type := mkHandlerConfig {
  WorkerCount : Z;
  QueueSize : Z;
  LockTimeout : Z;
  ProcessingTimeout : Z
}.

Record SNMPServerConfig : Type := mkServerConfig {
  ReceiverConf : ReceiverConfig;
  TrapHandlerConf : TrapHandlerConfig;
  MidChannelSize : Z
}.
End config.

(** ** [pkg/snmp]: security model, response engines, factory, manager *)

Module snmp.
Import gosnmp.

(** *** The community security model (v1/v2c) *)

Record CommunitySecurityModel : Type := mkCommunityModel {
  readCommunity : string;
  readWriteCommunity : string
}.

Definition NewCommunitySecurityModel (rc rwc : string) : CommunitySecurityModel :=
  {| readCommunity := rc; readWriteCommunity := rwc |}.

Definition String_eqb (a b : string) : bool := bool_decide (a = b).

(** [Authenticate] returns the error, [None] for nil. The packet is a
    pointer: [None] is the nil packet. *)
Definition Authenticate (m : CommunitySecurityModel) (packet : option SnmpPacket)
  : option error :=
  match packet with
  | None => Some ErrNilRequest
  | Some packet =>
      if String_eqb (Community packet) "" then Some ErrEmptyCommunity
      else
        let t := PDUType_ packet in
        if (t =? GetRequest) || (t =? GetNextRequest) || (t =? GetBulkRequest) then
          if negb (String_eqb (Community packet) (readCommunity m))
             && negb (String_eqb (Community packet) (readWriteCommunity m))
          then Some ErrInvalidCommunity else None
        else if t =? SetRequest then
          if negb (String_eqb (Community packet) (readWriteCommunity m))
          then Some ErrInvalidCommunity else None
        else if t =? InformRequest then None
        else if t =? Trap then
          if negb (Version packet =? Version1) then Some ErrVersionMissMatch else None
        else if t =? SNMPv2Trap then
          if negb (Version packet =? Version2c) then Some ErrVersionMissMatch else None
        else Some ErrUnsupportedPDUType
  end.

Definition Encrypt (m : CommunitySecurityModel) (packet : option SnmpPacket)
  : option error := None.

Definition Decrypt (m : CommunitySecurityModel) (packet : option SnmpPacket)
  : option error := None.

(** [CheckAccess(version, operation)]: the pair [(bool, error)]. *)
Definition CheckAccess (m : CommunitySecurityModel) (version : string)
    (operation : PDUType) : bool * option error :=
  if operation =? Trap then (true, None)
  else if (operation =? InformRequest)
          && String_eqb version (SnmpVersion_String Version2c)
  then (true, None)
  else (false, None).

(** *** The v1/v2c engine *)

Record V1_V2cResponseEngine : Type := mkV1V2cEngine {
  enabled : bool;
  version : SnmpVersion;
  securityModel : CommunitySecurityModel;
  engineID : string;
  decodeerMap : gmap string GoSNMP
}.

Definition community_decoder (c : string) (v : SnmpVersion) : GoSNMP :=
  {| g_Community := c; g_Version := v; g_Timeout := 0; g_Retries := 0;
     g_ExponentialTimeout := false; g_SecurityModel := NoSecurityModel;
     g_SecurityParameters := None; g_MsgFlags := 0 |}.

Section Engines.
Context `{Codec : asn1.Codec} `{Lib : gosnmp.Lib} `{Stack : net.Stack}.
(** [generateEngineID]: a tag built from the clock and random bytes;
    the embedding takes the finished tag per version. *)
Variable generateEngineID : SnmpVersion -> string.

(** [None] is the panic on an enabled engine without communities. *)
Definition NewV1_V2cResponseEngine (readCommunity readWriteCommunity : string)
    (enabled : bool) (v : SnmpVersion) : option V1_V2cResponseEngine :=
  if enabled && (String_eqb readCommunity "" || String_eqb readWriteCommunity "")
  then None
  else
    let rd := community_decoder readCommunity v in
    let rwd := community_decoder readWriteCommunity v in
    Some {| enabled := enabled;
            version := v;
            securityModel := NewCommunitySecurityModel readCommunity readWriteCommunity;
            engineID := generateEngineID v;
            decodeerMap := <[readWriteCommunity := rwd]> (<[readCommunity := rd]> ∅) |}.

Definition createInformResponse (e : V1_V2cResponseEngine) (request : SnmpPacket)
  : result SnmpPacket :=
  if version e =? Version1 then Err ErrInvalidInformRequest
  else if version e =? Version2c then
    Ok {| RequestID := RequestID request;
          Version := version e;
          Community := Community request;
          PDUType_ := GetResponse;
          Error := 0;
          ErrorIndex := 0;
          Variables := [];
          MsgFlags := 0;
          SecurityParameters := None |}
  else Err ErrV1InformNotSupported.

Definition validateAndProcessSecurity (e : V1_V2cResponseEngine)
    (request : option SnmpPacket) : option error :=
  Authenticate (securityModel e) request.

Definition createResponse (e : V1_V2cResponseEngine) (request : option SnmpPacket)
  : result SnmpPacket :=
  match request with
  | None => Err ErrNilRequest
  | Some req =>
      if negb (Version req =? Version1) then Err ErrVersionMissMatch
      else match validateAndProcessSecurity e request with
           | Some err => Err err
           | None =>
               if PDUType_ req =? Trap then Err ErrV1TrapNotSupported
               else if PDUType_ req =? InformRequest then createInformResponse e req
               else Err ErrUnsupportedPDUType
           end
  end.

Definition shouldRespond (e : V1_V2cResponseEngine) (request : option SnmpPacket)
  : bool :=
  match request with
  | None => false
  | Some req =>
      if PDUType_ req =? Trap then false
      else if (PDUType_ req =? GetRequest) || (PDUType_ req =? GetNextRequest)
              || (PDUType_ req =? SetRequest)
      then true
      else false
  end.

Definition canProcessRequest (e : V1_V2cResponseEngine) (request : option SnmpPacket)
  : bool :=
  match request with
  | None => false
  | Some req =>
      if negb (enabled e) then false
      else if Version req =? Version1 then
        (if PDUType_ req =? Trap then true else false)
      else if Version req =? Version2c then
        (if (PDUType_ req =? GetRequest) || (PDUType_ req =? GetNextRequest)
            || (PDUType_ req =? SetRequest)
         then false
         else if (PDUType_ req =? InformRequest) || (PDUType_ req =? SNMPv2Trap)
         then true
         else false)
      else false
  end.

(** [sendSNMPResponse]: marshal, then write to the reply endpoint of
    the raw packet. *)
Definition sendSNMPResponse (response : SnmpPacket) (rawPacket : models.RawPacket)
    (n : net.Net) : net.Net * option error :=
  match MarshalMsg response with
  | Err err => (n, Some (Errorf "failed to marshal SNMP response: %w" err))
  | Ok data =>
      match net.WriteToUDP (models.Conn rawPacket) data
              (models.RemoteAddr rawPacket) n with
      | (n', Err err) => (n', Some (Errorf "failed to send SNMP response: %w" err))
      | (n', Ok _) => (n', None)
      end
  end.

(** [parseSNMPv1v2cCommunity]: the second element of the outer
    sequence, as a string. *)
Definition parseSNMPv1v2cCommunity (data : bytes) : result string :=
  match asn1.UnmarshalRaw data with
  | Err err => Err (Errorf "failed to unmarshal outer sequence: %v" err)
  | Ok (outerSeq, _) =>
      if negb (asn1.Tag outerSeq =? asn1.TagSequence)
         || negb (asn1.Class outerSeq =? asn1.ClassUniversal)
      then Err (LibError "expected SEQUENCE at outer level")
      else
        match asn1.UnmarshalRaw (asn1.Bytes outerSeq) with
        | Err err => Err (Errorf "failed to unmarshal version field: %v" err)
        | Ok (versionField, rest) =>
            match asn1.UnmarshalRaw rest with
            | Err err => Err (Errorf "failed to unmarshal community: %v" err)
            | Ok (community, _) =>
                if negb (asn1.Tag community =? asn1.TagOctetString)
                then Err (LibError "expected OCTET STRING for community")
                else Ok (String.string_of_list_byte (asn1.Bytes community))
            end
        end
  end.

Definition V1_V2c_ProcessRequest (engine : V1_V2cResponseEngine)
    (rawPacket : models.RawPacket) (n : net.Net) : net.Net * result SnmpPacket :=
  let data := models.slice (models.Data rawPacket) in
  match parseSNMPv1v2cCommunity data with
  | Err pCErr => (n, Err pCErr)
  | Ok requestCommunity =>
      match decodeerMap engine !! requestCommunity with
      | None => (n, Err ErrInvalidCommunity)
      | Some decoder =>
          match SnmpDecodePacket decoder data with
          | Err _ => (n, Err ErrDecodeSNMPrequest)
          | Ok snmpPacket =>
              if negb (canProcessRequest engine (Some snmpPacket))
              then (n, Err ErrUnsupportedPDUType)
              else
                match validateAndProcessSecurity engine (Some snmpPacket) with
                | Some err =>
                    (n, Err (Errorf "failed to validate and process security: %v" err))
                | None =>
                    if negb (shouldRespond engine (Some snmpPacket))
                    then (n, Ok snmpPacket)
                    else
                      match createResponse engine (Some snmpPacket) with
                      | Err createRespErr =>
                          (n, Err (Errorf "failed to create response: %v" createRespErr))
                      | Ok response =>
                          let '(n', _) := sendSNMPResponse response rawPacket n in
                          (n', Ok snmpPacket)
                      end
                end
          end
      end
  end.

(** *** The v3 engine *)

Record V3ResponseEngine : Type := mkV3Engine {
  v3_enabled : bool;
  v3_version : SnmpVersion;
  v3_engineID : string;
  v3_decoder : GoSNMP
}.

(** [None] is the panic on an unknown flag or protocol name. *)
Definition NewV3ResponseEngine (config : config.V3EngineConfig)
  : option V3ResponseEngine :=
  let msgFlags :=
    if String_eqb (config.v3_MsgFlags config) "NoAuthNoPriv" then Some NoAuthNoPriv
    else if String_eqb (config.v3_MsgFlags config) "AuthNoPriv" then Some AuthNoPriv
    else if String_eqb (config.v3_MsgFlags config) "AuthPriv" then Some AuthPriv
    else None in
  let authProtocol :=
    if String_eqb (config.v3_AuthProtocol config) "MD5" then Some MD5
    else if String_eqb (config.v3_AuthProtocol config) "SHA" then Some SHA
    else None in
  let privProtocol :=
    if String_eqb (config.v3_PrivProtocol config) "DES" then Some DES
    else if String_eqb (config.v3_PrivProtocol config) "AES" then Some AES
    else if String_eqb (config.v3_PrivProtocol config) "AES192" then Some AES192
    else if String_eqb (config.v3_PrivProtocol config) "AES256" then Some AES256
    else None in
  match msgFlags, authProtocol, privProtocol with
  | Some msgFlags, Some authProtocol, Some privProtocol =>
      let securityParameters :=
        {| UserName := config.v3_UserName config;
           AuthenticationProtocol := authProtocol;
           AuthenticationPassphrase := config.v3_AuthPassphrase config;
           PrivacyProtocol := privProtocol;
           PrivacyPassphrase := config.v3_PrivPassphrase config |} in
      Some {| v3_enabled := config.v3_Enabled config;
              v3_version := Version3;
              v3_engineID := generateEngineID Version3;
              v3_decoder :=
                {| g_Community := "";
                   g_Version := Version3;
                   g_Timeout := 30 * time.Second;
                   g_Retries := 3;
                   g_ExponentialTimeout := true;
                   g_SecurityModel := UserSecurityModel;
                   g_SecurityParameters := Some (Usm securityParameters);
                   g_MsgFlags := msgFlags |} |}
  | _, _, _ => None
  end.

Definition V3_ProcessRequest (e : V3ResponseEngine) (rawPacket : models.RawPacket)
    (n : net.Net) : net.Net * result SnmpPacket :=
  match SnmpDecodePacket (v3_decoder e) (models.slice (models.Data rawPacket)) with
  | Err _ => (n, Err ErrDecodeSNMPrequest)
  | Ok snmpPacket =>
      if negb (PDUType_ snmpPacket =? SNMPv2Trap)
         && negb (PDUType_ snmpPacket =? InformRequest)
      then (n, Err ErrUnsupportedPDUType)
      else if PDUType_ snmpPacket =? InformRequest then
        let response :=
          {| RequestID := RequestID snmpPacket;
             Version := v3_version e;
             Community := Community snmpPacket;
             PDUType_ := GetResponse;
             Error := 0;
             ErrorIndex := 0;
             Variables := [];
             MsgFlags := 0;
             SecurityParameters := None |} in
        let '(n', _) := sendSNMPResponse response rawPacket n in
        (n', Ok snmpPacket)
      else (n, Ok snmpPacket)
  end.

(** *** The engine interface, the factory and the manager *)

Inductive SNMPResponseEngine : Type :=
| EngineV1V2c (e : V1_V2cResponseEngine)
| EngineV3 (e : V3ResponseEngine).

Definition ProcessRequest (engine : SNMPResponseEngine)
    (rp : models.RawPacket) (n : net.Net) : net.Net * result SnmpPacket :=
  match engine with
  | EngineV1V2c e => V1_V2c_ProcessRequest e rp n
  | EngineV3 e => V3_ProcessRequest e rp n
  end.

Definition GetVersion (engine : SNMPResponseEngine) : SnmpVersion :=
  match engine with
  | EngineV1V2c e => version e
  | EngineV3 e => v3_version e
  end.

Definition GetEngineID (engine : SNMPResponseEngine) : string :=
  match engine with
  | EngineV1V2c e => engineID e
  | EngineV3 e => v3_engineID e
  end.

Definition Enable (engine : SNMPResponseEngine) : bool :=
  match engine with
  | EngineV1V2c e => enabled e
  | EngineV3 e => v3_enabled e
  end.

Record ResponseEngineFactory : Type := mkFactory {
  engines : gmap Z SNMPResponseEngine
}.

(** [NewResponseEngineFactory]: an engine per configured version.
    The v1 engine is built whenever its configuration is present;
    the v2c and v3 engines only when theirs is present and enabled.
    [None] is a panic of one of the constructors. *)
Definition NewResponseEngineFactory (config : config.ResponseEngineFactoryConfig)
  : option ResponseEngineFactory :=
  let engines0 : option (gmap Z SNMPResponseEngine) := Some ∅ in
  let engines1 :=
    match config.V1Config config with
    | Some c =>
        m ← engines0;
        e ← NewV1_V2cResponseEngine (config.v1_ReadCommunity c)
              (config.v1_ReadWriteCommunity c) (config.v1_Enabled c) Version1;
        Some (<[Version1 := EngineV1V2c e]> m)
    | None => engines0
    end in
  let engines2 :=
    match config.V2cConfig config with
    | Some c =>
        if config.v2c_Enabled c then
          m ← engines1;
          e ← NewV1_V2cResponseEngine (config.v2c_ReadCommunity c)
                (config.v2c_ReadWriteCommunity c) (config.v2c_Enabled c) Version2c;
          Some (<[Version2c := EngineV1V2c e]> m)
        else engines1
    | None => engines1
    end in
  let engines3 :=
    match config.V3Config config with
    | Some c =>
        if config.v3_Enabled c then
          m ← engines2;
          e ← NewV3ResponseEngine c;
          Some (<[Version3 := EngineV3 e]> m)
        else engines2
    | None => engines2
    end in
  m ← engines3; Some {| engines := m |}.

Definition createEngine (f : ResponseEngineFactory) (version : SnmpVersion)
  : result SNMPResponseEngine :=
  match engines f !! version with
  | None => Err ErrUnsupportedVersion
  | Some engine => Ok engine
  end.

Record ResponseManager : Type := mkManager { factory : ResponseEngineFactory }.

Definition NewResponseManager (config : config.ResponseManagerConfig)
  : option ResponseManager :=
  f ← NewResponseEngineFactory (config.EngineFactoryConfig config);
  Some {| factory := f |}.

(** [parseSNMPVersion]: the version sniffer. *)
Definition parseSNMPVersion (m : ResponseManager) (data : bytes)
  : result SnmpVersion :=
  match asn1.UnmarshalRaw data with
  | Err _ => Err ErrParseSNMPVersion
  | Ok (outerSeq, _) =>
      if negb (asn1.Tag outerSeq =? asn1.TagSequence)
         || negb (asn1.Class outerSeq =? asn1.ClassUniversal)
      then Err ErrParseSNMPVersion
      else
        match asn1.UnmarshalRaw (asn1.Bytes outerSeq) with
        | Err _ => Err ErrParseSNMPVersion
        | Ok (version, _) =>
            if negb (asn1.Tag version =? asn1.TagInteger)
            then Err ErrParseSNMPVersion
            else
              match asn1.UnmarshalInt (asn1.FullBytes version) with
              | Err _ => Err ErrParseSNMPVersion
              | Ok versionInt =>
                  if versionInt =? 0 then Ok Version1
                  else if versionInt =? 1 then Ok Version2c
                  else if versionInt =? 3 then Ok Version3
                  else Err ErrIligelVersion
              end
        end
  end.

Definition ResponseRequest (m : ResponseManager) (rawPacket : models.RawPacket)
    (n : net.Net) : net.Net * result SnmpPacket :=
  match models.Data rawPacket with
  | None => (n, Err ErrNilRequest)
  | Some data =>
      match parseSNMPVersion m data with
      | Err err => (n, Err err)
      | Ok packetVersion =>
          if negb (packetVersion =? Version1) && negb (packetVersion =? Version2c)
             && negb (packetVersion =? Version3)
          then (n, Err ErrVersionMissMatch)
          else
            match createEngine (factory m) packetVersion with
            | Err err => (n, Err err)
            | Ok engine =>
                if negb (Enable engine) then (n, Err ErrDisableVersion)
                else ProcessRequest engine rawPacket n
            end
      end
  end.
End Engines.
End snmp.

(** ** [pkg/storage]: the distributed lock contract *)

Module storage.
(** [DistributedLockerInterface]; [Locker] is the state of the backend
    the client talks to. The context argument of the Go methods only
    bounds the duration of the call: a call that runs out of time
    returns an error. *)
Class DistributedLockerInterface : Type := {
  Locker : Type;
  AcquireLock : Locker -> string -> time.Duration -> Locker * result bool;
  ReleaseLock : Locker -> string -> Locker * option error;
  GenerateTrapLockKey : bytes -> string;
  Close : Locker -> Locker * option error
}.
End storage.

(** ** [internal/server/snmp]: the trap handler *)

Module handler.
Import gosnmp models.

(** Assignments to the fields of a [TrapMessage] the normalizer writes. *)

Definition set_V1EnterpriseOID (x : string) (t : TrapMessage) : TrapMessage :=
  {| models.ReceivedAt := models.ReceivedAt t;
     models.ProcessedAt := models.ProcessedAt t;
     models.SourceIP := models.SourceIP t;
     models.SourcePort := models.SourcePort t;
     models.AgentType := models.AgentType t;
     models.Hostname := models.Hostname t;
     models.Version := models.Version t;
     models.Community := models.Community t;
     models.SecurityModel := models.SecurityModel t;
     models.UserName := models.UserName t;
     models.PDUType := models.PDUType t;
     models.RequestID := models.RequestID t;
     models.V1EnterpriseOID := x;
     models.V1GenericTrap := models.V1GenericTrap t;
     models.V1SpecificTrap := models.V1SpecificTrap t;
     models.V2cV3Timestamp := models.V2cV3Timestamp t;
     models.VariableMap := models.VariableMap t;
     models.RawData := models.RawData t;
     models.NeedsResponse := models.NeedsResponse t;
     models.AlertType := models.AlertType t;
     models.Severity := models.Severity t;
     models.Component := models.Component t;
     models.Message := models.Message t;
     models.SerialNumber := models.SerialNumber t |}.

Definition set_V1GenericTrap (x : Z) (t : TrapMessage) : TrapMessage :=
  {| models.ReceivedAt := models.ReceivedAt t;
     models.ProcessedAt := models.ProcessedAt t;
     models.SourceIP := models.SourceIP t;
     models.SourcePort := models.SourcePort t;
     models.AgentType := models.AgentType t;
     models.Hostname := models.Hostname t;
     models.Version := models.Version t;
     models.Community := models.Community t;
     models.SecurityModel := models.SecurityModel t;
     models.UserName := models.UserName t;
     models.PDUType := models.PDUType t;
     models.RequestID := models.RequestID t;
     models.V1EnterpriseOID := models.V1EnterpriseOID t;
     models.V1GenericTrap := x;
     models.V1SpecificTrap := models.V1SpecificTrap t;
     models.V2cV3Timestamp := models.V2cV3Timestamp t;
     models.VariableMap := models.VariableMap t;
     models.RawData := models.RawData t;
     models.NeedsResponse := models.NeedsResponse t;
     models.AlertType := models.AlertType t;
     models.Severity := models.Severity t;
     models.Component := models.Component t;
     models.Message := models.Message t;
     models.SerialNumber := models.SerialNumber t |}.

Definition set_V1SpecificTrap (x : Z) (t : TrapMessage) : TrapMessage :=
  {| models.ReceivedAt := models.ReceivedAt t;
     models.ProcessedAt := models.ProcessedAt t;
     models.SourceIP := models.SourceIP t;
     models.SourcePort := models.SourcePort t;
     models.AgentType := models.AgentType t;
     models.Hostname := models.Hostname t;
     models.Version := models.Version t;
     models.Community := models.Community t;
     models.SecurityModel := models.SecurityModel t;
     models.UserName := models.UserName t;
     models.PDUType := models.PDUType t;
     models.RequestID := models.RequestID t;
     models.V1EnterpriseOID := models.V1EnterpriseOID t;
     models.V1GenericTrap := models.V1GenericTrap t;
     models.V1SpecificTrap := x;
     models.V2cV3Timestamp := models.V2cV3Timestamp t;
     models.VariableMap := models.VariableMap t;
     models.RawData := models.RawData t;
     models.NeedsResponse := models.NeedsResponse t;
     models.AlertType := models.AlertType t;
     models.Severity := models.Severity t;
     models.Component := models.Component t;
     models.Message := models.Message t;
     models.SerialNumber := models.SerialNumber t |}.

Definition set_V2cV3Timestamp (x : Z) (t : TrapMessage) : TrapMessage :=
  {| models.ReceivedAt := models.ReceivedAt t;
     models.ProcessedAt := models.ProcessedAt t;
     models.SourceIP := models.SourceIP t;
     models.SourcePort := models.SourcePort t;
     models.AgentType := models.AgentType t;
     models.Hostname := models.Hostname t;
     models.Version := models.Version t;
     models.Community := models.Community t;
     models.SecurityModel := models.SecurityModel t;
     models.UserName := models.UserName t;
     models.PDUType := models.PDUType t;
     models.RequestID := models.RequestID t;
     models.V1EnterpriseOID := models.V1EnterpriseOID t;
     models.V1GenericTrap := models.V1GenericTrap t;
     models.V1SpecificTrap := models.V1SpecificTrap t;
     models.V2cV3Timestamp := x;
     models.VariableMap := models.VariableMap t;
     models.RawData := models.RawData t;
     models.NeedsResponse := models.NeedsResponse t;
     models.AlertType := models.AlertType t;
     models.Severity := models.Severity t;
     models.Component := models.Component t;
     models.Message := models.Message t;
     models.SerialNumber := models.SerialNumber t |}.

Definition set_VariableMap (x : gmap string string) (t : TrapMessage) : TrapMessage :=
  {| models.ReceivedAt := models.ReceivedAt t;
     models.ProcessedAt := models.ProcessedAt t;
     models.SourceIP := models.SourceIP t;
     models.SourcePort := models.SourcePort t;
     models.AgentType := models.AgentType t;
     models.Hostname := models.Hostname t;
     models.Version := models.Version t;
     models.Community := models.Community t;
     models.SecurityModel := models.SecurityModel t;
     models.UserName := models.UserName t;
     models.PDUType := models.PDUType t;
     models.RequestID := models.RequestID t;
     models.V1EnterpriseOID := models.V1EnterpriseOID t;
     models.V1GenericTrap := models.V1GenericTrap t;
     models.V1SpecificTrap := models.V1SpecificTrap t;
     models.V2cV3Timestamp := models.V2cV3Timestamp t;
     models.VariableMap := x;
     models.RawData := models.RawData t;
     models.NeedsResponse := models.NeedsResponse t;
     models.AlertType := models.AlertType t;
     models.Severity := models.Severity t;
     models.Component := models.Component t;
     models.Message := models.Message t;
     models.SerialNumber := models.SerialNumber t |}.

Definition set_SecurityModel (x : string) (t : TrapMessage) : TrapMessage :=
  {| models.ReceivedAt := models.ReceivedAt t;
     models.ProcessedAt := models.ProcessedAt t;
     models.SourceIP := models.SourceIP t;
     models.SourcePort := models.SourcePort t;
     models.AgentType := models.AgentType t;
     models.Hostname := models.Hostname t;
     models.Version := models.Version t;
     models.Community := models.Community t;
     models.SecurityModel := x;
     models.UserName := models.UserName t;
     models.PDUType := models.PDUType t;
     models.RequestID := models.RequestID t;
     models.V1EnterpriseOID := models.V1EnterpriseOID t;
     models.V1GenericTrap := models.V1GenericTrap t;
     models.V1SpecificTrap := models.V1SpecificTrap t;
     models.V2cV3Timestamp := models.V2cV3Timestamp t;
     models.VariableMap := models.VariableMap t;
     models.RawData := models.RawData t;
     models.NeedsResponse := models.NeedsResponse t;
     models.AlertType := models.AlertType t;
     models.Severity := models.Severity t;
     models.Component := models.Component t;
     models.Message := models.Message t;
     models.SerialNumber := models.SerialNumber t |}.

Definition set_UserName (x : string) (t : TrapMessage) : TrapMessage :=
  {| models.ReceivedAt := models.ReceivedAt t;
     models.ProcessedAt := models.ProcessedAt t;
     models.SourceIP := models.SourceIP t;
     models.SourcePort := models.SourcePort t;
     models.AgentType := models.AgentType t;
     models.Hostname := models.Hostname t;
     models.Version := models.Version t;
     models.Community := models.Community t;
     models.SecurityModel := models.SecurityModel t;
     models.UserName := x;
     models.PDUType := models.PDUType t;
     models.RequestID := models.RequestID t;
     models.V1EnterpriseOID := models.V1EnterpriseOID t;
     models.V1GenericTrap := models.V1GenericTrap t;
     models.V1SpecificTrap := models.V1SpecificTrap t;
     models.V2cV3Timestamp := models.V2cV3Timestamp t;
     models.VariableMap := models.VariableMap t;
     models.RawData := models.RawData t;
     models.NeedsResponse := models.NeedsResponse t;
     models.AlertType := models.AlertType t;
     models.Severity := models.Severity t;
     models.Component := models.Component t;
     models.Message := models.Message t;
     models.SerialNumber := models.SerialNumber t |}.

Section Normalizer.
Context `{Lib : gosnmp.Lib}.

(** [extractV1Fields]: generic and specific trap and the enterprise
    OID of a v1 packet, read from bindings 0, 2 and 3. *)
Definition extractV1Fields (trap : TrapMessage) (snmpPacket : SnmpPacket)
  : TrapMessage :=
  match Variables snmpPacket with
  | enterprisePDU :: _ :: genericPDU :: specificPDU :: _ =>
      let trap :=
        match Value_ enterprisePDU with
        | VNil => trap
        | VBytes v => set_V1EnterpriseOID (pretty (ToBigInt (VBytes v))) trap
        | VString v => set_V1EnterpriseOID v trap
        | (VInt _ | VInt64 _ | VUint _ | VUint64 _) as v =>
            set_V1EnterpriseOID (fmt.Sprintf_v v) trap
        | v => set_V1EnterpriseOID (fmt.Sprintf_v v) trap
        end in
      let trap :=
        match Value_ genericPDU with
        | VInt v => set_V1GenericTrap v trap
        | VInt64 v => set_V1GenericTrap v trap
        | VUint32 v => set_V1GenericTrap v trap
        | _ => set_V1GenericTrap 0 trap
        end in
      match Value_ specificPDU with
      | VInt v => set_V1SpecificTrap v trap
      | VInt64 v => set_V1SpecificTrap v trap
      | VUint32 v => set_V1SpecificTrap v trap
      | _ => set_V1SpecificTrap 0 trap
      end
  | _ =>
      (* fewer than four bindings *)
      set_V1SpecificTrap 0 (set_V1GenericTrap 0 trap)
  end.

(** [extractV2cV3Fields]: sysUpTime from binding 0. *)
Definition extractV2cV3Fields (trap : TrapMessage) (snmpPacket : SnmpPacket)
  : TrapMessage :=
  match Variables snmpPacket with
  | [] => trap
  | firstVar :: _ =>
      match Value_ firstVar with
      | VNil => set_V2cV3Timestamp 0 trap
      | VUint32 v => set_V2cV3Timestamp v trap
      | VUint64 v =>
          if v >? MaxUint32 then set_V2cV3Timestamp MaxUint32 trap
          else set_V2cV3Timestamp (to_uint32 v) trap
      | VInt v =>
          if v <? 0 then set_V2cV3Timestamp 0 trap
          else set_V2cV3Timestamp (to_uint32 v) trap
      | VInt64 v =>
          if v <? 0 then set_V2cV3Timestamp 0 trap
          else if v >? MaxUint32 then set_V2cV3Timestamp MaxUint32 trap
          else set_V2cV3Timestamp (to_uint32 v) trap
      | _ => set_V2cV3Timestamp 0 trap
      end
  end.

(** [extractV3SecurityInfo]: the security level from the low two bits
    of the message flags, the user name from the USM parameters. *)
Definition extractV3SecurityInfo (trap : TrapMessage) (snmpPacket : SnmpPacket)
  : TrapMessage :=
  let level := Z.land (MsgFlags snmpPacket) 3 in
  let trap :=
    if level =? NoAuthNoPriv then set_SecurityModel "noAuthNoPriv" trap
    else if level =? AuthNoPriv then set_SecurityModel "authNoPriv" trap
    else if level =? AuthPriv then set_SecurityModel "authPriv" trap
    else set_SecurityModel ("Unknown(" +:+ pretty level +:+ ")") trap in
  match SecurityParameters snmpPacket with
  | Some (Usm params) => set_UserName (gosnmp.UserName params) trap
  | Some (OtherParameters _) => trap
  | None => trap
  end.

(** [convertToTrapMessage]; [now] is the reading of [time.Now()]. *)
Definition convertToTrapMessage (now : Z) (snmpPacket : SnmpPacket)
    (rawPacket : RawPacket) : TrapMessage :=
  let trap :=
    {| ReceivedAt := now;
       ProcessedAt := 0;
       SourceIP := net.IP (RemoteAddr rawPacket);
       SourcePort := net.Port (RemoteAddr rawPacket);
       AgentType := "";
       Hostname := "";
       models.Version := gosnmp.Version snmpPacket;
       models.Community := gosnmp.Community snmpPacket;
       models.SecurityModel := "";
       models.UserName := "";
       PDUType := PDUType_ snmpPacket;
       models.RequestID := gosnmp.RequestID snmpPacket;
       V1EnterpriseOID := "";
       V1GenericTrap := 0;
       V1SpecificTrap := 0;
       V2cV3Timestamp := 0;
       VariableMap := ∅;
       RawData := Data rawPacket;
       NeedsResponse := PDUType_ snmpPacket =? InformRequest;
       AlertType := "";
       Severity := "";
       Component := "";
       Message := "";
       SerialNumber := "" |} in
  let trap :=
    if gosnmp.Version snmpPacket =? Version1
    then extractV1Fields trap snmpPacket
    else if (gosnmp.Version snmpPacket =? Version2c)
            || (gosnmp.Version snmpPacket =? Version3)
    then extractV2cV3Fields trap snmpPacket
    else trap in
  let trap :=
    fold_left
      (fun trap pdu =>
         set_VariableMap (<[Name pdu := fmt.Sprintf_v (Value_ pdu)]> (VariableMap trap)) trap)
      (Variables snmpPacket) trap in
  if gosnmp.Version snmpPacket =? Version3
  then extractV3SecurityInfo trap snmpPacket
  else trap.
End Normalizer.

(** *** Workers *)

(** A buffered channel: what it holds and how much it can hold. *)
Record Chan (A : Type) : Type := mkChan { buf : list A; cap : nat }.
Arguments mkChan {A} buf cap.
Arguments buf {A} c.
Arguments cap {A} c.

(** What a worker does to its collaborators, in order. The log is not
    part of the program: it records the calls so that they can be
    talked about. *)
Inductive Event : Type :=
| EvAcquireLock (key : string) (ttl : time.Duration) (r : result bool)
| EvResponseRequest (raw : RawPacket)
| EvEmit (msg : TrapMessage)
| EvDiscard (msg : TrapMessage).

Record TrapHandler : Type := mkHandler {
  running : bool;
  LockTimeout : time.Duration
}.

Definition newTrapHandler (lt : time.Duration) : TrapHandler :=
  {| running := false; LockTimeout := lt |}.

(** [start] and [stop] of the handler: the lifecycle flag. *)
Definition start (h : TrapHandler) (workerCount : Z) : TrapHandler * option error :=
  if running h then (h, Some (LibError "trap handler already started"))
  else ({| running := true; LockTimeout := LockTimeout h |}, None).

Definition stop (h : TrapHandler) : TrapHandler * option error :=
  if negb (running h) then (h, Some (LibError "trap handler already stopped"))
  else ({| running := false; LockTimeout := LockTimeout h |}, None).

Section Worker.
Context `{Lib : gosnmp.Lib} `{Lock : storage.DistributedLockerInterface}.
(** The response manager behind [ResponseManagerInterface] and the
    state it acts on. *)
Context {RM : Type}.
Variable responseMgr : RawPacket -> RM -> RM * result SnmpPacket.

Record World : Type := mkWorld {
  locker : storage.Locker;
  rm : RM;
  outputChan : Chan TrapMessage;
  clock : Z;
  log : list Event
}.

Definition record (ev : Event) (w : World) : World :=
  {| locker := locker w; rm := rm w; outputChan := outputChan w;
     clock := clock w; log := log w ++ [ev] |}.

(** [sendProcessedTrapMessage]: a send bounded by 100 ms. The consumer
    is not part of the core: a full queue stays full while the
    worker waits, and the message is discarded. *)
Definition sendProcessedTrapMessage (trapMessage : TrapMessage) (w : World) : World :=
  if (length (buf (outputChan w)) <? cap (outputChan w))%nat
  then record (EvEmit trapMessage)
         {| locker := locker w; rm := rm w;
            outputChan := mkChan (buf (outputChan w) ++ [trapMessage])
                                 (cap (outputChan w));
            clock := clock w; log := log w |}
  else record (EvDiscard trapMessage) w.

(** [processTrap]: one dequeued packet. *)
Definition processTrap (h : TrapHandler) (rawPacket : RawPacket) (w : World) : World :=
  let lockKey := storage.GenerateTrapLockKey (slice (Data rawPacket)) in
  let '(l', r) := storage.AcquireLock (locker w) lockKey (LockTimeout h) in
  let w := record (EvAcquireLock lockKey (LockTimeout h) r)
             {| locker := l'; rm := rm w; outputChan := outputChan w;
                clock := clock w; log := log w |} in
  match r with
  | Err _ => w
  | Ok false => w
  | Ok true =>
      let '(rm', res) := responseMgr rawPacket (rm w) in
      let w := record (EvResponseRequest rawPacket)
                 {| locker := locker w; rm := rm'; outputChan := outputChan w;
                    clock := clock w; log := log w |} in
      match res with
      | Err _ => w
      | Ok snmpPacket =>
          let trapMessage := convertToTrapMessage (clock w) snmpPacket rawPacket in
          sendProcessedTrapMessage trapMessage w
      end
  end.

(** One worker taking packets off the ingress queue, one after the
    other, until the queue is closed. *)
Definition worker (h : TrapHandler) (inputs : list RawPacket) (w : World) : World :=
  fold_left (fun w rawPacket => processTrap h rawPacket w) inputs w.

Definition is_emit (ev : Event) : bool :=
  match ev with EvEmit _ => true | _ => false end.
Definition is_acquired (ev : Event) : bool :=
  match ev with EvAcquireLock _ _ (Ok true) => true | _ => false end.
Definition is_respond (ev : Event) : bool :=
  match ev with EvResponseRequest _ => true | _ => false end.

Definition emitted (l : list Event) : nat := length (List.filter is_emit l).
Definition acquired (l : list Event) : nat := length (List.filter is_acquired l).
Definition responded (l : list Event) : nat := length (List.filter is_respond l).
End Worker.
End handler.

(** ** [internal/server/snmp]: the receiver's lifecycle and the server *)

Module server.
Import handler.

Definition PipelineBufferScale : Z := 2.

Record udpReceiver : Type := mkReceiver {
  r_running : bool;
  listener : option net.UDPConn
}.

Definition newUDPReceiver : udpReceiver :=
  {| r_running := false; listener := None |}.

Record SNMPServer : Type := mkServer {
  config : config.SNMPServerConfig;
  running : bool;
  receiver : option udpReceiver;
  handler : option TrapHandler;
  midChannel : option (Chan models.RawPacket);
  outChannel : option (Chan models.TrapMessage)
}.

(** The steps of [Stop] that can be seen from outside, in order. *)
Inductive StopStep : Type :=
| StReceiverStop (err : option error)
| StSleep (d : time.Duration)
| StHandlerStop (err : option error).

Section Server.
(** [net.ListenUDP] on a port and [Close] of the listener. *)
Variable ListenUDP : Z -> result net.UDPConn.
Variable CloseUDP : net.UDPConn -> option error.

(** [udpReceiver.start]: bind and mark running (the receive loop is a
    task of its own). *)
Definition receiver_start (r : udpReceiver) (port : Z) : udpReceiver * option error :=
  if r_running r then (r, Some (LibError "UDP receiver already started"))
  else match ListenUDP port with
       | Err err => (r, Some (Errorf "failed to listen on UDP port %d: %w" err))
       | Ok l => ({| r_running := true; listener := Some l |}, None)
       end.

(** [udpReceiver.stop]: clear the flag, close the listener, then wait at
    most 5 s for the receive loop (the wait is not modelled). *)
Definition receiver_stop (r : udpReceiver) : udpReceiver * option error :=
  if negb (r_running r) then (r, Some (LibError "UDP receiver already stopped"))
  else
    let r' := {| r_running := false; listener := listener r |} in
    match listener r with
    | Some l =>
        match CloseUDP l with
        | Some err => (r', Some err)
        | None => (r', None)
        end
    | None => (r', None)
    end.

(** [NewSNMPServer]; the lock client and the response manager are the
    collaborators of the handler and are present. *)
Definition NewSNMPServer (cfg : option config.SNMPServerConfig) : result SNMPServer :=
  match cfg with
  | None => Err (LibError "config cannot be nil")
  | Some cfg =>
      Ok {| config := cfg; running := false; receiver := None; handler := None;
            midChannel := None; outChannel := None |}
  end.

(** [Start]; [None] is the panic of [make] on a negative channel size. *)
Definition Start (s : SNMPServer) : option (SNMPServer * option error) :=
  if running s then Some (s, Some (LibError "SNMP server already started"))
  else
    let outChannelSize := config.MidChannelSize (config s) * PipelineBufferScale in
    if config.MidChannelSize (config s) <? 0 then None
    else
      let mid := mkChan [] (Z.to_nat (config.MidChannelSize (config s))) in
      let out := mkChan [] (Z.to_nat outChannelSize) in
      let lockTimeout :=
        time.Duration_of_int (config.LockTimeout (config.TrapHandlerConf (config s))) in
      let h := newTrapHandler lockTimeout in
      match handler.start h (config.WorkerCount (config.TrapHandlerConf (config s))) with
      | (h, Some err) =>
          Some ({| config := config s; running := false; receiver := receiver s;
                   handler := Some h; midChannel := Some mid; outChannel := Some out |},
                Some (Errorf "failed to start trap handler: %w" err))
      | (h, None) =>
          match receiver_start newUDPReceiver
                  (config.Port (config.ReceiverConf (config s))) with
          | (r, Some err) =>
              let '(h, _) := handler.stop h in
              Some ({| config := config s; running := false; receiver := Some r;
                       handler := Some h; midChannel := Some mid;
                       outChannel := Some out |},
                    Some (Errorf "failed to start UDP receiver: %w" err))
          | (r, None) =>
              Some ({| config := config s; running := true; receiver := Some r;
                       handler := Some h; midChannel := Some mid;
                       outChannel := Some out |}, None)
          end
      end.

(** The wait loop of [Stop]:
    [for { if len(s.midChannel) == 0 { break }; time.Sleep(100ms) }].
    The workers empty the queue concurrently, so what the loop reads is
    given from outside: [polls i] is [len(s.midChannel)] at test number
    [i]. The result is the number of sleeps; [None] means the loop is
    still running after [fuel] tests. *)
Fixpoint drain (fuel : nat) (polls : nat -> Z) (i : nat) : option nat :=
  match fuel with
  | O => None
  | S fuel =>
      if polls i =? 0 then Some i
      else drain fuel polls (S i)
  end.

(** [Stop]; [None] when the wait loop has not ended within [fuel]
    tests, and for a running server without receiver or handler, which
    [Start] never produces. *)
Definition Stop (fuel : nat) (polls : nat -> Z) (s : SNMPServer)
  : option (SNMPServer * option error * list StopStep) :=
  if negb (running s)
  then Some (s, Some (LibError "SNMP server already stopped"), [])
  else
    match receiver s, handler s with
    | Some r, Some h =>
        let '(r, rerr) := receiver_stop r in
        match drain fuel polls 0 with
        | None => None
        | Some sleeps =>
            let '(h, herr) := handler.stop h in
            Some ({| config := config s; running := false; receiver := Some r;
                     handler := Some h; midChannel := midChannel s;
                     outChannel := outChannel s |},
                  None,
                  [StReceiverStop rerr]
                    ++ repeat (StSleep (100 * time.Millisecond)) sleeps
                    ++ [StHandlerStop herr])
        end
    | _, _ => None
    end.
End Server.
End server.

(** ** [encoding/hex] and the engine identities ([pkg/snmp]) *)

Module hex.
Definition hextable : string := "0123456789abcdef".

Definition digit (n : Z) : Ascii.ascii :=
  match String.get (Z.to_nat n) hextable with
  | Some c => c
  | None => Ascii.Ascii false false false false true true false false
  end.

(** [hex.EncodeToString]: two lower-case digits per byte. *)
Fixpoint EncodeToString (src : bytes) : string :=
  match src with
  | [] => ""
  | b :: src =>
      String (digit (Z.shiftr (b2z b) 4))
        (String (digit (Z.land (b2z b) 15)) (EncodeToString src))
  end.

(** The value of a hexadecimal digit, as [hex.DecodeString] reads it. *)
Definition fromHexChar (c : Ascii.ascii) : option Z :=
  let n := Z.of_nat (Ascii.nat_of_ascii c) in
  if (48 <=? n) && (n <=? 57) then Some (n - 48)
  else if (97 <=? n) && (n <=? 102) then Some (n - 97 + 10)
  else if (65 <=? n) && (n <=? 70) then Some (n - 65 + 10)
  else None.

(** [hex.DecodeString]; [None] is its error. *)
Fixpoint DecodeString (s : string) : option bytes :=
  match s with
  | EmptyString => Some []
  | String _ EmptyString => None
  | String a (String b s) =>
      match fromHexChar a, fromHexChar b, DecodeString s with
      | Some x, Some y, Some rest =>
          match Byte.of_N (Z.to_N (Z.lor (Z.shiftl x 4) y)) with
          | Some byte => Some (byte :: rest)
          | None => None
          end
      | _, _, _ => None
      end
  end.
End hex.

Module engineid.
Import gosnmp.

(** [generateV3EngineID]; [timestamp] is [time.Now().UnixNano()] and
    [randomPart] the eight bytes [rand.Read] filled. *)
Definition generateV3EngineID (timestamp : Z) (randomPart : bytes) : string :=
  let data := "v3-engine-" +:+ pretty timestamp +:+ "-" +:+ hex.EncodeToString randomPart in
  let data := if (32 <? String.length data)%nat then String.substring 0 32 data else data in
  hex.EncodeToString (String.list_byte_of_string data).

(** [generateV1EngineID] and [generateV2cEngineID], with four random
    bytes. *)
Definition generateV1EngineID (timestamp : Z) (randomPart : bytes) : string :=
  "v1-engine-" +:+ pretty timestamp +:+ "-" +:+ hex.EncodeToString randomPart.

Definition generateV2cEngineID (timestamp : Z) (randomPart : bytes) : string :=
  "v2c-engine-" +:+ pretty timestamp +:+ "-" +:+ hex.EncodeToString randomPart.

Definition generateEngineID (timestamp : Z) (randomPart : bytes) (version : SnmpVersion)
  : string :=
  if version =? Version3 then generateV3EngineID timestamp randomPart
  else if version =? Version1 then generateV1EngineID timestamp randomPart
  else if version =? Version2c then generateV2cEngineID timestamp randomPart
  else "baize-snmp-default-engine".
End engineid.

(** ** [pkg/storage]: the Redis implementation of the lock contract *)

Module redis.
(** The client of [go-redis] as the locker uses it; [Conn] is the state
    of the server behind it. [SetNX] answers the value and the error of
    its [BoolCmd]. *)
Class Client : Type := {
  Conn : Type;
  SetNX : Conn -> string -> string -> time.Duration -> Conn * (bool * option error);
  Del : Conn -> string -> Conn * option error;
  Close : Conn -> Conn * option error
}.

Section Locker.
Context `{Cli : Client}.
(** [sha256.Sum256]. *)
Variable Sum256 : bytes -> bytes.

Definition AcquireLock (c : Conn) (key : string) (expiration : time.Duration)
  : Conn * result bool :=
  let '(c, (val, err)) := SetNX c key "locked" expiration in
  match err with
  | Some err => (c, Err err)
  | None => (c, Ok val)
  end.

Definition ReleaseLock (c : Conn) (key : string) : Conn * option error :=
  Del c key.

Definition GenerateTrapLockKey (trapData : bytes) : string :=
  "trap_lock:" +:+ hex.EncodeToString (Sum256 trapData).

Definition RedisDistributedLocker : storage.DistributedLockerInterface :=
  {| storage.Locker := Conn;
     storage.AcquireLock := AcquireLock;
     storage.ReleaseLock := ReleaseLock;
     storage.GenerateTrapLockKey := GenerateTrapLockKey;
     storage.Close := Close |}.
End Locker.
End redis.

(** ** [internal/server/snmp]: the receive loop *)

Module receiver.
Import handler.

(** The size of the receive buffer. *)
Definition bufferSize : nat := Z.to_nat 65507.

(** What [ReadFromUDP] gives in one turn of the loop. *)
Inductive ReadResult : Type :=
| ReadTimeout
| ReadFailed (err : error)
| ReadDatagram (payload : bytes) (remoteAddr : net.UDPAddr).

(** One turn of the loop as the environment shapes it: the running flag
    at the top of the turn, the number of packets the workers took off
    the queue since the turn before, the outcome of the read, and the
    running flag as read after it. *)
Record Turn : Type := mkTurn {
  running_at_top : bool;
  taken : nat;
  read : ReadResult;
  running_after_read : bool
}.

(** What the loop does with a datagram; a record of it, not a part of
    the program. *)
Inductive RxEvent : Type :=
| RxEnqueued (p : models.RawPacket)
| RxDiscarded (p : models.RawPacket)
| RxIgnored (p : models.RawPacket).

Record RxState : Type := mkRx {
  outputChan : Chan models.RawPacket;
  rxlog : list RxEvent;
  returned : bool
}.

Definition dequeue (n : nat) (c : Chan models.RawPacket) : Chan models.RawPacket :=
  mkChan (drop n (buf c)) (cap c).

(** The packet built from a read: the bytes copied out of the buffer,
    the sender, and the listener as the socket to reply on. *)
Definition packet_of (listener : net.UDPConn) (payload : bytes)
    (remoteAddr : net.UDPAddr) : models.RawPacket :=
  {| models.Data := Some (take bufferSize payload);
     models.Conn := Some listener;
     models.RemoteAddr := remoteAddr |}.

(** One turn of [receiveLoop]. *)
Definition turn (listener : net.UDPConn) (t : Turn) (st : RxState) : RxState :=
  if returned st then st
  else
    let ch := dequeue (taken t) (outputChan st) in
    if negb (running_at_top t) then mkRx ch (rxlog st) true
    else
      match read t with
      | ReadTimeout => mkRx ch (rxlog st) false
      | ReadFailed _ =>
          if negb (running_after_read t) then mkRx ch (rxlog st) true
          else mkRx ch (rxlog st) false
      | ReadDatagram payload remoteAddr =>
          let packet := packet_of listener payload remoteAddr in
          if running_after_read t then
            if (length (buf ch) <? cap ch)%nat
            then mkRx (mkChan (buf ch ++ [packet]) (cap ch))
                      (rxlog st ++ [RxEnqueued packet]) false
            else mkRx ch (rxlog st ++ [RxDiscarded packet]) false
          else mkRx ch (rxlog st ++ [RxIgnored packet]) false
      end.

(** [receiveLoop] over the turns the environment grants. *)
Definition receiveLoop (listener : net.UDPConn) (turns : list Turn) (st : RxState)
  : RxState :=
  fold_left (fun st t => turn listener t st) turns st.

Definition enqueued (l : list RxEvent) : list models.RawPacket :=
  omap (fun ev => match ev with RxEnqueued p => Some p | _ => None end) l.
Definition discarded (l : list RxEvent) : list models.RawPacket :=
  omap (fun ev => match ev with RxDiscarded p => Some p | _ => None end) l.
Definition ignored (l : list RxEvent) : list models.RawPacket :=
  omap (fun ev => match ev with RxIgnored p => Some p | _ => None end) l.

(** The datagrams read in the turns. *)
Definition datagrams (listener : net.UDPConn) (turns : list Turn)
  : list models.RawPacket :=
  omap (fun t => match read t with
                 | ReadDatagram payload remoteAddr =>
                     Some (packet_of listener payload remoteAddr)
                 | _ => None
                 end) turns.
End receiver.

(** * Vocabulary of the properties *)

(** When [CheckAccess] is to grant access. *)
Definition access_granted (version : string) (operation : gosnmp.PDUType) : Prop :=
  operation = gosnmp.Trap
  \/ (operation = gosnmp.InformRequest
      /\ version = gosnmp.SnmpVersion_String gosnmp.Version2c).

(** A universal-class SEQUENCE. *)
Definition universal_sequence (v : asn1.RawValue) : Prop :=
  asn1.Tag v = asn1.TagSequence /\ asn1.Class v = asn1.ClassUniversal.

(** Neither the variable map nor the v3 security fields touch the
    version-specific fields. *)
Definition same_version_fields (a b : models.TrapMessage) : Prop :=
  models.V1EnterpriseOID a = models.V1EnterpriseOID b
  /\ models.V1GenericTrap a = models.V1GenericTrap b
  /\ models.V1SpecificTrap a = models.V1SpecificTrap b
  /\ models.V2cV3Timestamp a = models.V2cV3Timestamp b.

(** What [convertToTrapMessage] hands to the version-specific step. *)
Definition blank_trap (now : Z) (pkt : gosnmp.SnmpPacket) (raw : models.RawPacket)
  : models.TrapMessage :=
  {| models.ReceivedAt := now;
     models.ProcessedAt := 0;
     models.SourceIP := net.IP (models.RemoteAddr raw);
     models.SourcePort := net.Port (models.RemoteAddr raw);
     models.AgentType := "";
     models.Hostname := "";
     models.Version := gosnmp.Version pkt;
     models.Community := gosnmp.Community pkt;
     models.SecurityModel := "";
     models.UserName := "";
     models.PDUType := gosnmp.PDUType_ pkt;
     models.RequestID := gosnmp.RequestID pkt;
     models.V1EnterpriseOID := "";
     models.V1GenericTrap := 0;
     models.V1SpecificTrap := 0;
     models.V2cV3Timestamp := 0;
     models.VariableMap := ∅;
     models.RawData := models.Data raw;
     models.NeedsResponse := gosnmp.PDUType_ pkt =? gosnmp.InformRequest;
     models.AlertType := "";
     models.Severity := "";
     models.Component := "";
     models.Message := "";
     models.SerialNumber := "" |}.

(** The sysUpTime the design promises for a first binding of value [v],
    as a relation between [v] and the normalized field [ts]. *)
Definition sysUpTime_rule (v : gosnmp.Value) (ts : Z) : Prop :=
  match v with
  | gosnmp.VUint32 x => ts = x
  | gosnmp.VUint64 x => x > MaxUint32 -> ts = MaxUint32
  | gosnmp.VInt64 x => (x > MaxUint32 -> ts = MaxUint32) /\ (x < 0 -> ts = 0)
  | gosnmp.VInt x => x < 0 -> ts = 0
  | gosnmp.VNil | gosnmp.VUint _ | gosnmp.VBytes _ | gosnmp.VString _
  | gosnmp.VOther _ _ => ts = 0
  end.

(** The lock key of a packet. *)
Definition lock_key `{Lock : storage.DistributedLockerInterface}
    (rawPacket : models.RawPacket) : string :=
  storage.GenerateTrapLockKey (models.slice (models.Data rawPacket)).




(** The wait loop ends at the first test that finds the queue empty. *)
Definition first_empty (polls : nat -> Z) (i k : nat) : Prop :=
  (i <= k)%nat /\ polls k = 0 /\ forall j, (i <= j < k)%nat -> polls j <> 0.

(** ** Test doubles and scenario data

    Executable stand-ins for the collaborators of the core, in the way
    the Go tests of the repository mock them, and the datagrams of the
    scenarios. *)

(** ** Vocabulary of the further properties *)

(** The requests that read. *)
Definition get_family (t : gosnmp.PDUType) : Prop :=
  t = gosnmp.GetRequest \/ t = gosnmp.GetNextRequest \/ t = gosnmp.GetBulkRequest.

(** What [Authenticate] lets through: a community that is not empty and,
    by PDU type, the community or the version the type asks for. *)
Definition authenticates (m : snmp.CommunitySecurityModel) (p : gosnmp.SnmpPacket) : Prop :=
  gosnmp.Community p <> ""
  /\ ((get_family (gosnmp.PDUType_ p)
       /\ (gosnmp.Community p = snmp.readCommunity m
           \/ gosnmp.Community p = snmp.readWriteCommunity m))
      \/ (gosnmp.PDUType_ p = gosnmp.SetRequest
          /\ gosnmp.Community p = snmp.readWriteCommunity m)
      \/ gosnmp.PDUType_ p = gosnmp.InformRequest
      \/ (gosnmp.PDUType_ p = gosnmp.Trap /\ gosnmp.Version p = gosnmp.Version1)
      \/ (gosnmp.PDUType_ p = gosnmp.SNMPv2Trap /\ gosnmp.Version p = gosnmp.Version2c)).

(** The notifications the v1/v2c engine takes: a v1 Trap, a v2c
    InformRequest or SNMPv2 trap. *)
Definition notification (p : gosnmp.SnmpPacket) : Prop :=
  (gosnmp.Version p = gosnmp.Version1 /\ gosnmp.PDUType_ p = gosnmp.Trap)
  \/ (gosnmp.Version p = gosnmp.Version2c
      /\ (gosnmp.PDUType_ p = gosnmp.InformRequest
          \/ gosnmp.PDUType_ p = gosnmp.SNMPv2Trap)).

(** The names [NewV3ResponseEngine] knows for the flags and the two
    protocols. *)
Definition valid_v3_names (c : config.V3EngineConfig) : Prop :=
  (config.v3_MsgFlags c = "NoAuthNoPriv" \/ config.v3_MsgFlags c = "AuthNoPriv"
   \/ config.v3_MsgFlags c = "AuthPriv")
  /\ (config.v3_AuthProtocol c = "MD5" \/ config.v3_AuthProtocol c = "SHA")
  /\ (config.v3_PrivProtocol c = "DES" \/ config.v3_PrivProtocol c = "AES"
      \/ config.v3_PrivProtocol c = "AES192" \/ config.v3_PrivProtocol c = "AES256").

(** The configurations on which building the factory panics. *)
Definition fatal_config (cfg : config.ResponseEngineFactoryConfig) : Prop :=
  (exists c, config.V1Config cfg = Some c /\ config.v1_Enabled c = true
             /\ (config.v1_ReadCommunity c = "" \/ config.v1_ReadWriteCommunity c = ""))
  \/ (exists c, config.V2cConfig cfg = Some c /\ config.v2c_Enabled c = true
                /\ (config.v2c_ReadCommunity c = "" \/ config.v2c_ReadWriteCommunity c = ""))
  \/ (exists c, config.V3Config cfg = Some c /\ config.v3_Enabled c = true
                /\ ~ valid_v3_names c).

(** The errors [ResponseRequest] can return. *)
Definition respond_failure (e : error) : Prop :=
  e = ErrNilRequest \/ e = ErrParseSNMPVersion \/ e = ErrIligelVersion
  \/ e = ErrUnsupportedVersion \/ e = ErrDisableVersion
  \/ e = ErrInvalidCommunity \/ e = ErrDecodeSNMPrequest
  \/ e = ErrUnsupportedPDUType
  \/ (exists format cause, e = Errorf format cause)
  \/ (exists msg, e = LibError msg).

(** The fields [convertToTrapMessage] copies from the packets. *)
Definition same_identity (a b : models.TrapMessage) : Prop :=
  models.ReceivedAt a = models.ReceivedAt b
  /\ models.SourceIP a = models.SourceIP b
  /\ models.SourcePort a = models.SourcePort b
  /\ models.Version a = models.Version b
  /\ models.Community a = models.Community b
  /\ models.PDUType a = models.PDUType b
  /\ models.RequestID a = models.RequestID b
  /\ models.RawData a = models.RawData b
  /\ models.NeedsResponse a = models.NeedsResponse b.

(** The last binding of a name. *)
Definition last_binding (name : string) (vars : list gosnmp.SnmpPDU)
  : option gosnmp.SnmpPDU :=
  last (filter (fun pdu => gosnmp.Name pdu = name) vars).

(** The variable map built from a list of bindings. *)
Definition fill_VariableMap (vars : list gosnmp.SnmpPDU) (t : models.TrapMessage)
  : models.TrapMessage :=
  fold_left
    (fun trap pdu =>
       handler.set_VariableMap
         (<[gosnmp.Name pdu := fmt.Sprintf_v (gosnmp.Value_ pdu)]> (models.VariableMap trap))
         trap)
    vars t.

(** The version-specific step of the normalizer. *)
Definition version_step `{Lib : gosnmp.Lib} (pkt : gosnmp.SnmpPacket) (t : models.TrapMessage)
  : models.TrapMessage :=
  if gosnmp.Version pkt =? gosnmp.Version1 then handler.extractV1Fields t pkt
  else if (gosnmp.Version pkt =? gosnmp.Version2c) || (gosnmp.Version pkt =? gosnmp.Version3)
  then handler.extractV2cV3Fields t pkt
  else t.

(** The value of the first binding, if there is one. *)
Definition first_value (pkt : gosnmp.SnmpPacket) : option gosnmp.Value :=
  gosnmp.Value_ <$> head (gosnmp.Variables pkt).

(** The integer a v1 trap field takes from a binding. *)
Definition v1_trap_number (v : gosnmp.Value) : Z :=
  match v with
  | gosnmp.VInt x | gosnmp.VInt64 x | gosnmp.VUint32 x => x
  | _ => 0
  end.

(** The security label of a v3 message, from its flags. *)
Definition security_label (flags : Z) : string :=
  match flags mod 4 with
  | 0 => "noAuthNoPriv"
  | 1 => "authNoPriv"
  | 3 => "authPriv"
  | _ => "Unknown(2)"
  end.

(** The user name of the USM parameters, if the packet has them. *)
Definition usm_user (sp : option gosnmp.SecurityParameters_) : string :=
  match sp with
  | Some (gosnmp.Usm params) => gosnmp.UserName params
  | _ => ""
  end.

Definition v2c_or_v3 (pkt : gosnmp.SnmpPacket) : Prop :=
  gosnmp.Version pkt = gosnmp.Version2c \/ gosnmp.Version pkt = gosnmp.Version3.

(** The messages a log says were put on the egress queue, in order. *)
Definition emitted_messages (l : list handler.Event) : list models.TrapMessage :=
  omap (fun ev => match ev with handler.EvEmit msg => Some msg | _ => None end) l.

(** The keys a log says were granted, in order. *)
Definition granted_keys (l : list handler.Event) : list string :=
  omap (fun ev => match ev with
                  | handler.EvAcquireLock key _ (Ok true) => Some key
                  | _ => None
                  end) l.

(** The packet an event of the receive loop is about. *)
Definition packet_of_event (ev : receiver.RxEvent) : models.RawPacket :=
  match ev with
  | receiver.RxEnqueued p | receiver.RxDiscarded p | receiver.RxIgnored p => p
  end.

(** Turns in which the receiver stays running and no worker takes a
    packet. *)
Definition undisturbed (t : receiver.Turn) : Prop :=
  receiver.running_at_top t = true /\ receiver.running_after_read t = true
  /\ receiver.taken t = 0%nat.

(** Nothing of the server is running. *)
Definition all_stopped (s : server.SNMPServer) : Prop :=
  server.running s = false
  /\ (forall r, server.receiver s = Some r -> server.r_running r = false)
  /\ (forall h, server.handler s = Some h -> handler.running h = false).

Module fixture.
Import gosnmp goasn1.

(** *** Network: an outbox, a link that is up or down *)

Record Wire : Type := mkWire {
  outbox : list (net.UDPAddr * bytes);
  link_up : bool
}.

Definition WriteToUDP (conn : option net.UDPConn) (data : bytes) (addr : net.UDPAddr)
    (n : Wire) : Wire * result Z :=
  match conn with
  | None => (n, Err (LibError "invalid argument"))
  | Some _ =>
      if link_up n
      then ({| outbox := outbox n ++ [(addr, data)]; link_up := true |},
            Ok (Z.of_nat (length data)))
      else (n, Err (LibError "network is unreachable"))
  end.

#[export] Instance stack : net.Stack :=
  {| net.Net := Wire; net.WriteToUDP := WriteToUDP |}.

(** *** Lock backend: set-if-absent in memory, or a backend that is down *)

Record MemLocker : Type := mkMemLocker {
  held : gmap string time.Duration;
  down : bool
}.

Definition hex_digit (n : Z) : string :=
  String.substring (Z.to_nat n) 1 "0123456789abcdef".

Definition hex (bs : bytes) : string :=
  String.concat "" (map (fun b => hex_digit (b2z b / 16) +:+ hex_digit (b2z b mod 16)) bs).

Definition AcquireLock (l : MemLocker) (key : string) (expiration : time.Duration)
  : MemLocker * result bool :=
  if down l then (l, Err (LibError "redis down"))
  else match held l !! key with
       | Some _ => (l, Ok false)
       | None => ({| held := <[key := expiration]> (held l); down := false |}, Ok true)
       end.

Definition ReleaseLock (l : MemLocker) (key : string) : MemLocker * option error :=
  if down l then (l, Some (LibError "redis down"))
  else ({| held := delete key (held l); down := false |}, None).

(** The key of the double is the payload in hex, in place of its SHA-256. *)
Definition GenerateTrapLockKey (trapData : bytes) : string :=
  "trap_lock:" +:+ hex trapData.

#[export] Instance memlock : storage.DistributedLockerInterface :=
  {| storage.Locker := MemLocker;
     storage.AcquireLock := AcquireLock;
     storage.ReleaseLock := ReleaseLock;
     storage.GenerateTrapLockKey := GenerateTrapLockKey;
     storage.Close := fun l => (l, None) |}.

(** *** Scenario datagrams *)

Definition public : bytes := [x70; x75; x62; x6c; x69; x63].

(** SNMPv2c InformRequest, community "public", request id 0xDEADBEEF,
    no variable bindings. *)
Definition v2c_inform_bytes : bytes :=
  [x30; x1c; x02; x01; x01; x04; x06] ++ public ++
  [xa6; x0f; x02; x05; x00; xde; xad; xbe; xef;
   x02; x01; x00; x02; x01; x00; x30; x00].

Definition v2c_inform_packet : SnmpPacket :=
  {| Version := Version2c; MsgFlags := 0; SecurityParameters := None;
     Community := "public"; PDUType_ := InformRequest; RequestID := 3735928559;
     Error := 0; ErrorIndex := 0; Variables := [] |}.

(** SNMPv1 Trap header (version 0) and SNMPv2c trap (version 1), both
    with community "public"; only their outer layers matter below. *)
Definition v1_trap_bytes : bytes :=
  [x30; x0d; x02; x01; x00; x04; x06] ++ public ++ [xa4; x00].

Definition v2c_trap_bytes : bytes :=
  [x30; x1b; x02; x01; x01; x04; x06] ++ public ++
  [xa7; x0e; x02; x04; x00; x00; x30; x39;
   x02; x01; x00; x02; x01; x00; x30; x00].

Definition v2c_trap_packet : SnmpPacket :=
  {| Version := Version2c; MsgFlags := 0; SecurityParameters := None;
     Community := "public"; PDUType_ := SNMPv2Trap; RequestID := 12345;
     Error := 0; ErrorIndex := 0; Variables := [] |}.

(** A message with the reserved version number 2. *)
Definition version2_bytes : bytes :=
  [x30; x0b; x02; x01; x02; x04; x06] ++ public.

(** SNMPv3 InformRequest: an opaque datagram the double decodes to
    [v3_inform_packet]. *)
Definition v3_inform_bytes : bytes :=
  [x30; x05; x02; x01; x03; x30; x00].

Definition v3_usm : UsmSecurityParameters :=
  {| UserName := "baize"; AuthenticationProtocol := MD5;
     AuthenticationPassphrase := "AuthPassphrasetest";
     PrivacyProtocol := AES; PrivacyPassphrase := "PrivPassphrasetest" |}.

Definition v3_inform_packet : SnmpPacket :=
  {| Version := Version3; MsgFlags := 3; SecurityParameters := Some (Usm v3_usm);
     Community := ""; PDUType_ := InformRequest; RequestID := 77;
     Error := 0; ErrorIndex := 0; Variables := [] |}.

Fixpoint bytes_eqb (a b : bytes) : bool :=
  match a, b with
  | [], [] => true
  | x :: a, y :: b => Byte.eqb x y && bytes_eqb a b
  | _, _ => false
  end.

(** *** The gosnmp double: it decodes the scenario datagrams, for a
    handle of the matching version, and marshals GetResponse packets
    without bindings as a fixed header followed by the request id. *)
Definition SnmpDecodePacket (g : GoSNMP) (data : bytes) : result SnmpPacket :=
  if bytes_eqb data v2c_inform_bytes && (g_Version g =? Version2c) then Ok v2c_inform_packet
  else if bytes_eqb data v2c_trap_bytes && (g_Version g =? Version2c) then Ok v2c_trap_packet
  else if bytes_eqb data v3_inform_bytes && (g_Version g =? Version3) then Ok v3_inform_packet
  else Err (LibError "unable to decode packet").

Definition MarshalMsg (p : SnmpPacket) : result bytes :=
  if (PDUType_ p =? GetResponse) && (length (Variables p) =? 0)%nat
  then Ok ([x30; xa2] ++ map (fun z => default x00 (Byte.of_N (Z.to_N z)))
                             [RequestID p / 16777216 mod 256; RequestID p / 65536 mod 256;
                              RequestID p / 256 mod 256; RequestID p mod 256])
  else Err (LibError "marshal: unsupported packet").

Definition ToBigInt (v : Value) : Z :=
  match v with
  | VInt z | VInt64 z | VUint z | VUint32 z | VUint64 z => z
  | _ => 0
  end.

#[export] Instance lib : gosnmp.Lib :=
  {| gosnmp.SnmpDecodePacket := SnmpDecodePacket;
     gosnmp.MarshalMsg := MarshalMsg;
     gosnmp.ToBigInt := ToBigInt |}.


Definition generateEngineID (v : SnmpVersion) : string :=
  if v =? Version3 then "76332d656e67696e652d31"
  else if v =? Version1 then "v1-engine-1-00000000"
  else if v =? Version2c then "v2c-engine-1-00000000"
  else "baize-snmp-default-engine".

Definition sender : net.UDPAddr := {| net.IP := [xc0; xa8; x01; x64]; net.Port := 1620 |}.
Definition socket : net.UDPConn := {| net.fd := 3 |}.

Definition raw (data : bytes) : models.RawPacket :=
  {| models.Data := Some data; models.Conn := Some socket; models.RemoteAddr := sender |}.

Definition quiet : Wire := {| outbox := []; link_up := true |}.
(** *** Configurations and managers *)

Definition v3_config (enabled : bool) : config.V3EngineConfig :=
  {| config.v3_Enabled := enabled; config.v3_UserName := "baize";
     config.v3_MsgFlags := "AuthPriv"; config.v3_AuthProtocol := "MD5";
     config.v3_PrivProtocol := "AES";
     config.v3_PrivPassphrase := "PrivPassphrasetest";
     config.v3_AuthPassphrase := "AuthPassphrasetest" |}.

Definition engines_config (v1 v2c v3 : bool) : config.ResponseManagerConfig :=
  {| config.EngineFactoryConfig :=
       {| config.V1Config := Some (config.mkV1Config "public" "private" v1);
          config.V2cConfig := Some (config.mkV2cConfig "public" "private" v2c);
          config.V3Config := Some (v3_config v3) |} |}.

(** Every version enabled, as in the tests of the response manager. *)
Definition cfg_all_enabled : config.ResponseManagerConfig := engines_config true true true.
(** Only v1 enabled. *)
Definition cfg_only_v1 : config.ResponseManagerConfig := engines_config true false false.

Definition no_engines : snmp.ResponseManager :=
  snmp.mkManager (snmp.mkFactory ∅).

Definition manager_of (cfg : config.ResponseManagerConfig) : snmp.ResponseManager :=
  default no_engines (snmp.NewResponseManager generateEngineID cfg).

(** The server configuration of the server tests. *)
Definition server_config : config.SNMPServerConfig :=
  {| config.ReceiverConf := {| config.Port := 0 |};
     config.TrapHandlerConf :=
       {| config.WorkerCount := 2; config.QueueSize := 0;
          config.LockTimeout := 30; config.ProcessingTimeout := 0 |};
     config.MidChannelSize := 100 |}.

Definition ListenUDP (port : Z) : result net.UDPConn := Ok socket.
Definition CloseUDP (c : net.UDPConn) : option error := None.

Definition new_server : server.SNMPServer :=
  {| server.config := server_config; server.running := false;
     server.receiver := None; server.handler := None;
     server.midChannel := None; server.outChannel := None |}.

(** The server after [Start], and its handler. *)
Definition started_server : server.SNMPServer :=
  match server.Start ListenUDP new_server with
  | Some (s, _) => s
  | None => new_server
  end.

Definition started_handler : handler.TrapHandler :=
  default (handler.newTrapHandler 0) (server.handler started_server).

Definition free_backend : MemLocker := {| held := ∅; down := false |}.
Definition dead_backend : MemLocker := {| held := ∅; down := true |}.

(** A worker's world: backend, network, an egress queue of four slots. *)
Definition world (l : MemLocker) (n : Wire)
  : @handler.World memlock Wire :=
  {| handler.locker := l; handler.rm := n;
     handler.outputChan := handler.mkChan [] 4;
     handler.clock := 1700000000; handler.log := [] |}.
(** The v2c engine of [cfg_all_enabled] and its decoder for "public". *)
Definition v2c_engine : snmp.V1_V2cResponseEngine :=
  {| snmp.enabled := true;
     snmp.version := Version2c;
     snmp.securityModel := snmp.NewCommunitySecurityModel "public" "private";
     snmp.engineID := generateEngineID Version2c;
     snmp.decodeerMap :=
       <["private" := snmp.community_decoder "private" Version2c]>
         (<["public" := snmp.community_decoder "public" Version2c]> ∅) |}.


(** sysUpTime bindings of the normalizer scenarios. *)
Definition sysUpTime_pdu (v : Value) : SnmpPDU :=
  {| Name := ".1.3.6.1.2.1.1.3.0"; Type_ := 67; Value_ := v |}.

Definition v2c_trap_with (v : Value) : SnmpPacket :=
  {| Version := Version2c; MsgFlags := 0; SecurityParameters := None;
     Community := "public"; PDUType_ := SNMPv2Trap; RequestID := 12345;
     Error := 0; ErrorIndex := 0;
     Variables := [sysUpTime_pdu v;
                   {| Name := ".1.3.6.1.2.1.1.1.0"; Type_ := 4;
                      Value_ := VBytes [x68; x69] |}] |}.

(** A v1 trap decoded with three bindings only. *)
Definition v1_short_packet : SnmpPacket :=
  {| Version := Version1; MsgFlags := 0; SecurityParameters := None;
     Community := "public"; PDUType_ := Trap; RequestID := 0;
     Error := 0; ErrorIndex := 0;
     Variables := [sysUpTime_pdu (VUint32 12345);
                   {| Name := ".1.3.6.1.6.3.1.1.4.1.0"; Type_ := 6;
                      Value_ := VString ".1.3.6.1.4.1.9.1.1.1" |};
                   {| Name := ".1.3.6.1.2.1.1.1.0"; Type_ := 4;
                      Value_ := VBytes [x68; x69] |}] |}.
(** The response manager with every engine enabled, as the handler calls it. *)
Definition respond_all : models.RawPacket -> Wire -> Wire * result SnmpPacket :=
  snmp.ResponseRequest (manager_of cfg_all_enabled).

(** A backend that already holds the key of the v2c trap. *)
Definition busy_backend : MemLocker :=
  {| held := {[ GenerateTrapLockKey v2c_trap_bytes := 30 ]}; down := false |}.

(** Ingress queue lengths as [Stop] reads them: never empty, and empty
    at the third test. *)
Definition never_empty : nat -> Z := fun _ => 1.
Definition empty_at_third_test : nat -> Z := fun i => if (i <? 2)%nat then 5 else 0.

(** *** Data of the further scenarios *)

(** The v2c engine of a configuration that has v2c switched off. *)
Definition v2c_engine_off : snmp.V1_V2cResponseEngine :=
  default v2c_engine
    (snmp.NewV1_V2cResponseEngine generateEngineID "public" "private" false Version2c).

(** A v1 trap decoded with its four leading bindings: enterprise, agent
    address, generic and specific trap. *)
Definition v1_full_packet : SnmpPacket :=
  {| Version := Version1; MsgFlags := 0; SecurityParameters := None;
     Community := "public"; PDUType_ := Trap; RequestID := 0;
     Error := 0; ErrorIndex := 0;
     Variables := [{| Name := ".1.3.6.1.6.3.1.1.4.3.0"; Type_ := 6;
                      Value_ := VString ".1.3.6.1.4.1.9.1.1.1" |};
                   {| Name := ".1.3.6.1.6.3.18.1.3.0"; Type_ := 64;
                      Value_ := VString "192.168.1.100" |};
                   {| Name := ".1.3.6.1.6.3.1.1.4.1.0.1"; Type_ := 2; Value_ := VInt 6 |};
                   {| Name := ".1.3.6.1.6.3.1.1.4.1.0.2"; Type_ := 2; Value_ := VInt 42 |}] |}.

(** An SNMPv2 trap header of community "secret". *)
Definition secret_trap_bytes : bytes :=
  [x30; x0d; x02; x01; x01; x04; x06; x73; x65; x63; x72; x65; x74; xa7; x00].

(** A packet without data. *)
Definition nil_packet : models.RawPacket :=
  {| models.Data := None; models.Conn := Some socket; models.RemoteAddr := sender |}.

(** Turns of the receive loop: three datagrams in a row with nobody
    reading the queue, then a read that times out. *)
Definition datagram_turn (payload : bytes) : receiver.Turn :=
  receiver.mkTurn true 0 (receiver.ReadDatagram payload sender) true.
Definition burst : list receiver.Turn :=
  [datagram_turn v2c_trap_bytes; datagram_turn v2c_inform_bytes;
   datagram_turn v1_trap_bytes; receiver.mkTurn true 0 receiver.ReadTimeout true].
(** The turn in which the loop finds the flag cleared. *)
Definition last_turn : receiver.Turn :=
  receiver.mkTurn false 0 receiver.ReadTimeout false.
(** A receiver that starts with an empty queue of two slots. *)
Definition rx_start : receiver.RxState :=
  receiver.mkRx (handler.mkChan [] 2) [] false.

(** The server after [Start] and [Stop], the queue empty at the third
    test. *)
Definition stopped_server : server.SNMPServer :=
  match server.Stop CloseUDP 5 empty_at_third_test started_server with
  | Some (s, _, _) => s
  | None => started_server
  end.
(** A server whose port cannot be bound. *)
Definition port_in_use (port : Z) : result net.UDPConn :=
  Err (LibError "bind: address already in use").

(** What the in-memory backend holds. *)
Definition memlock_holds (l : MemLocker) (key : string) : Prop := is_Some (held l !! key).
End fixture.

(** * Properties *)

(** ** Small facts used throughout *)

Lemma String_eqb_true (a b : string) : snmp.String_eqb a b = true <-> a = b.
Proof. unfold snmp.String_eqb. apply bool_decide_eq_true. Qed.

Lemma String_eqb_false (a b : string) : snmp.String_eqb a b = false <-> a <> b.
Proof. unfold snmp.String_eqb. apply bool_decide_eq_false. Qed.

Lemma Version2c_String : gosnmp.SnmpVersion_String gosnmp.Version2c = "2c".
Proof. reflexivity. Qed.

(** ** The community security model *)

Section CheckAccessFacts.
Import gosnmp snmp.
Variable m : CommunitySecurityModel.

(** C9. [CheckAccess] answers [(true, nil)] exactly when the operation is
    Trap, or InformRequest together with the v2c version string; in every
    other case it answers [(false, nil)]; its error is always nil. *)
Theorem CheckAccess_exactly_trap_or_v2c_inform :
  forall (version : string) (operation : PDUType),
    (access_granted version operation ->
       CheckAccess m version operation = (true, None))
    /\ (~ access_granted version operation ->
          CheckAccess m version operation = (false, None))
    /\ snd (CheckAccess m version operation) = None.
Proof.
  intros version operation. unfold access_granted, CheckAccess.
  destruct (operation =? Trap) eqn:Htrap.
  - apply Z.eqb_eq in Htrap. repeat split; auto. intros Hn. exfalso. auto.
  - apply Z.eqb_neq in Htrap.
    destruct (operation =? InformRequest) eqn:Hinf; simpl.
    + apply Z.eqb_eq in Hinf.
      destruct (String_eqb version (SnmpVersion_String Version2c)) eqn:Hv.
      * apply String_eqb_true in Hv. repeat split; auto.
        intros Hn. exfalso. auto.
      * apply String_eqb_false in Hv. repeat split; auto.
        intros [Ht | [_ Hv']]; [contradiction | contradiction].
    + apply Z.eqb_neq in Hinf. repeat split; auto.
      intros [Ht | [Hi _]]; contradiction.
Qed.
End CheckAccessFacts.

(** ** The version sniffer *)

Section SnifferFacts.
Import gosnmp snmp.
Context `{Codec : asn1.Codec}.
Variable m : ResponseManager.

Lemma universal_sequence_test (v : asn1.RawValue) :
  negb (asn1.Tag v =? asn1.TagSequence) || negb (asn1.Class v =? asn1.ClassUniversal)
  = false <-> universal_sequence v.
Proof.
  unfold universal_sequence. rewrite orb_false_iff, !negb_false_iff, !Z.eqb_eq.
  tauto.
Qed.

(** C5. The sniffer fails with parse-version when the datagram does not
    start with an element, when that element is not a universal-class
    SEQUENCE, when the sequence has no first element, when the first
    element is not tagged INTEGER, or when it is not a readable integer;
    with the version integer [n] read, it answers v1 for 0, v2c for 1,
    v3 for 3 and fails with illegal-version for every other [n]. *)
Theorem parseSNMPVersion_cases :
  forall data : bytes,
    (forall e, asn1.UnmarshalRaw data = Err e ->
       parseSNMPVersion m data = Err ErrParseSNMPVersion)
    /\ (forall outer rest, asn1.UnmarshalRaw data = Ok (outer, rest) ->
        (~ universal_sequence outer ->
           parseSNMPVersion m data = Err ErrParseSNMPVersion)
        /\ (universal_sequence outer ->
            (forall e, asn1.UnmarshalRaw (asn1.Bytes outer) = Err e ->
               parseSNMPVersion m data = Err ErrParseSNMPVersion)
            /\ (forall first rest',
                  asn1.UnmarshalRaw (asn1.Bytes outer) = Ok (first, rest') ->
                (asn1.Tag first <> asn1.TagInteger ->
                   parseSNMPVersion m data = Err ErrParseSNMPVersion)
                /\ (asn1.Tag first = asn1.TagInteger ->
                    (forall e, asn1.UnmarshalInt (asn1.FullBytes first) = Err e ->
                       parseSNMPVersion m data = Err ErrParseSNMPVersion)
                    /\ (forall n, asn1.UnmarshalInt (asn1.FullBytes first) = Ok n ->
                        (n = 0 -> parseSNMPVersion m data = Ok Version1)
                        /\ (n = 1 -> parseSNMPVersion m data = Ok Version2c)
                        /\ (n = 3 -> parseSNMPVersion m data = Ok Version3)
                        /\ (n <> 0 -> n <> 1 -> n <> 3 ->
                              parseSNMPVersion m data = Err ErrIligelVersion)))))).
Proof.
  intros data. unfold parseSNMPVersion. split.
  - intros e ->. reflexivity.
  - intros outer rest ->. split.
    + intros Hns.
      destruct (negb (asn1.Tag outer =? asn1.TagSequence)
                || negb (asn1.Class outer =? asn1.ClassUniversal)) eqn:Ht; [reflexivity|].
      apply universal_sequence_test in Ht. contradiction.
    + intros Hs. apply universal_sequence_test in Hs. rewrite Hs. split.
      * intros e ->. reflexivity.
      * intros first rest' ->. split.
        -- intros Hti. apply Z.eqb_neq in Hti. rewrite Hti. reflexivity.
        -- intros Hti. apply Z.eqb_eq in Hti. rewrite Hti. simpl. split.
           ++ intros e ->. reflexivity.
           ++ intros n ->. repeat split.
              ** intros ->. reflexivity.
              ** intros ->. reflexivity.
              ** intros ->. reflexivity.
              ** intros H0 H1 H3.
                 apply Z.eqb_neq in H0, H1, H3. rewrite H0, H1, H3. reflexivity.
Qed.
End SnifferFacts.

(** ** The normalizer *)

Section NormalizerFacts.
Import handler.
Context `{Lib : gosnmp.Lib}.

Lemma same_version_fields_refl t : same_version_fields t t.
Proof. repeat split. Qed.

Lemma same_version_fields_trans a b c :
  same_version_fields a b -> same_version_fields b c -> same_version_fields a c.
Proof.
  unfold same_version_fields. intros (?&?&?&?) (?&?&?&?).
  repeat split; congruence.
Qed.

Lemma fill_VariableMap_same (vars : list gosnmp.SnmpPDU) (t : models.TrapMessage) :
  same_version_fields
    (fold_left
       (fun trap pdu =>
          set_VariableMap
            (<[gosnmp.Name pdu := fmt.Sprintf_v (gosnmp.Value_ pdu)]> (models.VariableMap trap))
            trap)
       vars t) t.
Proof.
  revert t. induction vars as [|pdu vars IH]; intros t; simpl.
  - apply same_version_fields_refl.
  - eapply same_version_fields_trans; [apply IH|]. repeat split.
Qed.

Lemma extractV3SecurityInfo_same (t : models.TrapMessage) (pkt : gosnmp.SnmpPacket) :
  same_version_fields (extractV3SecurityInfo t pkt) t.
Proof.
  unfold extractV3SecurityInfo.
  destruct (gosnmp.SecurityParameters pkt) as [[p|?]|];
    repeat (destruct (_ =? _)); repeat split.
Qed.

Lemma convert_v1_fields now pkt raw :
  gosnmp.Version pkt = gosnmp.Version1 ->
  same_version_fields (convertToTrapMessage now pkt raw)
                      (extractV1Fields (blank_trap now pkt raw) pkt).
Proof.
  intros Hv. unfold convertToTrapMessage. fold (blank_trap now pkt raw).
  rewrite Hv. simpl. apply fill_VariableMap_same.
Qed.

Lemma convert_v2c_v3_fields now pkt raw :
  gosnmp.Version pkt = gosnmp.Version2c \/ gosnmp.Version pkt = gosnmp.Version3 ->
  same_version_fields (convertToTrapMessage now pkt raw)
                      (extractV2cV3Fields (blank_trap now pkt raw) pkt).
Proof.
  intros Hv. unfold convertToTrapMessage. fold (blank_trap now pkt raw).
  destruct Hv as [Hv | Hv]; rewrite Hv; simpl.
  - apply fill_VariableMap_same.
  - eapply same_version_fields_trans;
      [apply extractV3SecurityInfo_same | apply fill_VariableMap_same].
Qed.

(** C6. For a decoded v2c or v3 packet with at least one binding, the
    normalized sysUpTime is the value itself for a uint32, UINT32_MAX for
    a uint64 or int64 above UINT32_MAX, 0 for a negative int or int64,
    and 0 for a value of any other type. *)
Theorem sysUpTime_normalized :
  forall (now : Z) (pkt : gosnmp.SnmpPacket) (raw : models.RawPacket)
         (firstVar : gosnmp.SnmpPDU) (others : list gosnmp.SnmpPDU),
    gosnmp.Version pkt = gosnmp.Version2c \/ gosnmp.Version pkt = gosnmp.Version3 ->
    gosnmp.Variables pkt = firstVar :: others ->
    sysUpTime_rule (gosnmp.Value_ firstVar)
      (models.V2cV3Timestamp (convertToTrapMessage now pkt raw)).
Proof.
  intros now pkt raw firstVar others Hv Hvars.
  destruct (convert_v2c_v3_fields now pkt raw Hv) as (_ & _ & _ & ->).
  unfold extractV2cV3Fields. rewrite Hvars.
  unfold sysUpTime_rule.
  destruct (gosnmp.Value_ firstVar) as [|x|x|x|x|x|bs|s|tn pr]; simpl; try reflexivity.
  - (* int *)
    intros Hneg. apply Z.ltb_lt in Hneg. rewrite Hneg. reflexivity.
  - (* int64 *)
    split.
    + intros Hbig. unfold MaxUint32 in *.
      destruct (x <? 0) eqn:Hn; [apply Z.ltb_lt in Hn; lia|].
      assert (Hg : (x >? 4294967295) = true) by (apply Z.gtb_lt; lia).
      rewrite Hg. reflexivity.
    + intros Hneg. apply Z.ltb_lt in Hneg. rewrite Hneg. reflexivity.
  - (* uint64 *)
    intros Hbig.
    assert (Hg : (x >? MaxUint32) = true) by (apply Z.gtb_lt; lia).
    rewrite Hg. reflexivity.
Qed.

(** C7. For a decoded v1 packet with fewer than four bindings the
    normalizer sets generic and specific trap to 0 and leaves the
    enterprise OID unset (the empty string); [extractV1Fields] writes
    nothing else, and both functions are total. *)
Theorem v1_short_packet_defaults :
  forall (now : Z) (pkt : gosnmp.SnmpPacket) (raw : models.RawPacket),
    gosnmp.Version pkt = gosnmp.Version1 ->
    (length (gosnmp.Variables pkt) < 4)%nat ->
    (forall trap : models.TrapMessage,
       extractV1Fields trap pkt = set_V1SpecificTrap 0 (set_V1GenericTrap 0 trap))
    /\ models.V1GenericTrap (convertToTrapMessage now pkt raw) = 0
    /\ models.V1SpecificTrap (convertToTrapMessage now pkt raw) = 0
    /\ models.V1EnterpriseOID (convertToTrapMessage now pkt raw) = "".
Proof.
  intros now pkt raw Hv Hlen.
  assert (Hshort : forall trap,
             extractV1Fields trap pkt = set_V1SpecificTrap 0 (set_V1GenericTrap 0 trap)).
  { intros trap. unfold extractV1Fields.
    destruct (gosnmp.Variables pkt) as [|a [|b [|c [|d l]]]]; try reflexivity.
    simpl in Hlen. lia. }
  split; [exact Hshort|].
  destruct (convert_v1_fields now pkt raw Hv) as (He & Hg & Hs & _).
  rewrite He, Hg, Hs, Hshort. repeat split.
Qed.
End NormalizerFacts.

(** ** The worker *)

Section WorkerFacts.
Import handler.
Context `{Lib : gosnmp.Lib} `{Lock : storage.DistributedLockerInterface}.
Context {RM : Type}.
Variable responseMgr : models.RawPacket -> RM -> RM * result gosnmp.SnmpPacket.

Abbreviation World := (@handler.World Lock RM).

Lemma emitted_app (a b : list Event) : emitted (a ++ b) = (emitted a + emitted b)%nat.
Proof. unfold emitted. rewrite List.filter_app, length_app. reflexivity. Qed.

Lemma acquired_app (a b : list Event) : acquired (a ++ b) = (acquired a + acquired b)%nat.
Proof. unfold acquired. rewrite List.filter_app, length_app. reflexivity. Qed.

Lemma responded_app (a b : list Event) :
  responded (a ++ b) = (responded a + responded b)%nat.
Proof. unfold responded. rewrite List.filter_app, length_app. reflexivity. Qed.

(** Whatever happens, the first thing a worker does with a packet is to
    ask for the lock, with the handler's [LockTimeout] as the TTL. *)
Lemma processTrap_asks_lock (h : TrapHandler) (rawPacket : models.RawPacket) (w : World) :
  exists tail,
    log (processTrap responseMgr h rawPacket w)
    = log w
        ++ EvAcquireLock (lock_key rawPacket) (LockTimeout h)
             (snd (storage.AcquireLock (locker w) (lock_key rawPacket) (LockTimeout h)))
        :: tail.
Proof.
  unfold processTrap. fold (lock_key rawPacket).
  destruct (storage.AcquireLock (locker w) (lock_key rawPacket) (LockTimeout h))
    as [l' r] eqn:Hacq.
  destruct r as [[|]|e]; simpl; [|exists []; reflexivity|exists []; reflexivity].
  destruct (responseMgr rawPacket (rm w)) as [rm' [pkt|e]]; simpl.
  - unfold sendProcessedTrapMessage. simpl.
    destruct (_ <? _)%nat; simpl; rewrite <- !app_assoc; simpl; eauto.
  - rewrite <- app_assoc. simpl. eauto.
Qed.

(** Without the lock the packet is dropped on the spot. *)
Lemma processTrap_not_acquired (h : TrapHandler) (rawPacket : models.RawPacket)
    (w : World) l' r :
  storage.AcquireLock (locker w) (lock_key rawPacket) (LockTimeout h) = (l', r) ->
  r <> Ok true ->
  processTrap responseMgr h rawPacket w
  = {| locker := l'; rm := rm w; outputChan := outputChan w; clock := clock w;
       log := log w ++ [EvAcquireLock (lock_key rawPacket) (LockTimeout h) r] |}.
Proof.
  intros Hacq Hr. unfold processTrap. fold (lock_key rawPacket). rewrite Hacq.
  destruct r as [[|]|e]; [congruence | reflexivity | reflexivity].
Qed.


(** One packet: every message put on the egress queue is logged, is
    preceded by a call of the response manager, and that by a lock
    acquisition of its own. *)
Lemma processTrap_accounting (h : TrapHandler) (rawPacket : models.RawPacket) (w : World) :
  let w' := processTrap responseMgr h rawPacket w in
  (length (buf (outputChan w')) + emitted (log w)
   = length (buf (outputChan w)) + emitted (log w'))%nat
  /\ (emitted (log w') + responded (log w) <= emitted (log w) + responded (log w'))%nat
  /\ (responded (log w') + acquired (log w) = responded (log w) + acquired (log w'))%nat
  /\ (emitted (log w') <= emitted (log w) + 1)%nat.
Proof.
  unfold processTrap.
  destruct (storage.AcquireLock _ _ _) as [l' r].
  destruct r as [[|]|e]; simpl.
  - destruct (responseMgr rawPacket (rm w)) as [rm' [pkt|e]]; simpl.
    + unfold sendProcessedTrapMessage. simpl.
      destruct (_ <? _)%nat; simpl;
        rewrite ?length_app, ?emitted_app, ?responded_app, ?acquired_app;
        unfold emitted, responded, acquired; simpl; lia.
    + rewrite ?emitted_app, ?responded_app, ?acquired_app.
      unfold emitted, responded, acquired; simpl; lia.
  - rewrite ?emitted_app, ?responded_app, ?acquired_app.
    unfold emitted, responded, acquired; simpl; lia.
  - rewrite ?emitted_app, ?responded_app, ?acquired_app.
    unfold emitted, responded, acquired; simpl; lia.
Qed.

(** The same over everything a worker dequeues. *)
Lemma worker_accounting (h : TrapHandler) (inputs : list models.RawPacket) (w : World) :
  let w' := worker responseMgr h inputs w in
  (length (buf (outputChan w')) + emitted (log w)
   = length (buf (outputChan w)) + emitted (log w'))%nat
  /\ (emitted (log w') + acquired (log w) <= emitted (log w) + acquired (log w'))%nat
  /\ (responded (log w') + acquired (log w) = responded (log w) + acquired (log w'))%nat.
Proof.
  revert w. induction inputs as [|rawPacket inputs IH]; intros w; simpl.
  - lia.
  - specialize (IH (processTrap responseMgr h rawPacket w)). simpl in IH.
    pose proof (processTrap_accounting h rawPacket w) as Hone. simpl in Hone.
    unfold worker in *. lia.
Qed.

(** C4. When the lock backend answers false or fails, the worker returns
    right after the attempt: the response manager's state and the egress
    queue are as before and the only call made is the acquire. Hence,
    over any run of a worker, the messages put on the egress queue are
    at most as many as the lock acquisitions that succeeded, and the
    response manager is called once per such acquisition. *)
Theorem processTrap_dedup :
  forall (h : TrapHandler) (rawPacket : models.RawPacket) (w : World),
    (forall l' r,
       storage.AcquireLock (locker w) (lock_key rawPacket) (LockTimeout h) = (l', r) ->
       r <> Ok true ->
       let w' := processTrap responseMgr h rawPacket w in
       rm w' = rm w
       /\ outputChan w' = outputChan w
       /\ log w' = log w ++ [EvAcquireLock (lock_key rawPacket) (LockTimeout h) r]
       /\ responded (log w') = responded (log w)
       /\ emitted (log w') = emitted (log w))
    /\ (forall inputs : list models.RawPacket,
          let w' := worker responseMgr h inputs w in
          (length (buf (outputChan w')) + emitted (log w)
           = length (buf (outputChan w)) + emitted (log w'))%nat
          /\ (emitted (log w') + acquired (log w)
              <= emitted (log w) + acquired (log w'))%nat
          /\ (responded (log w') + acquired (log w)
              = responded (log w) + acquired (log w'))%nat).
Proof.
  intros h rawPacket w. split.
  - intros l' r Hacq Hr. simpl.
    rewrite (processTrap_not_acquired h rawPacket w l' r Hacq Hr). simpl.
    rewrite responded_app, emitted_app. unfold responded, emitted. simpl.
    repeat split; lia.
  - intros inputs. apply worker_accounting.
Qed.
End WorkerFacts.

(** ** The response engines *)

Section EngineFacts.
Import gosnmp snmp.
Context `{Codec : asn1.Codec} `{Lib : gosnmp.Lib} `{Stack : net.Stack}.


(** The v2c engine on an InformRequest: accepted, authenticated, and
    returned at the test [shouldRespond], which knows Get, GetNext and
    Set only. No reply is built and the network is not touched. *)
Lemma V2c_inform_returns_without_reply
    (engine : V1_V2cResponseEngine) (rawPacket : models.RawPacket) (n : net.Net)
    (requestCommunity : string) (decoder : GoSNMP) (snmpPacket : SnmpPacket) :
  enabled engine = true ->
  parseSNMPv1v2cCommunity (models.slice (models.Data rawPacket)) = Ok requestCommunity ->
  decodeerMap engine !! requestCommunity = Some decoder ->
  SnmpDecodePacket decoder (models.slice (models.Data rawPacket)) = Ok snmpPacket ->
  Version snmpPacket = Version2c ->
  PDUType_ snmpPacket = InformRequest ->
  Community snmpPacket <> "" ->
  V1_V2c_ProcessRequest engine rawPacket n = (n, Ok snmpPacket).
Proof.
  intros Hen Hcomm Hmap Hdec Hv Hpdu Hne.
  unfold V1_V2c_ProcessRequest. rewrite Hcomm, Hmap, Hdec.
  unfold canProcessRequest, validateAndProcessSecurity, Authenticate, shouldRespond.
  rewrite Hen, Hv, Hpdu. simpl.
  apply String_eqb_false in Hne. rewrite Hne. reflexivity.
Qed.

(** Were the test to pass, [createResponse] would still refuse: it
    accepts requests of version 1 only. *)
Lemma createResponse_refuses_v2c (engine : V1_V2cResponseEngine) (request : SnmpPacket) :
  Version request = Version2c ->
  createResponse engine (Some request) = Err ErrVersionMissMatch.
Proof. intros Hv. unfold createResponse. rewrite Hv. reflexivity. Qed.

(** *** The manager and the factory *)

Variable generateEngineID : SnmpVersion -> string.


Lemma parseSNMPVersion_range (m : ResponseManager) (data : bytes) (v : SnmpVersion) :
  parseSNMPVersion m data = Ok v ->
  v = Version1 \/ v = Version2c \/ v = Version3.
Proof.
  unfold parseSNMPVersion. intros H.
  repeat case_match; simplify_eq; auto.
Qed.

(** Past the sniffer, [ResponseRequest] is a lookup, the enable test
    and the engine. *)
Lemma ResponseRequest_dispatch (m : ResponseManager) (rawPacket : models.RawPacket)
    (data : bytes) (v : SnmpVersion) (n : net.Net) :
  models.Data rawPacket = Some data ->
  parseSNMPVersion m data = Ok v ->
  ResponseRequest m rawPacket n
  = match engines (factory m) !! v with
    | None => (n, Err ErrUnsupportedVersion)
    | Some engine =>
        if Enable engine then ProcessRequest engine rawPacket n
        else (n, Err ErrDisableVersion)
    end.
Proof.
  intros Hdata Hv. unfold ResponseRequest, createEngine. rewrite Hdata, Hv.
  destruct (parseSNMPVersion_range m data v Hv) as [-> | [-> | ->]]; simpl;
    destruct (engines (factory m) !! _) as [engine|]; try reflexivity;
    destruct (Enable engine); reflexivity.
Qed.

(** C1, as the code has it. A valid v2c InformRequest (recognised
    community, successful decode, enabled engine) is returned by the
    manager with a nil error and the network as it was: the v2c engine
    sends no GetResponse. [shouldRespond] answers false for an
    InformRequest, and [createResponse] would refuse a v2c request
    anyway. *)
Theorem v2c_inform_gets_no_reply :
  forall (m : ResponseManager) (rawPacket : models.RawPacket) (data : bytes)
         (engine : V1_V2cResponseEngine) (requestCommunity : string)
         (decoder : GoSNMP) (snmpPacket : SnmpPacket) (n : net.Net),
    models.Data rawPacket = Some data ->
    parseSNMPVersion m data = Ok Version2c ->
    engines (factory m) !! Version2c = Some (EngineV1V2c engine) ->
    enabled engine = true ->
    parseSNMPv1v2cCommunity data = Ok requestCommunity ->
    decodeerMap engine !! requestCommunity = Some decoder ->
    SnmpDecodePacket decoder data = Ok snmpPacket ->
    Version snmpPacket = Version2c ->
    PDUType_ snmpPacket = InformRequest ->
    Community snmpPacket <> "" ->
    ResponseRequest m rawPacket n = (n, Ok snmpPacket)
    /\ shouldRespond engine (Some snmpPacket) = false
    /\ createResponse engine (Some snmpPacket) = Err ErrVersionMissMatch.
Proof.
  intros m rawPacket data engine c decoder pkt n
         Hdata Hver Heng Hen Hcomm Hmap Hdec Hv Hpdu Hne.
  split; [|split].
  - rewrite (ResponseRequest_dispatch m rawPacket data Version2c n Hdata Hver).
    rewrite Heng. simpl. rewrite Hen.
    apply (V2c_inform_returns_without_reply engine rawPacket n c decoder pkt);
      try assumption; rewrite Hdata; simpl; assumption.
  - unfold shouldRespond. rewrite Hpdu. reflexivity.
  - apply createResponse_refuses_v2c. exact Hv.
Qed.

Context `{Lock : storage.DistributedLockerInterface}.

End EngineFacts.

(** ** The server coordinator *)

Section ServerFacts.
Import server.
Variable ListenUDP : Z -> result net.UDPConn.
Variable CloseUDP : net.UDPConn -> option error.

Lemma drain_finds_first_empty (polls : nat -> Z) (fuel i k : nat) :
  first_empty polls i k -> (k < i + fuel)%nat -> drain fuel polls i = Some k.
Proof.
  revert i. induction fuel as [|fuel IH]; intros i (Hik & Hk & Hbusy) Hfuel; [lia|].
  simpl. destruct (polls i =? 0) eqn:Hi.
  - apply Z.eqb_eq in Hi. f_equal.
    destruct (decide (i = k)) as [|Hne]; [assumption|].
    exfalso. apply (Hbusy i); [lia | exact Hi].
  - apply Z.eqb_neq in Hi.
    assert (i <> k) by (intros ->; contradiction).
    apply IH; [|lia].
    repeat split; [lia | exact Hk |]. intros j Hj. apply Hbusy. lia.
Qed.

Lemma drain_sound (polls : nat -> Z) (fuel i k : nat) :
  drain fuel polls i = Some k -> first_empty polls i k /\ (k < i + fuel)%nat.
Proof.
  revert i. induction fuel as [|fuel IH]; intros i H; [discriminate|].
  simpl in H. destruct (polls i =? 0) eqn:Hi.
  - inversion H; subst k. apply Z.eqb_eq in Hi.
    split; [|lia]. repeat split; [lia | exact Hi |]. intros j Hj. lia.
  - apply Z.eqb_neq in Hi. destruct (IH _ H) as ((Hik & Hk & Hbusy) & Hlt).
    split; [|lia]. repeat split; [lia | exact Hk |].
    intros j Hj. destruct (decide (j = i)) as [->|]; [exact Hi|]. apply Hbusy. lia.
Qed.

Lemma drain_never (polls : nat -> Z) :
  (forall j, polls j <> 0) -> forall fuel i, drain fuel polls i = None.
Proof.
  intros Hbusy fuel. induction fuel as [|fuel IH]; intros i; [reflexivity|].
  simpl. pose proof (Hbusy i) as Hi. apply Z.eqb_neq in Hi. rewrite Hi. apply IH.
Qed.

(** C8, amended. [Stop] on a running server stops the receiver, then
    tests the ingress queue and sleeps 100 ms until a test finds it
    empty, then stops the handler and returns nil: with the first empty
    test at number [k] it has slept [k] times. There is no bound on the
    wait: when no test finds the queue empty, [Stop] has not returned
    after any number of tests. *)
Theorem Stop_waits_until_drained :
  forall (polls : nat -> Z) (s : SNMPServer) (r : udpReceiver)
         (h : handler.TrapHandler),
    running s = true -> receiver s = Some r -> handler s = Some h ->
    (forall k fuel, first_empty polls 0 k -> (k < fuel)%nat ->
       exists s',
         Stop CloseUDP fuel polls s
         = Some (s', None,
                 [StReceiverStop (snd (receiver_stop CloseUDP r))]
                   ++ repeat (StSleep (100 * time.Millisecond)) k
                   ++ [StHandlerStop (snd (handler.stop h))])
         /\ running s' = false)
    /\ (forall fuel res, Stop CloseUDP fuel polls s = Some res ->
          exists k, first_empty polls 0 k /\ (k < fuel)%nat)
    /\ ((forall j, polls j <> 0) ->
          forall fuel, Stop CloseUDP fuel polls s = None).
Proof.
  intros polls s r h Hrun Hr Hh. unfold Stop. rewrite Hrun, Hr, Hh. simpl.
  destruct (receiver_stop CloseUDP r) as [r' rerr] eqn:Hrs.
  destruct (handler.stop h) as [h' herr] eqn:Hhs. simpl.
  split; [|split].
  - intros k fuel Hfirst Hfuel.
    rewrite (drain_finds_first_empty polls fuel 0 k Hfirst) by lia.
    eexists. split; reflexivity.
  - intros fuel res Hres.
    destruct (drain fuel polls 0) as [k|] eqn:Hd; [|discriminate].
    exists k. apply drain_sound in Hd. destruct Hd as [Hf Hlt]. split; [exact Hf | lia].
  - intros Hbusy fuel. rewrite (drain_never polls Hbusy). reflexivity.
Qed.

(** What [Start] gives the handler as lock timeout. *)
Lemma Start_handler_LockTimeout (s s' : SNMPServer) (h : handler.TrapHandler) :
  Start ListenUDP s = Some (s', None) ->
  handler s' = Some h ->
  handler.LockTimeout h
  = time.Duration_of_int (config.LockTimeout (config.TrapHandlerConf (config s))).
Proof.
  unfold Start. intros Hstart Hh.
  repeat case_match; simplify_eq; simpl in *; simplify_eq.
  unfold handler.start, handler.newTrapHandler in *. simpl in *. simplify_eq.
  reflexivity.
Qed.

Context `{Lib : gosnmp.Lib} `{Lock : storage.DistributedLockerInterface}.
Context {RM : Type}.
Variable responseMgr : models.RawPacket -> RM -> RM * result gosnmp.SnmpPacket.

(** C3, as the code has it. The TTL of every acquire is the handler's
    lock timeout, and [Start] sets that to [time.Duration(LockTimeout)]:
    a configured value [n] is a TTL of [n] nanoseconds, which is [n]
    seconds for [n = 0] only. *)
Theorem lock_ttl_is_config_in_nanoseconds :
  forall (s s' : SNMPServer) (h : handler.TrapHandler)
         (rawPacket : models.RawPacket) (w : @handler.World Lock RM),
    Start ListenUDP s = Some (s', None) ->
    handler s' = Some h ->
    let n := config.LockTimeout (config.TrapHandlerConf (config s)) in
    (exists r tail,
       handler.log (handler.processTrap responseMgr h rawPacket w)
       = handler.log w
           ++ handler.EvAcquireLock (lock_key rawPacket) (n * time.Nanosecond) r :: tail)
    /\ (n <> 0 -> handler.LockTimeout h <> n * time.Second).
Proof.
  intros s s' h rawPacket w Hstart Hh n.
  pose proof (Start_handler_LockTimeout s s' h Hstart Hh) as Hlt.
  fold n in Hlt. unfold time.Duration_of_int in Hlt.
  split.
  - destruct (processTrap_asks_lock responseMgr h rawPacket w) as [tail Htail].
    rewrite Hlt in Htail. unfold time.Nanosecond. rewrite Z.mul_1_r.
    eauto.
  - intros Hn. rewrite Hlt.
    unfold time.Second, time.Millisecond, time.Microsecond, time.Nanosecond. lia.
Qed.
End ServerFacts.

(** ** The community security model and the v1/v2c engine *)

Section CommunityEngineFacts.
Import gosnmp snmp.
Context `{Codec : asn1.Codec} `{Lib : gosnmp.Lib} `{Stack : net.Stack}.

Ltac pdu_cases :=
  repeat match goal with
    | H : (_ =? _) = true |- _ => apply Z.eqb_eq in H
    | H : (_ =? _) = false |- _ => apply Z.eqb_neq in H
    | H : String_eqb _ _ = true |- _ => apply String_eqb_true in H
    | H : String_eqb _ _ = false |- _ => apply String_eqb_false in H
    end.

Ltac absurd_pdu :=
  exfalso;
  unfold get_family, GetRequest, GetNextRequest, GetBulkRequest, SetRequest,
    InformRequest, Trap, SNMPv2Trap in *;
  intuition (try congruence; try lia).

(** X1. [Authenticate] accepts a packet exactly when its community is not
    empty and: a Get, GetNext or GetBulk carries the read or the
    read-write community; a Set carries the read-write community; an
    InformRequest (any community); a Trap is of version 1; an SNMPv2 trap
    is of version 2c. Every other PDU type is refused. *)
Theorem Authenticate_accepts_iff (m : CommunitySecurityModel) (p : SnmpPacket) :
  Authenticate m (Some p) = None <-> authenticates m p.
Proof.
  unfold Authenticate, authenticates.
  destruct (String_eqb (Community p) "") eqn:Hc.
  { pdu_cases. split; [discriminate | intros [Hne _]; contradiction]. }
  pdu_cases.
  destruct ((PDUType_ p =? GetRequest) || (PDUType_ p =? GetNextRequest)
            || (PDUType_ p =? GetBulkRequest)) eqn:Hget.
  { rewrite !orb_true_iff, !Z.eqb_eq in Hget.
    assert (Hfam : get_family (PDUType_ p)) by (unfold get_family; tauto).
    destruct (String_eqb (Community p) (readCommunity m)) eqn:Hr;
      destruct (String_eqb (Community p) (readWriteCommunity m)) eqn:Hw;
      simpl; pdu_cases.
    - split; [intros _; split; [assumption | left; tauto] | reflexivity].
    - split; [intros _; split; [assumption | left; tauto] | reflexivity].
    - split; [intros _; split; [assumption | left; tauto] | reflexivity].
    - split; [discriminate|]. intros [_ Hx]. clear Hfam. absurd_pdu. }
  rewrite !orb_false_iff, !Z.eqb_neq in Hget. destruct Hget as [[Hg1 Hg2] Hg3].
  destruct (PDUType_ p =? SetRequest) eqn:Hset.
  { pdu_cases.
    destruct (String_eqb (Community p) (readWriteCommunity m)) eqn:Hw; simpl; pdu_cases.
    - split; [intros _; split; [assumption | right; left; tauto] | reflexivity].
    - split; [discriminate|]. intros [_ Hx]. absurd_pdu. }
  destruct (PDUType_ p =? InformRequest) eqn:Hinf.
  { pdu_cases. split; [intros _; split; [assumption | tauto] | reflexivity]. }
  destruct (PDUType_ p =? Trap) eqn:Htrap.
  { pdu_cases. destruct (Version p =? Version1) eqn:Hv; simpl; pdu_cases.
    - split; [intros _; split; [assumption | tauto] | reflexivity].
    - split; [discriminate|]. intros [_ Hx]. absurd_pdu. }
  destruct (PDUType_ p =? SNMPv2Trap) eqn:Hv2t.
  { pdu_cases. destruct (Version p =? Version2c) eqn:Hv; simpl; pdu_cases.
    - split; [intros _; split; [assumption | tauto] | reflexivity].
    - split; [discriminate|]. intros [_ Hx]. absurd_pdu. }
  pdu_cases. split; [discriminate|]. intros [_ Hx]. absurd_pdu.
Qed.

(** Whatever the engine accepts, it does not answer. *)
Lemma canProcess_never_responds (e : V1_V2cResponseEngine) (p : SnmpPacket) :
  canProcessRequest e (Some p) = true -> shouldRespond e (Some p) = false.
Proof.
  unfold canProcessRequest, shouldRespond.
  destruct (enabled e); simpl; [|discriminate].
  destruct (Version p =? Version1).
  - destruct (PDUType_ p =? Trap) eqn:Ht; [reflexivity | discriminate].
  - destruct (Version p =? Version2c); [|discriminate].
    destruct (PDUType_ p =? Trap) eqn:Ht; [reflexivity|].
    destruct ((PDUType_ p =? GetRequest) || (PDUType_ p =? GetNextRequest)
              || (PDUType_ p =? SetRequest)); [discriminate | reflexivity].
Qed.

Lemma canProcess_notification (e : V1_V2cResponseEngine) (p : SnmpPacket) :
  canProcessRequest e (Some p) = true <-> enabled e = true /\ notification p.
Proof.
  unfold canProcessRequest, notification.
  destruct (enabled e); simpl; [|split; [discriminate | intros [? _]; discriminate]].
  destruct (Version p =? Version1) eqn:Hv1; pdu_cases.
  - destruct (PDUType_ p =? Trap) eqn:Ht; pdu_cases.
    + split; [intros _; split; [reflexivity | left; tauto] | reflexivity].
    + split; [discriminate|]. intros [_ Hx].
      unfold Version1, Version2c in *. exfalso. intuition (try congruence; try lia).
  - destruct (Version p =? Version2c) eqn:Hv2; pdu_cases.
    + destruct ((PDUType_ p =? GetRequest) || (PDUType_ p =? GetNextRequest)
                || (PDUType_ p =? SetRequest)) eqn:Hm.
      * rewrite !orb_true_iff, !Z.eqb_eq in Hm.
        split; [discriminate|]. intros [_ Hx]. absurd_pdu.
      * destruct ((PDUType_ p =? InformRequest) || (PDUType_ p =? SNMPv2Trap)) eqn:Hn.
        -- rewrite !orb_true_iff, !Z.eqb_eq in Hn.
           split; [intros _; split; [reflexivity | right; tauto] | reflexivity].
        -- rewrite !orb_false_iff, !Z.eqb_neq in Hn.
           split; [discriminate|]. intros [_ Hx]. exfalso. intuition congruence.
    + split; [discriminate|]. intros [_ Hx]. exfalso. intuition congruence.
Qed.

(** The v1/v2c engine leaves the network as it found it. *)
Lemma V1_V2c_ProcessRequest_net (engine : V1_V2cResponseEngine)
    (rawPacket : models.RawPacket) (n : net.Net) :
  fst (V1_V2c_ProcessRequest engine rawPacket n) = n.
Proof.
  unfold V1_V2c_ProcessRequest.
  destruct (parseSNMPv1v2cCommunity _) as [c|?]; [|reflexivity].
  destruct (decodeerMap engine !! c) as [d|]; [|reflexivity].
  destruct (SnmpDecodePacket d _) as [p|?]; [|reflexivity].
  destruct (canProcessRequest engine (Some p)) eqn:Hcan; [|reflexivity].
  cbn [negb]. destruct (validateAndProcessSecurity engine (Some p)); [reflexivity|].
  rewrite (canProcess_never_responds engine p Hcan). reflexivity.
Qed.

(** X2. The v1/v2c engine never writes to the network, whatever the
    datagram and whatever it returns; so a manager whose engines are all
    v1/v2c engines never writes either. *)
Theorem V1_V2c_engine_never_sends (rawPacket : models.RawPacket) (n : net.Net) :
  (forall engine : V1_V2cResponseEngine,
     fst (V1_V2c_ProcessRequest engine rawPacket n) = n)
  /\ (forall m : ResponseManager,
        (forall v engine, engines (factory m) !! v = Some engine ->
           exists e, engine = EngineV1V2c e) ->
        fst (ResponseRequest m rawPacket n) = n).
Proof.
  split; [intros engine; apply V1_V2c_ProcessRequest_net|].
  intros m Hall. unfold ResponseRequest, createEngine.
  destruct (models.Data rawPacket); [|reflexivity].
  destruct (parseSNMPVersion m _) as [v|]; [|reflexivity].
  destruct (_ && _); [reflexivity|].
  destruct (engines (factory m) !! v) as [engine|] eqn:He; [|reflexivity].
  destruct (Hall v engine He) as [e ->].
  destruct (Enable (EngineV1V2c e)); [|reflexivity].
  apply V1_V2c_ProcessRequest_net.
Qed.

(** X3. Whatever the v1/v2c engine returns without error is a notification
    (a v1 Trap, a v2c InformRequest or SNMPv2 trap) with a community that
    is not empty, decoded by the decoder filed under the community read
    from the datagram, and the engine is enabled. *)
Theorem V1_V2c_engine_accepts_notifications_only (engine : V1_V2cResponseEngine)
    (rawPacket : models.RawPacket) (n : net.Net) (p : SnmpPacket) :
  snd (V1_V2c_ProcessRequest engine rawPacket n) = Ok p ->
  enabled engine = true
  /\ notification p
  /\ Community p <> ""
  /\ exists c d,
       parseSNMPv1v2cCommunity (models.slice (models.Data rawPacket)) = Ok c
       /\ decodeerMap engine !! c = Some d
       /\ SnmpDecodePacket d (models.slice (models.Data rawPacket)) = Ok p.
Proof.
  unfold V1_V2c_ProcessRequest.
  destruct (parseSNMPv1v2cCommunity _) as [c|?] eqn:Hc; [|discriminate].
  destruct (decodeerMap engine !! c) as [d|] eqn:Hd; [|discriminate].
  destruct (SnmpDecodePacket d _) as [q|?] eqn:Hq; [|discriminate].
  destruct (canProcessRequest engine (Some q)) eqn:Hcan; [|discriminate].
  cbn [negb]. destruct (validateAndProcessSecurity engine (Some q)) eqn:Hauth; [discriminate|].
  rewrite (canProcess_never_responds engine q Hcan). cbn [negb snd].
  intros Hp. inversion Hp; subst q.
  apply canProcess_notification in Hcan. destruct Hcan as [Hen Hnot].
  assert (Hne : Community p <> "").
  { unfold validateAndProcessSecurity, Authenticate in Hauth.
    destruct (String_eqb (Community p) "") eqn:He; [discriminate|].
    apply String_eqb_false in He. exact He. }
  repeat split; try assumption. exists c, d. repeat split; assumption.
Qed.

(** X4. A datagram that decodes to anything but a notification, and any
    datagram that decodes when the engine is disabled, is refused with
    [ErrUnsupportedPDUType]; nothing is written to the network. *)
Theorem V1_V2c_engine_refuses_other_PDUs (engine : V1_V2cResponseEngine)
    (rawPacket : models.RawPacket) (n : net.Net) (c : string) (d : GoSNMP)
    (p : SnmpPacket) :
  parseSNMPv1v2cCommunity (models.slice (models.Data rawPacket)) = Ok c ->
  decodeerMap engine !! c = Some d ->
  SnmpDecodePacket d (models.slice (models.Data rawPacket)) = Ok p ->
  enabled engine = false \/ ~ notification p ->
  V1_V2c_ProcessRequest engine rawPacket n = (n, Err ErrUnsupportedPDUType).
Proof.
  intros Hc Hd Hp Hno. unfold V1_V2c_ProcessRequest. rewrite Hc, Hd, Hp.
  destruct (canProcessRequest engine (Some p)) eqn:Hcan; [|reflexivity].
  apply canProcess_notification in Hcan. destruct Hcan as [Hen Hnot].
  destruct Hno as [Hoff | Hnn]; [congruence | contradiction].
Qed.

Variable generateEngineID : SnmpVersion -> string.

(** X5. A constructed v1/v2c engine has decoders for exactly its read and
    its read-write community, each set to its community and to the
    engine's version; a datagram of any other community is refused with
    [ErrInvalidCommunity]. *)
Theorem NewV1_V2c_decoders (rc rwc : string) (en : bool) (v : SnmpVersion)
    (engine : V1_V2cResponseEngine) :
  NewV1_V2cResponseEngine generateEngineID rc rwc en v = Some engine ->
  (forall c d, decodeerMap engine !! c = Some d ->
     (c = rc \/ c = rwc) /\ g_Community d = c /\ g_Version d = v)
  /\ is_Some (decodeerMap engine !! rc)
  /\ is_Some (decodeerMap engine !! rwc)
  /\ (forall rawPacket n c,
        parseSNMPv1v2cCommunity (models.slice (models.Data rawPacket)) = Ok c ->
        c <> rc -> c <> rwc ->
        V1_V2c_ProcessRequest engine rawPacket n = (n, Err ErrInvalidCommunity)).
Proof.
  unfold NewV1_V2cResponseEngine. destruct (_ && _); [discriminate|].
  intros H. inversion H; subst engine; clear H. simpl.
  assert (Hlook : forall c d,
    (<[rwc:=community_decoder rwc v]> (<[rc:=community_decoder rc v]> ∅) : gmap string GoSNMP) !! c = Some d ->
    (c = rc \/ c = rwc) /\ g_Community d = c /\ g_Version d = v).
  { intros c d Hl. destruct (decide (rwc = c)) as [->|Hn1].
    - rewrite lookup_insert_eq in Hl. inversion Hl; subst d. simpl. auto.
    - rewrite lookup_insert_ne in Hl by assumption.
      destruct (decide (rc = c)) as [->|Hn2].
      + rewrite lookup_insert_eq in Hl. inversion Hl; subst d. simpl. auto.
      + rewrite lookup_insert_ne in Hl by assumption. rewrite lookup_empty in Hl.
        discriminate. }
  split; [exact Hlook|]. split; [|split].
  - destruct (decide (rwc = rc)) as [->|Hn].
    + rewrite lookup_insert_eq. eauto.
    + rewrite lookup_insert_ne by assumption. rewrite lookup_insert_eq. eauto.
  - rewrite lookup_insert_eq. eauto.
  - intros rawPacket n c Hc Hn1 Hn2. unfold V1_V2c_ProcessRequest. rewrite Hc. simpl.
    rewrite lookup_insert_ne by congruence. rewrite lookup_insert_ne by congruence.
    rewrite lookup_empty. reflexivity.
Qed.
End CommunityEngineFacts.
(** ** The factory, the v3 engine and the manager *)

Section FactoryFacts.
Import gosnmp snmp.
Context `{Codec : asn1.Codec} `{Lib : gosnmp.Lib} `{Stack : net.Stack}.
Variable generateEngineID : SnmpVersion -> string.

Ltac str_cases :=
  repeat match goal with
    | H : String_eqb _ _ = true |- _ => apply String_eqb_true in H
    | H : String_eqb _ _ = false |- _ => apply String_eqb_false in H
    end.

Lemma NewV1_V2c_panics (rc rwc : string) (en : bool) (v : SnmpVersion) :
  NewV1_V2cResponseEngine generateEngineID rc rwc en v = None
  <-> en = true /\ (rc = "" \/ rwc = "").
Proof.
  unfold NewV1_V2cResponseEngine.
  destruct en; simpl.
  - destruct (String_eqb rc "") eqn:H1; destruct (String_eqb rwc "") eqn:H2; simpl;
      str_cases; split; try discriminate; try tauto.
  - split; [discriminate | intros [? _]; discriminate].
Qed.

Lemma NewV3_panics (c : config.V3EngineConfig) :
  NewV3ResponseEngine generateEngineID c = None <-> ~ valid_v3_names c.
Proof.
  unfold NewV3ResponseEngine, valid_v3_names.
  repeat match goal with
    | |- context [String_eqb ?a ?b] =>
        let H := fresh "H" in
        destruct (String_eqb a b) eqn:H
    end; str_cases; simpl; split; try discriminate; try tauto;
    try (intros; exfalso; tauto); subst;
    try (intros _ (Hm & Ha & Hp);
         repeat match goal with H : _ \/ _ |- _ => destruct H end; congruence).
Qed.

(** X6. Building the factory panics exactly when an enabled v1 or v2c
    configuration has an empty read or read-write community, or an
    enabled v3 configuration names flags or a protocol the engine does
    not know. *)
Theorem factory_panics_iff (cfg : config.ResponseEngineFactoryConfig) :
  NewResponseEngineFactory generateEngineID cfg = None <-> fatal_config cfg.
Proof.
  unfold NewResponseEngineFactory, fatal_config.
  destruct cfg as [c1 c2 c3]; simpl.
  pose proof (fun c => NewV1_V2c_panics (config.v1_ReadCommunity c)
     (config.v1_ReadWriteCommunity c) (config.v1_Enabled c) Version1) as P1.
  pose proof (fun c => NewV1_V2c_panics (config.v2c_ReadCommunity c)
     (config.v2c_ReadWriteCommunity c) (config.v2c_Enabled c) Version2c) as P2.
  pose proof NewV3_panics as P3.
  destruct c1 as [c1|]; simpl;
    [specialize (P1 c1);
     destruct (NewV1_V2cResponseEngine generateEngineID (config.v1_ReadCommunity c1)
                 (config.v1_ReadWriteCommunity c1) (config.v1_Enabled c1) Version1)
       as [e1|] eqn:E1; simpl |];
  (destruct c2 as [c2|]; simpl;
    [specialize (P2 c2); destruct (config.v2c_Enabled c2) eqn:En2; simpl;
     [destruct (NewV1_V2cResponseEngine generateEngineID (config.v2c_ReadCommunity c2)
                 (config.v2c_ReadWriteCommunity c2) true Version2c)
       as [e2|] eqn:E2; simpl |] |]);
  (destruct c3 as [c3|]; simpl;
    [specialize (P3 c3); destruct (config.v3_Enabled c3) eqn:En3; simpl;
     [destruct (NewV3ResponseEngine generateEngineID c3) as [e3|] eqn:E3; simpl |] |]).
  all: split; [intros Hn; try discriminate Hn | intros Hf].
  all: try (left; eexists; split; [reflexivity|]; apply P1; reflexivity).
  all: try (right; left; eexists; split; [reflexivity|]; split; [assumption|];
            apply P2; reflexivity).
  all: try (right; right; eexists; split; [reflexivity|]; split; [assumption|];
            apply P3; reflexivity).
  all: try reflexivity.
  all: exfalso;
    destruct Hf as [(c & Hc & Hen & Hbad) | [(c & Hc & Hen & Hbad) | (c & Hc & Hen & Hbad)]];
    simplify_eq;
    try (assert (@None V1_V2cResponseEngine = None) as Hx by reflexivity;
         first [apply P1 in Hx | apply P2 in Hx]; fail);
    try (destruct P1 as [_ P1]; specialize (P1 (conj Hen Hbad)); discriminate);
    try (destruct P2 as [_ P2]; specialize (P2 (conj eq_refl Hbad)); discriminate);
    try (destruct P3 as [_ P3]; specialize (P3 Hbad); discriminate);
    try congruence.
Qed.
Lemma NewV1_V2c_fields (rc rwc : string) (en : bool) (v : SnmpVersion) e :
  NewV1_V2cResponseEngine generateEngineID rc rwc en v = Some e ->
  version e = v /\ enabled e = en.
Proof.
  unfold NewV1_V2cResponseEngine. destruct (_ && _); [discriminate|].
  intros H. inversion H. split; reflexivity.
Qed.

Lemma NewV3_fields (c : config.V3EngineConfig) e :
  NewV3ResponseEngine generateEngineID c = Some e ->
  v3_version e = Version3 /\ v3_enabled e = config.v3_Enabled c.
Proof.
  unfold NewV3ResponseEngine. intros H.
  repeat case_match; simplify_eq; split; reflexivity.
Qed.

(** X7. Every engine of a factory is filed under its own version, which is
    1, 2c or 3; the engines for 2c and 3 are enabled ones; and the engine
    under version 3, and only that one, is a v3 engine. *)
Theorem factory_engines_wellformed (cfg : config.ResponseEngineFactoryConfig)
    (f : ResponseEngineFactory) (v : SnmpVersion) (engine : SNMPResponseEngine) :
  NewResponseEngineFactory generateEngineID cfg = Some f ->
  engines f !! v = Some engine ->
  GetVersion engine = v
  /\ (v = Version1 \/ v = Version2c \/ v = Version3)
  /\ (v <> Version1 -> Enable engine = true)
  /\ (v = Version3 <-> exists e, engine = EngineV3 e).
Proof.
  unfold NewResponseEngineFactory. intros Hf Hl.
  destruct cfg as [c1 c2 c3]. simpl in *.
  assert (Hne12 : Version1 <> Version2c) by (unfold Version1, Version2c; lia).
  assert (Hne13 : Version1 <> Version3) by (unfold Version1, Version3; lia).
  assert (Hne23 : Version2c <> Version3) by (unfold Version2c, Version3; lia).
  repeat case_match; simplify_option_eq;
    repeat match goal with
      | H : NewV1_V2cResponseEngine _ _ _ _ _ = Some _ |- _ =>
          apply NewV1_V2c_fields in H; destruct H
      | H : NewV3ResponseEngine _ _ = Some _ |- _ =>
          apply NewV3_fields in H; destruct H
      end;
    repeat match goal with
      | H : <[?k := _]> _ !! v = Some _ |- _ =>
          destruct (decide (k = v));
          [subst v; rewrite lookup_insert_eq in H | rewrite lookup_insert_ne in H by assumption]
      | H : ∅ !! _ = Some _ |- _ => rewrite lookup_empty in H; discriminate
      end;
    simplify_eq; simpl;
    (split; [congruence|]); (split; [tauto|]);
    (split; [intros; try congruence|]);
    (split; [intros; try congruence; eauto | intros [? ?]; congruence]).
Qed.

(** X8. The v3 engine returns a packet only if it decoded it and it is an
    SNMPv2 trap or an InformRequest; a decoded packet that is not an
    InformRequest leaves the network untouched, and is returned if it is
    an SNMPv2 trap and refused with [ErrUnsupportedPDUType] otherwise; a
    datagram that does not decode gives [ErrDecodeSNMPrequest]. *)
Theorem V3_engine_accepts (e : V3ResponseEngine) (rawPacket : models.RawPacket)
    (n : net.Net) :
  (forall p, snd (V3_ProcessRequest e rawPacket n) = Ok p ->
     SnmpDecodePacket (v3_decoder e) (models.slice (models.Data rawPacket)) = Ok p
     /\ (PDUType_ p = SNMPv2Trap \/ PDUType_ p = InformRequest))
  /\ (forall p,
        SnmpDecodePacket (v3_decoder e) (models.slice (models.Data rawPacket)) = Ok p ->
        PDUType_ p <> InformRequest ->
        V3_ProcessRequest e rawPacket n
        = (n, if PDUType_ p =? SNMPv2Trap then Ok p else Err ErrUnsupportedPDUType))
  /\ (forall err,
        SnmpDecodePacket (v3_decoder e) (models.slice (models.Data rawPacket)) = Err err ->
        V3_ProcessRequest e rawPacket n = (n, Err ErrDecodeSNMPrequest)).
Proof.
  unfold V3_ProcessRequest. split; [|split].
  - intros p.
    destruct (SnmpDecodePacket _ _) as [q|?]; [|discriminate].
    destruct (PDUType_ q =? SNMPv2Trap) eqn:Ht;
      destruct (PDUType_ q =? InformRequest) eqn:Hi; simpl;
      try discriminate;
      try destruct (sendSNMPResponse _ _ _); simpl;
      intros Hp; inversion Hp; subst q;
      try apply Z.eqb_eq in Ht; try apply Z.eqb_eq in Hi; auto.
  - intros p -> Hni. apply Z.eqb_neq in Hni. rewrite Hni.
    destruct (PDUType_ p =? SNMPv2Trap); reflexivity.
  - intros err ->. reflexivity.
Qed.


(** X10. A packet [ResponseRequest] returns comes from the engine filed under
    the version sniffed from the datagram, and that engine is enabled. *)
Theorem ResponseRequest_ok_engine_enabled (m : ResponseManager)
    (rawPacket : models.RawPacket) (n : net.Net) (p : SnmpPacket) :
  snd (ResponseRequest m rawPacket n) = Ok p ->
  exists data v engine,
    models.Data rawPacket = Some data
    /\ parseSNMPVersion m data = Ok v
    /\ engines (factory m) !! v = Some engine
    /\ Enable engine = true
    /\ snd (ProcessRequest engine rawPacket n) = Ok p.
Proof.
  unfold ResponseRequest, createEngine.
  destruct (models.Data rawPacket) as [data|] eqn:Hd; [|discriminate].
  destruct (parseSNMPVersion m data) as [v|] eqn:Hv; [|discriminate].
  destruct (negb (v =? Version1) && negb (v =? Version2c) && negb (v =? Version3));
    [discriminate|].
  destruct (engines (factory m) !! v) as [engine|] eqn:He; [|discriminate].
  destruct (Enable engine) eqn:Hen; [|discriminate]. simpl.
  intros Hp. exists data, v, engine. repeat split; assumption.
Qed.

(** X11. When [ResponseRequest] fails nothing has been written to the
    network; the error is [ErrNilRequest] exactly for a packet without
    data, and is always one of the errors of the package. *)
Theorem ResponseRequest_failure (m : ResponseManager) (rawPacket : models.RawPacket)
    (n : net.Net) (e : error) :
  snd (ResponseRequest m rawPacket n) = Err e ->
  fst (ResponseRequest m rawPacket n) = n
  /\ (e = ErrNilRequest <-> models.Data rawPacket = None)
  /\ respond_failure e.
Proof.
  unfold ResponseRequest, createEngine, respond_failure.
  destruct (models.Data rawPacket) as [data|] eqn:Hd.
  2:{ simpl. intros He. inversion He. repeat split; auto 15. }
  assert (Hnil : forall x : error, x <> ErrNilRequest ->
            (x = ErrNilRequest <-> Some data = None))
    by (intros x Hx; split; [contradiction | discriminate]).
  destruct (parseSNMPVersion m data) as [v|pe] eqn:Hv.
  2:{ simpl. intros He. inversion He; subst pe.
      unfold parseSNMPVersion in Hv.
      repeat case_match; simplify_eq; (split; [reflexivity|]);
        (split; [apply Hnil; discriminate | auto 15]). }
  destruct (negb (v =? Version1) && negb (v =? Version2c) && negb (v =? Version3)) eqn:Hr.
  { exfalso. destruct (parseSNMPVersion_range m data v Hv) as [-> | [-> | ->]];
      discriminate. }
  destruct (engines (factory m) !! v) as [engine|]; simpl.
  2:{ intros He. inversion He. split; [reflexivity|].
      split; [apply Hnil; discriminate | auto 15]. }
  destruct (Enable engine); simpl.
  2:{ intros He. inversion He. split; [reflexivity|].
      split; [apply Hnil; discriminate | auto 15]. }
  destruct engine as [e1|e3]; simpl.
  - intros He. split; [apply V1_V2c_ProcessRequest_net|].
    revert He. unfold V1_V2c_ProcessRequest, parseSNMPv1v2cCommunity.
    repeat case_match; simpl; intros He; simplify_eq;
      (split; [apply Hnil; discriminate | eauto 15]).
  - unfold V3_ProcessRequest.
    repeat case_match; simpl; intros He; simplify_eq;
      (split; [reflexivity|]);
      (split; [apply Hnil; discriminate | eauto 15]).
Qed.
End FactoryFacts.
(** ** The normalizer: identity fields and the variable map *)

Section VariableMapFacts.
Import handler.
Context `{Lib : gosnmp.Lib}.

Lemma fill_VariableMap_lookup (vars : list gosnmp.SnmpPDU) (t : models.TrapMessage)
    (name : string) :
  models.VariableMap (fill_VariableMap vars t) !! name
  = match last_binding name vars with
    | Some pdu => Some (fmt.Sprintf_v (gosnmp.Value_ pdu))
    | None => models.VariableMap t !! name
    end.
Proof.
  revert t. induction vars as [|pdu vars IH]; intros t; [reflexivity|].
  unfold fill_VariableMap in *. simpl. rewrite IH. unfold last_binding.
  rewrite filter_cons. destruct (decide (gosnmp.Name pdu = name)) as [Heq|Hne].
  - rewrite last_cons.
    destruct (last (filter (fun q => gosnmp.Name q = name) vars)); [reflexivity|].
    simpl. subst name. apply lookup_insert_eq.
  - destruct (last (filter (fun q => gosnmp.Name q = name) vars)); [reflexivity|].
    simpl. apply lookup_insert_ne. exact Hne.
Qed.

Lemma extractV1Fields_map t pkt :
  models.VariableMap (extractV1Fields t pkt) = models.VariableMap t
  /\ same_identity (extractV1Fields t pkt) t.
Proof.
  unfold extractV1Fields, same_identity.
  repeat case_match; simpl; repeat split.
Qed.

Lemma extractV2cV3Fields_map t pkt :
  models.VariableMap (extractV2cV3Fields t pkt) = models.VariableMap t
  /\ same_identity (extractV2cV3Fields t pkt) t.
Proof.
  unfold extractV2cV3Fields, same_identity.
  repeat case_match; simpl; repeat split.
Qed.

Lemma extractV3SecurityInfo_map t pkt :
  models.VariableMap (extractV3SecurityInfo t pkt) = models.VariableMap t
  /\ same_identity (extractV3SecurityInfo t pkt) t.
Proof.
  unfold extractV3SecurityInfo, same_identity.
  repeat case_match; simpl; repeat split.
Qed.

Lemma fill_VariableMap_identity vars t : same_identity (fill_VariableMap vars t) t.
Proof.
  revert t. induction vars as [|pdu vars IH]; intros t; [repeat split|].
  unfold fill_VariableMap in *. simpl.
  destruct (IH (set_VariableMap
                  (<[gosnmp.Name pdu := fmt.Sprintf_v (gosnmp.Value_ pdu)]> (models.VariableMap t)) t))
    as (?&?&?&?&?&?&?&?&?).
  repeat split; assumption.
Qed.

Lemma convert_steps now pkt raw :
  convertToTrapMessage now pkt raw
  = let t := fill_VariableMap (gosnmp.Variables pkt) (version_step pkt (blank_trap now pkt raw)) in
    if gosnmp.Version pkt =? gosnmp.Version3 then extractV3SecurityInfo t pkt else t.
Proof. reflexivity. Qed.

Lemma version_step_map pkt t :
  models.VariableMap (version_step pkt t) = models.VariableMap t
  /\ same_identity (version_step pkt t) t.
Proof.
  unfold version_step.
  destruct (_ =? _); [apply extractV1Fields_map|].
  destruct (_ || _); [apply extractV2cV3Fields_map|].
  split; [reflexivity | repeat split].
Qed.

(** X12. The variable map of a normalized message holds, under each name, the
    printed value of the last binding of that name, and nothing else;
    so every binding of the packet has an entry under its name. *)
Theorem VariableMap_holds_every_binding (now : Z) (pkt : gosnmp.SnmpPacket)
    (raw : models.RawPacket) :
  (forall name,
     models.VariableMap (convertToTrapMessage now pkt raw) !! name
     = (fun pdu => fmt.Sprintf_v (gosnmp.Value_ pdu))
         <$> last_binding name (gosnmp.Variables pkt))
  /\ (forall pdu, pdu ∈ gosnmp.Variables pkt ->
        is_Some (models.VariableMap (convertToTrapMessage now pkt raw) !! gosnmp.Name pdu)).
Proof.
  assert (Hlook : forall name,
     models.VariableMap (convertToTrapMessage now pkt raw) !! name
     = (fun pdu => fmt.Sprintf_v (gosnmp.Value_ pdu))
         <$> last_binding name (gosnmp.Variables pkt)).
  { intros name. rewrite convert_steps. cbv zeta.
    assert (Hm : models.VariableMap
                   (fill_VariableMap (gosnmp.Variables pkt)
                      (version_step pkt (blank_trap now pkt raw))) !! name
                 = (fun pdu => fmt.Sprintf_v (gosnmp.Value_ pdu))
                     <$> last_binding name (gosnmp.Variables pkt)).
    { rewrite fill_VariableMap_lookup.
      destruct (last_binding name (gosnmp.Variables pkt)); [reflexivity|].
      destruct (version_step_map pkt (blank_trap now pkt raw)) as [-> _].
      simpl. apply lookup_empty. }
    destruct (_ =? _); [|exact Hm].
    destruct (extractV3SecurityInfo_map
                (fill_VariableMap (gosnmp.Variables pkt)
                   (version_step pkt (blank_trap now pkt raw))) pkt) as [-> _].
    exact Hm. }
  split; [exact Hlook|].
  intros pdu Hin. rewrite Hlook. unfold last_binding.
  destruct (last (filter (fun q => gosnmp.Name q = gosnmp.Name pdu) (gosnmp.Variables pkt)))
    eqn:Hl; [simpl; eauto|].
  apply last_None in Hl.
  assert (pdu ∈ filter (fun q => gosnmp.Name q = gosnmp.Name pdu) (gosnmp.Variables pkt))
    by (apply list_elem_of_filter; split; [reflexivity | exact Hin]).
  rewrite Hl in H. apply elem_of_nil in H. contradiction.
Qed.

(** X13. The normalizer copies time, sender address and port, version,
    community, PDU type, request id and raw data into the message
    whatever the bindings are, and marks it as needing a response exactly
    when the PDU is an InformRequest. *)
Theorem convertToTrapMessage_identity (now : Z) (pkt : gosnmp.SnmpPacket)
    (raw : models.RawPacket) :
  let t := convertToTrapMessage now pkt raw in
  models.ReceivedAt t = now
  /\ models.SourceIP t = net.IP (models.RemoteAddr raw)
  /\ models.SourcePort t = net.Port (models.RemoteAddr raw)
  /\ models.Version t = gosnmp.Version pkt
  /\ models.Community t = gosnmp.Community pkt
  /\ models.PDUType t = gosnmp.PDUType_ pkt
  /\ models.RequestID t = gosnmp.RequestID pkt
  /\ models.RawData t = models.Data raw
  /\ (models.NeedsResponse t = true <-> gosnmp.PDUType_ pkt = gosnmp.InformRequest).
Proof.
  cbv zeta.
  assert (Hid : same_identity (convertToTrapMessage now pkt raw) (blank_trap now pkt raw)).
  { rewrite convert_steps. cbv zeta.
    assert (H1 : same_identity
              (fill_VariableMap (gosnmp.Variables pkt)
                 (version_step pkt (blank_trap now pkt raw)))
              (blank_trap now pkt raw)).
    { pose proof (fill_VariableMap_identity (gosnmp.Variables pkt)
                    (version_step pkt (blank_trap now pkt raw))) as Ha.
      destruct (version_step_map pkt (blank_trap now pkt raw)) as [_ Hb].
      unfold same_identity in *.
      destruct Ha as (?&?&?&?&?&?&?&?&?), Hb as (?&?&?&?&?&?&?&?&?).
      repeat split; congruence. }
    destruct (_ =? _); [|exact H1].
    destruct (extractV3SecurityInfo_map
                (fill_VariableMap (gosnmp.Variables pkt)
                   (version_step pkt (blank_trap now pkt raw))) pkt) as [_ Ha].
    unfold same_identity in *.
    destruct Ha as (?&?&?&?&?&?&?&?&?), H1 as (?&?&?&?&?&?&?&?&?).
    repeat split; congruence. }
  destruct Hid as (H1&H2&H3&H4&H5&H6&H7&H8&H9).
  rewrite H1, H2, H3, H4, H5, H6, H7, H8, H9. simpl.
  repeat split; try reflexivity; apply Z.eqb_eq.
Qed.
End VariableMapFacts.
(** ** The normalizer: version-specific and security fields *)

Section VersionFieldFacts.
Import handler.
Context `{Lib : gosnmp.Lib}.

(** The version-specific fields and the security fields as the
    normalizer leaves them, step by step. *)
Lemma convert_version_fields now pkt raw :
  same_version_fields (convertToTrapMessage now pkt raw)
    (if gosnmp.Version pkt =? gosnmp.Version1
     then extractV1Fields (blank_trap now pkt raw) pkt
     else if (gosnmp.Version pkt =? gosnmp.Version2c)
             || (gosnmp.Version pkt =? gosnmp.Version3)
     then extractV2cV3Fields (blank_trap now pkt raw) pkt
     else blank_trap now pkt raw).
Proof.
  unfold convertToTrapMessage. fold (blank_trap now pkt raw).
  destruct (gosnmp.Version pkt =? gosnmp.Version3).
  - eapply same_version_fields_trans;
      [apply extractV3SecurityInfo_same | apply fill_VariableMap_same].
  - apply fill_VariableMap_same.
Qed.

Lemma extractV2cV3_timestamp_range t pkt :
  0 <= models.V2cV3Timestamp t <= MaxUint32 ->
  (forall x, first_value pkt = Some (gosnmp.VUint32 x) -> 0 <= x <= MaxUint32) ->
  0 <= models.V2cV3Timestamp (extractV2cV3Fields t pkt) <= MaxUint32.
Proof.
  intros Ht Hty. unfold extractV2cV3Fields, first_value in *.
  destruct (gosnmp.Variables pkt) as [|firstVar rest]; [exact Ht|]. simpl in Hty.
  assert (Hmod : forall v, 0 <= to_uint32 v <= MaxUint32).
  { intros v. unfold to_uint32, MaxUint32.
    pose proof (Z.mod_pos_bound v (2 ^ 32) ltac:(lia)). lia. }
  destruct (gosnmp.Value_ firstVar); simpl;
    repeat case_match; simpl; try apply Hmod; try (unfold MaxUint32; lia).
  apply Hty. reflexivity.
Qed.

(** X14. The normalized sysUpTime of any packet lies between 0 and
    UINT32_MAX, given that a first value of type uint32 does. *)
Theorem V2cV3Timestamp_fits_uint32 (now : Z) (pkt : gosnmp.SnmpPacket)
    (raw : models.RawPacket) :
  (forall x, first_value pkt = Some (gosnmp.VUint32 x) -> 0 <= x <= MaxUint32) ->
  0 <= models.V2cV3Timestamp (convertToTrapMessage now pkt raw) <= MaxUint32.
Proof.
  intros Hty.
  destruct (convert_version_fields now pkt raw) as (_ & _ & _ & ->).
  destruct (gosnmp.Version pkt =? gosnmp.Version1).
  - unfold extractV1Fields. repeat case_match; simpl; unfold MaxUint32; lia.
  - destruct (_ || _).
    + apply extractV2cV3_timestamp_range; [simpl; unfold MaxUint32; lia | exact Hty].
    + simpl. unfold MaxUint32. lia.
Qed.

(** X15. For a v2c or v3 packet, a first value of type uint64, int or int64
    between 0 and UINT32_MAX is taken as it is; an int above UINT32_MAX
    is not clamped but cut to its low 32 bits. *)
Theorem V2cV3Timestamp_of_integers (now : Z) (pkt : gosnmp.SnmpPacket)
    (raw : models.RawPacket) (firstVar : gosnmp.SnmpPDU) (others : list gosnmp.SnmpPDU)
    (x : Z) :
  v2c_or_v3 pkt ->
  gosnmp.Variables pkt = firstVar :: others ->
  let ts := models.V2cV3Timestamp (convertToTrapMessage now pkt raw) in
  (0 <= x <= MaxUint32 ->
   (gosnmp.Value_ firstVar = gosnmp.VUint64 x \/ gosnmp.Value_ firstVar = gosnmp.VInt x
    \/ gosnmp.Value_ firstVar = gosnmp.VInt64 x) ->
   ts = x)
  /\ (MaxUint32 < x -> gosnmp.Value_ firstVar = gosnmp.VInt x -> ts = x mod 2 ^ 32).
Proof.
  intros Hv Hvars ts. subst ts.
  destruct (convert_v2c_v3_fields now pkt raw Hv) as (_ & _ & _ & ->).
  unfold extractV2cV3Fields. rewrite Hvars. split.
  - intros Hx Hval.
    assert (Hmod : to_uint32 x = x)
      by (unfold to_uint32, MaxUint32 in *; apply Z.mod_small; lia).
    assert (Hlt : (x <? 0) = false) by (apply Z.ltb_ge; lia).
    assert (Hgt : (x >? MaxUint32) = false)
      by (rewrite Z.gtb_ltb; apply Z.ltb_ge; lia).
    destruct Hval as [-> | [-> | ->]]; rewrite ?Hlt, ?Hgt; simpl; exact Hmod.
  - intros Hx ->.
    assert (Hlt : (x <? 0) = false) by (apply Z.ltb_ge; unfold MaxUint32 in *; lia).
    rewrite Hlt. reflexivity.
Qed.

Lemma fill_VariableMap_security vars t :
  let t' := fold_left
       (fun trap pdu =>
          set_VariableMap
            (<[gosnmp.Name pdu := fmt.Sprintf_v (gosnmp.Value_ pdu)]> (models.VariableMap trap))
            trap) vars t in
  models.SecurityModel t' = models.SecurityModel t
  /\ models.UserName t' = models.UserName t.
Proof.
  revert t. induction vars as [|pdu vars IH]; intros t; simpl; [split; reflexivity|].
  match goal with
  | |- context [fold_left _ vars ?t0] => destruct (IH t0) as [H1 H2]
  end.
  simpl in H1, H2. rewrite H1, H2. split; reflexivity.
Qed.

Lemma version_fields_security pkt t :
  let t' := if gosnmp.Version pkt =? gosnmp.Version1 then extractV1Fields t pkt
            else if (gosnmp.Version pkt =? gosnmp.Version2c)
                    || (gosnmp.Version pkt =? gosnmp.Version3)
            then extractV2cV3Fields t pkt
            else t in
  models.SecurityModel t' = models.SecurityModel t
  /\ models.UserName t' = models.UserName t.
Proof.
  simpl. unfold extractV1Fields, extractV2cV3Fields.
  repeat case_match; simpl; split; reflexivity.
Qed.

Lemma land3_mod4 (flags : Z) : Z.land flags 3 = flags mod 4.
Proof. change 3 with (Z.ones 2). rewrite Z.land_ones by lia. reflexivity. Qed.

(** X16. For a v3 packet the security model is named after the two low bits
    of the message flags (noAuthNoPriv, authNoPriv, authPriv, and
    Unknown(2) for privacy without authentication) and the user name is
    that of the USM parameters, empty without them; for every other
    version both fields stay empty. *)
Theorem v3_security_fields (now : Z) (pkt : gosnmp.SnmpPacket) (raw : models.RawPacket) :
  let t := convertToTrapMessage now pkt raw in
  (gosnmp.Version pkt = gosnmp.Version3 ->
     models.SecurityModel t = security_label (gosnmp.MsgFlags pkt)
     /\ models.UserName t = usm_user (gosnmp.SecurityParameters pkt))
  /\ (gosnmp.Version pkt <> gosnmp.Version3 ->
        models.SecurityModel t = "" /\ models.UserName t = "").
Proof.
  cbv zeta. unfold convertToTrapMessage. fold (blank_trap now pkt raw).
  pose proof (version_fields_security pkt (blank_trap now pkt raw)) as Hs. cbv zeta in Hs.
  match goal with
  | |- context [fold_left ?f ?vars ?t0] =>
      pose proof (fill_VariableMap_security vars t0) as Hf; cbv zeta in Hf;
      set (filled := fold_left f vars t0) in *
  end.
  destruct Hf as [Hf1 Hf2], Hs as [Hs1 Hs2].
  split.
  - intros Hv. rewrite Hv. simpl.
    unfold extractV3SecurityInfo, security_label, usm_user.
    rewrite land3_mod4.
    pose proof (Z.mod_pos_bound (gosnmp.MsgFlags pkt) 4 ltac:(lia)) as Hb.
    assert (Hc : gosnmp.MsgFlags pkt mod 4 = 0 \/ gosnmp.MsgFlags pkt mod 4 = 1
                 \/ gosnmp.MsgFlags pkt mod 4 = 2 \/ gosnmp.MsgFlags pkt mod 4 = 3) by lia.
    destruct (gosnmp.SecurityParameters pkt) as [[p|?]|];
      destruct Hc as [-> | [-> | [-> | ->]]]; simpl;
      rewrite ?Hf1, ?Hf2, ?Hs1, ?Hs2; split; reflexivity.
  - intros Hv. apply Z.eqb_neq in Hv. rewrite Hv.
    rewrite Hf1, Hf2, Hs1, Hs2. split; reflexivity.
Qed.

(** X17. For a v1 packet with four bindings or more, the generic and the
    specific trap are the integers of the third and fourth binding (0
    for a value that is no int, int64 or uint32) and the enterprise OID
    is read from the first: a string as it is, bytes through
    [ToBigInt], nil as the empty string, anything else printed. *)
Theorem v1_fields_from_bindings (now : Z) (pkt : gosnmp.SnmpPacket) (raw : models.RawPacket)
    (b0 b1 b2 b3 : gosnmp.SnmpPDU) (others : list gosnmp.SnmpPDU) :
  gosnmp.Version pkt = gosnmp.Version1 ->
  gosnmp.Variables pkt = b0 :: b1 :: b2 :: b3 :: others ->
  let t := convertToTrapMessage now pkt raw in
  models.V1GenericTrap t = v1_trap_number (gosnmp.Value_ b2)
  /\ models.V1SpecificTrap t = v1_trap_number (gosnmp.Value_ b3)
  /\ models.V1EnterpriseOID t
     = match gosnmp.Value_ b0 with
       | gosnmp.VNil => ""
       | gosnmp.VString s => s
       | gosnmp.VBytes bs => pretty (gosnmp.ToBigInt (gosnmp.VBytes bs))
       | v => fmt.Sprintf_v v
       end.
Proof.
  intros Hv Hvars. cbv zeta.
  destruct (convert_v1_fields now pkt raw Hv) as (-> & -> & -> & _).
  unfold extractV1Fields. rewrite Hvars.
  destruct (gosnmp.Value_ b0), (gosnmp.Value_ b2), (gosnmp.Value_ b3);
    simpl; repeat split.
Qed.

(** X18. The fields of the other versions stay zero: a v1 packet has no
    sysUpTime, a packet of another version has no v1 trap fields, and a
    packet without bindings has none of them. *)
Theorem other_version_fields_untouched (now : Z) (pkt : gosnmp.SnmpPacket)
    (raw : models.RawPacket) :
  let t := convertToTrapMessage now pkt raw in
  (gosnmp.Version pkt = gosnmp.Version1 -> models.V2cV3Timestamp t = 0)
  /\ (gosnmp.Version pkt <> gosnmp.Version1 ->
        models.V1GenericTrap t = 0 /\ models.V1SpecificTrap t = 0
        /\ models.V1EnterpriseOID t = "")
  /\ (gosnmp.Variables pkt = [] ->
        models.V1GenericTrap t = 0 /\ models.V1SpecificTrap t = 0
        /\ models.V1EnterpriseOID t = "" /\ models.V2cV3Timestamp t = 0).
Proof.
  cbv zeta.
  destruct (convert_version_fields now pkt raw) as (-> & -> & -> & ->).
  split; [|split].
  - intros ->. simpl. unfold extractV1Fields. repeat case_match; reflexivity.
  - intros Hv. apply Z.eqb_neq in Hv. rewrite Hv.
    destruct (_ || _); [|repeat split].
    unfold extractV2cV3Fields. repeat case_match; repeat split.
  - intros Hvars. unfold extractV1Fields, extractV2cV3Fields. rewrite Hvars.
    repeat case_match; repeat split.
Qed.
End VersionFieldFacts.
(** ** The worker: egress queue and deduplication *)

Section EgressFacts.
Import handler.
Context `{Lib : gosnmp.Lib} `{Lock : storage.DistributedLockerInterface}.
Context {RM : Type}.
Variable responseMgr : models.RawPacket -> RM -> RM * result gosnmp.SnmpPacket.

Lemma emitted_messages_app a b :
  emitted_messages (a ++ b) = emitted_messages a ++ emitted_messages b.
Proof. unfold emitted_messages. apply omap_app. Qed.

Lemma granted_keys_app a b : granted_keys (a ++ b) = granted_keys a ++ granted_keys b.
Proof. unfold granted_keys. apply omap_app. Qed.

(** One packet: what is appended to the log and to the queue. *)
Lemma processTrap_appends (h : TrapHandler) (rawPacket : models.RawPacket)
    (w : @World Lock RM) :
  let w' := processTrap responseMgr h rawPacket w in
  exists new,
    log w' = log w ++ new
    /\ buf (outputChan w') = buf (outputChan w) ++ emitted_messages new
    /\ cap (outputChan w') = cap (outputChan w)
    /\ ((length (buf (outputChan w)) <= cap (outputChan w))%nat ->
        (length (buf (outputChan w')) <= cap (outputChan w'))%nat)
    /\ locker w' = fst (storage.AcquireLock (locker w) (lock_key rawPacket) (LockTimeout h))
    /\ granted_keys new
       = match snd (storage.AcquireLock (locker w) (lock_key rawPacket) (LockTimeout h)) with
         | Ok true => [lock_key rawPacket]
         | _ => []
         end.
Proof.
  unfold processTrap. fold (lock_key rawPacket).
  destruct (storage.AcquireLock (locker w) (lock_key rawPacket) (LockTimeout h))
    as [l' r] eqn:Hacq.
  destruct r as [[|]|e]; simpl.
  - destruct (responseMgr rawPacket (rm w)) as [rm' [pkt|e]]; simpl.
    + unfold sendProcessedTrapMessage. simpl.
      destruct (length (buf (outputChan w)) <? cap (outputChan w))%nat eqn:Hroom; simpl.
      * apply Nat.ltb_lt in Hroom. eexists. rewrite <- !app_assoc. split; [reflexivity|].
        simpl. rewrite length_app. simpl. repeat split; try reflexivity. lia.
      * eexists. rewrite <- !app_assoc. split; [reflexivity|].
        simpl. rewrite app_nil_r. repeat split; auto.
    + eexists. rewrite <- !app_assoc. split; [reflexivity|].
      simpl. rewrite app_nil_r. repeat split; auto.
  - eexists. split; [reflexivity|]. simpl. rewrite app_nil_r. repeat split; auto.
  - eexists. split; [reflexivity|]. simpl. rewrite app_nil_r. repeat split; auto.
Qed.

(** The same over everything a worker dequeues. *)
Lemma worker_appends (h : TrapHandler)
    (inputs : list models.RawPacket) (w : @World Lock RM) :
  let w' := worker responseMgr h inputs w in
  exists new,
    log w' = log w ++ new
    /\ buf (outputChan w') = buf (outputChan w) ++ emitted_messages new
    /\ cap (outputChan w') = cap (outputChan w)
    /\ ((length (buf (outputChan w)) <= cap (outputChan w))%nat ->
        (length (buf (outputChan w')) <= cap (outputChan w'))%nat).
Proof.
  revert w. induction inputs as [|rawPacket inputs IH]; intros w; simpl.
  - exists []. rewrite !app_nil_r. repeat split; auto.
  - destruct (processTrap_appends h rawPacket w) as (n1 & Hl1 & Hb1 & Hc1 & Hle1 & _).
    destruct (IH (processTrap responseMgr h rawPacket w)) as (n2 & Hl2 & Hb2 & Hc2 & Hle2).
    simpl in *. unfold worker in *.
    exists (n1 ++ n2). rewrite Hl2, Hl1, Hb2, Hb1, Hc2, Hc1, emitted_messages_app.
    rewrite <- !app_assoc. repeat split; auto.
    intros Hle. rewrite app_assoc, <- Hb1, <- Hb2, <- Hc1, <- Hc2. auto.
Qed.

(** X20. A worker only ever appends to the egress queue, and what it
    appends are the messages its log says it emitted, in that order; the
    capacity of the queue does not change and a queue within its
    capacity stays within it. *)
Theorem worker_egress_bounded_append_only (h : TrapHandler)
    (inputs : list models.RawPacket) (w : @World Lock RM) :
  let w' := worker responseMgr h inputs w in
  exists new,
    log w' = log w ++ new
    /\ buf (outputChan w') = buf (outputChan w) ++ emitted_messages new
    /\ length (emitted_messages new) = emitted new
    /\ cap (outputChan w') = cap (outputChan w)
    /\ ((length (buf (outputChan w)) <= cap (outputChan w))%nat ->
        (length (buf (outputChan w')) <= cap (outputChan w'))%nat).
Proof.
  destruct (worker_appends h inputs w) as (new & Hl & Hb & Hc & Hle).
  exists new. repeat split; try assumption.
  clear. unfold emitted_messages, emitted. induction new as [|ev l IH]; [reflexivity|].
  destruct ev; simpl; first [exact IH | f_equal; exact IH].
Qed.


(** *** Deduplication against a set-if-absent backend *)

Section Contract.
(** The contract of the backend: a key that is held is not granted, a
    granted key is held, and acquiring never lets go of a held key. *)
Variable holds : storage.Locker -> string -> Prop.
Hypothesis held_not_granted : forall l key ttl,
  holds l key -> snd (storage.AcquireLock l key ttl) <> Ok true.
Hypothesis granted_is_held : forall l key ttl l',
  storage.AcquireLock l key ttl = (l', Ok true) -> holds l' key.
Hypothesis held_stays_held : forall l key ttl key',
  holds l key' -> holds (fst (storage.AcquireLock l key ttl)) key'.

Lemma worker_grants_once (h : TrapHandler) (inputs : list models.RawPacket)
    (w : @World Lock RM) :
  exists new,
    log (worker responseMgr h inputs w) = log w ++ new
    /\ NoDup (granted_keys new)
    /\ (forall key, key ∈ granted_keys new ->
          key ∈ map lock_key inputs /\ ~ holds (locker w) key)
    /\ (forall key, holds (locker w) key \/ key ∈ granted_keys new ->
          holds (locker (worker responseMgr h inputs w)) key).
Proof.
  revert w. induction inputs as [|rawPacket inputs IH]; intros w; simpl.
  - exists []. rewrite app_nil_r. split; [reflexivity|]. split; [constructor|].
    split; [intros key Hk; apply elem_of_nil in Hk; contradiction|].
    intros key [Hk|Hk]; [exact Hk | apply elem_of_nil in Hk; contradiction].
  - destruct (processTrap_appends h rawPacket w) as (n1 & Hl1 & _ & _ & _ & Hlock & Hg1).
    simpl in *.
    destruct (IH (processTrap responseMgr h rawPacket w)) as (n2 & Hl2 & Hnd & Hin & Hheld).
    unfold worker in *.
    exists (n1 ++ n2). rewrite Hl2, Hl1, <- app_assoc. split; [reflexivity|].
    rewrite granted_keys_app, Hg1.
    destruct (storage.AcquireLock (locker w) (lock_key rawPacket) (LockTimeout h))
      as [l' r] eqn:Hacq. simpl in *.
    assert (Hkeep : forall key, holds (locker w) key ->
              holds (locker (processTrap responseMgr h rawPacket w)) key).
    { intros key Hk. rewrite Hlock.
      pose proof (held_stays_held (locker w) (lock_key rawPacket) (LockTimeout h) key Hk) as Hs.
      rewrite Hacq in Hs. exact Hs. }
    destruct r as [[|]|e]; simpl.
    + assert (Hnow : holds (locker (processTrap responseMgr h rawPacket w)) (lock_key rawPacket)).
      { rewrite Hlock. eapply granted_is_held. exact Hacq. }
      assert (Hfree : ~ holds (locker w) (lock_key rawPacket)).
      { intros Hk. apply (held_not_granted _ _ (LockTimeout h)) in Hk.
        rewrite Hacq in Hk. simpl in Hk. congruence. }
      split; [|split].
      * constructor; [|exact Hnd]. intros Hk. apply Hin in Hk. destruct Hk as [_ Hk].
        contradiction.
      * intros key Hk. apply elem_of_cons in Hk. destruct Hk as [-> | Hk].
        -- split; [left | exact Hfree].
        -- destruct (Hin key Hk) as [Hi Hn]. split; [right; exact Hi|].
           intros Hk'. apply Hn, Hkeep, Hk'.
      * intros key [Hk | Hk]; [apply Hheld; left; apply Hkeep, Hk|].
        apply elem_of_cons in Hk. destruct Hk as [-> | Hk];
          apply Hheld; [left; exact Hnow | right; exact Hk].
    + split; [exact Hnd|]. split.
      * intros key Hk. destruct (Hin key Hk) as [Hi Hn]. split; [right; exact Hi|].
        intros Hk'. apply Hn, Hkeep, Hk'.
      * intros key [Hk | Hk]; apply Hheld; [left; apply Hkeep, Hk | right; exact Hk].
    + split; [exact Hnd|]. split.
      * intros key Hk. destruct (Hin key Hk) as [Hi Hn]. split; [right; exact Hi|].
        intros Hk'. apply Hn, Hkeep, Hk'.
      * intros key [Hk | Hk]; apply Hheld; [left; apply Hkeep, Hk | right; exact Hk].
Qed.

Lemma acquired_granted_keys (l : list Event) : acquired l = length (granted_keys l).
Proof.
  unfold acquired, granted_keys. induction l as [|ev l IH]; [reflexivity|].
  destruct ev as [key ttl [[|]|e]| | |]; simpl; rewrite ?IH; reflexivity.
Qed.

(** X21. Against a backend that keeps the set-if-absent contract (a held key
    is not granted, a granted key is held, acquiring never lets go of a
    held key), a worker puts on the egress queue at most one message per
    distinct lock key among its packets, and calls the response manager
    at most as often; if every key is held at the start nothing is
    emitted and the manager is not called; held keys stay held. *)
Theorem worker_dedup (h : TrapHandler) (inputs : list models.RawPacket)
    (w : @World Lock RM) :
  let w' := worker responseMgr h inputs w in
  let keys := remove_dups (map lock_key inputs) in
  (length (buf (outputChan w')) <= length (buf (outputChan w)) + length keys)%nat
  /\ (responded (log w') <= responded (log w) + length keys)%nat
  /\ ((forall rawPacket, rawPacket ∈ inputs -> holds (locker w) (lock_key rawPacket)) ->
        buf (outputChan w') = buf (outputChan w)
        /\ responded (log w') = responded (log w))
  /\ (forall key, holds (locker w) key -> holds (locker w') key).
Proof.
  cbv zeta.
  destruct (worker_grants_once h inputs w) as (new & Hlog & Hnd & Hin & Hheld).
  pose proof (worker_accounting responseMgr h inputs w) as (Hbuf & Hem & Hresp).
  rewrite Hlog, ?emitted_app, ?responded_app, ?acquired_app in *.
  rewrite !acquired_granted_keys in *.
  assert (Hle : (length (granted_keys new)
                 <= length (remove_dups (map lock_key inputs)))%nat).
  { apply submseteq_length, NoDup_submseteq; [exact Hnd|].
    intros key Hk. apply elem_of_remove_dups. apply Hin. exact Hk. }
  split; [lia|]. split; [lia|]. split.
  - intros Hall.
    assert (Hnone : granted_keys new = []).
    { destruct (granted_keys new) as [|key l] eqn:Hg; [reflexivity|].
      destruct (Hin key ltac:(left)) as [Hi Hn].
      apply list_elem_of_fmap in Hi. destruct Hi as (rawPacket & -> & Hi).
      exfalso. apply Hn, Hall, Hi. }
    rewrite Hnone in *. simpl in *.
    destruct (worker_appends h inputs w) as (new' & Hl' & Hb' & _).
    split; [|lia].
    rewrite Hlog in Hl'. apply app_inv_head in Hl'. subst new'.
    rewrite Hb'.
    assert (Hlen : length (emitted_messages new) = emitted new).
    { clear. unfold emitted_messages, emitted. induction new as [|ev l IH]; [reflexivity|].
      destruct ev; simpl; first [exact IH | f_equal; exact IH]. }
    assert (emitted new = 0)%nat by lia.
    destruct (emitted_messages new); [apply app_nil_r | simpl in Hlen; lia].
  - intros key Hk. apply Hheld. left. exact Hk.
Qed.
End Contract.
End EgressFacts.
(** ** The receive loop *)

Section ReceiveLoopFacts.
Import receiver.
Variable listener : net.UDPConn.

Lemma receiveLoop_returned (turns : list Turn) (st : RxState) :
  returned st = true -> receiveLoop listener turns st = st.
Proof.
  intros Hr. induction turns as [|t turns IH]; [reflexivity|].
  unfold receiveLoop in *. simpl. unfold turn at 2. rewrite Hr. exact IH.
Qed.

Lemma datagrams_cons (t : Turn) (turns : list Turn) :
  datagrams listener (t :: turns) = datagrams listener [t] ++ datagrams listener turns.
Proof. unfold datagrams. simpl. destruct (read t); reflexivity. Qed.

Lemma turn_facts (t : Turn) (st : RxState) :
  let st' := turn listener t st in
  handler.cap (outputChan st') = handler.cap (outputChan st)
  /\ ((length (handler.buf (outputChan st)) <= handler.cap (outputChan st))%nat ->
      (length (handler.buf (outputChan st')) <= handler.cap (outputChan st'))%nat)
  /\ exists new,
       rxlog st' = rxlog st ++ new
       /\ map packet_of_event new
          = (if returned st || negb (running_at_top t) then []
             else datagrams listener [t]).
Proof.
  unfold turn. destruct (returned st) eqn:Hret; simpl.
  { repeat split; auto. exists []. rewrite app_nil_r. auto. }
  assert (Hdrop : (length (handler.buf (outputChan st)) <= handler.cap (outputChan st))%nat ->
                  (length (drop (taken t) (handler.buf (outputChan st)))
                   <= handler.cap (outputChan st))%nat)
    by (rewrite length_drop; lia).
  destruct (running_at_top t); simpl.
  2:{ repeat split; auto. exists []. rewrite app_nil_r. auto. }
  unfold datagrams. destruct (read t) as [|err|payload addr]; simpl.
  - repeat split; auto. exists []. rewrite app_nil_r. auto.
  - destruct (running_after_read t); simpl; repeat split; auto;
      exists []; rewrite app_nil_r; auto.
  - destruct (running_after_read t); simpl.
    + destruct (_ <? _)%nat eqn:Hroom; simpl.
      * apply Nat.ltb_lt in Hroom. repeat split; eauto.
        intros Hle. rewrite length_app. simpl. lia.
      * repeat split; eauto.
    + repeat split; eauto.
Qed.

(** X22. The receive loop never changes the capacity of the ingress queue
    and never fills it beyond: a queue within its capacity stays within
    it over any run. *)
Theorem receiveLoop_queue_bounded (turns : list Turn) (st : RxState) :
  let st' := receiveLoop listener turns st in
  handler.cap (outputChan st') = handler.cap (outputChan st)
  /\ ((length (handler.buf (outputChan st)) <= handler.cap (outputChan st))%nat ->
      (length (handler.buf (outputChan st')) <= handler.cap (outputChan st'))%nat).
Proof.
  revert st. induction turns as [|t turns IH]; intros st; simpl; [auto|].
  destruct (turn_facts t st) as (Hc & Hle & _).
  destruct (IH (turn listener t st)) as (Hc' & Hle'). simpl in *.
  unfold receiveLoop in *. split; [congruence | auto].
Qed.

(** X23. Every datagram the loop reads is enqueued, discarded or ignored,
    once and in the order read: the packets of the new events are a
    prefix of the datagrams of the turns, all of them if the loop has not
    returned. Each packet carries the listener as its socket and a copy
    of the payload of at most 65507 bytes. *)
Theorem receiveLoop_accounts_for_datagrams (turns : list Turn) (st : RxState) :
  let st' := receiveLoop listener turns st in
  exists new,
    rxlog st' = rxlog st ++ new
    /\ map packet_of_event new `prefix_of` datagrams listener turns
    /\ (returned st' = false -> map packet_of_event new = datagrams listener turns)
    /\ (forall p, p ∈ map packet_of_event new ->
          models.Conn p = Some listener
          /\ exists data, models.Data p = Some data
                          /\ (length data <= bufferSize)%nat).
Proof.
  cbv zeta.
  assert (Hmain : exists new,
    rxlog (receiveLoop listener turns st) = rxlog st ++ new
    /\ map packet_of_event new `prefix_of` datagrams listener turns
    /\ (returned (receiveLoop listener turns st) = false ->
        map packet_of_event new = datagrams listener turns)).
  { revert st. induction turns as [|t turns IH]; intros st.
    - exists []. rewrite app_nil_r. repeat split; auto; apply prefix_nil.
    - destruct (turn_facts t st) as (_ & _ & n1 & Hl1 & Hp1).
      destruct (IH (turn listener t st)) as (n2 & Hl2 & Hp2 & Hall).
      rewrite datagrams_cons. unfold receiveLoop in *. cbn [fold_left].
      destruct (returned st || negb (running_at_top t)) eqn:Hstop.
      + (* the loop has returned by now *)
        assert (Hret : returned (turn listener t st) = true).
        { unfold turn. apply orb_true_iff in Hstop. destruct Hstop as [Hr | Hr].
          - rewrite Hr. exact Hr.
          - destruct (returned st) eqn:Hr'; [exact Hr'|]. rewrite Hr. reflexivity. }
        pose proof (receiveLoop_returned turns _ Hret) as Hsame.
        unfold receiveLoop in Hsame. rewrite Hsame in *.
        exists n1. split; [exact Hl1|]. rewrite Hp1.
        split; [apply prefix_nil|]. intros Hr. congruence.
      + exists (n1 ++ n2).
        rewrite Hl2, Hl1, <- app_assoc. split; [reflexivity|].
        rewrite map_app, Hp1.
        split; [apply prefix_app, Hp2|].
        intros Hr. rewrite (Hall Hr). reflexivity. }
  destruct Hmain as (new & Hl & Hp & Hall). exists new.
  repeat split; try assumption.
  - destruct Hp as [k Hk]. assert (Hin : p ∈ datagrams listener turns)
      by (rewrite Hk; apply elem_of_app; left; exact H).
    unfold datagrams in Hin. apply list_elem_of_omap in Hin.
    destruct Hin as (t & _ & Ht). destruct (read t); simplify_eq. reflexivity.
  - destruct Hp as [k Hk]. assert (Hin : p ∈ datagrams listener turns)
      by (rewrite Hk; apply elem_of_app; left; exact H).
    unfold datagrams in Hin. apply list_elem_of_omap in Hin.
    destruct Hin as (t & _ & Ht). destruct (read t); simplify_eq.
    eexists. split; [reflexivity|]. rewrite length_take. lia.
Qed.

(** X24. While the receiver runs and no worker takes a packet, the datagrams
    read fill the free room of the queue in order and every datagram
    after that is discarded: nothing blocks and the loop does not return. *)
Theorem receiveLoop_burst (turns : list Turn) (st : RxState) :
  returned st = false ->
  Forall undisturbed turns ->
  (length (handler.buf (outputChan st)) <= handler.cap (outputChan st))%nat ->
  let st' := receiveLoop listener turns st in
  let room := (handler.cap (outputChan st) - length (handler.buf (outputChan st)))%nat in
  handler.buf (outputChan st')
  = handler.buf (outputChan st) ++ take room (datagrams listener turns)
  /\ discarded (rxlog st')
     = discarded (rxlog st) ++ drop room (datagrams listener turns)
  /\ returned st' = false.
Proof.
  intros Hret Hall. revert st Hret.
  induction Hall as [|t turns (Htop & Hafter & Htaken) _ IH]; intros st Hret Hle; simpl.
  - rewrite take_nil, drop_nil, !app_nil_r. auto.
  - unfold receiveLoop in *. simpl.
    assert (Hturn : turn listener t st
      = match read t with
        | ReadDatagram payload addr =>
            if (length (handler.buf (outputChan st)) <? handler.cap (outputChan st))%nat
            then mkRx (handler.mkChan
                         (handler.buf (outputChan st) ++ [packet_of listener payload addr])
                         (handler.cap (outputChan st)))
                      (rxlog st ++ [RxEnqueued (packet_of listener payload addr)]) false
            else mkRx (outputChan st)
                      (rxlog st ++ [RxDiscarded (packet_of listener payload addr)]) false
        | _ => mkRx (outputChan st) (rxlog st) false
        end).
    { unfold turn, dequeue. rewrite Hret, Htop, Hafter, Htaken. simpl.
      destruct (outputChan st) as [b c]; simpl.
      destruct (read t); simpl; try reflexivity. }
    rewrite Hturn. unfold datagrams. simpl.
    destruct (read t) as [|err|payload addr]; simpl.
    + destruct st as [[b c] lg r]; simpl in *. subst r.
      exact (IH (mkRx (handler.mkChan b c) lg false) eq_refl Hle).
    + destruct st as [[b c] lg r]; simpl in *. subst r.
      exact (IH (mkRx (handler.mkChan b c) lg false) eq_refl Hle).
    + destruct (_ <? _)%nat eqn:Hroom; simpl.
      * apply Nat.ltb_lt in Hroom.
        destruct (IH (mkRx (handler.mkChan
                         (handler.buf (outputChan st) ++ [packet_of listener payload addr])
                         (handler.cap (outputChan st)))
                      (rxlog st ++ [RxEnqueued (packet_of listener payload addr)]) false))
          as (Hb & Hd & Hr); simpl; [reflexivity | rewrite length_app; simpl; lia |].
        simpl in *. rewrite length_app in *. simpl in *.
        rewrite Hb, Hd. unfold discarded. rewrite omap_app. simpl. rewrite app_nil_r.
        fold (discarded (rxlog st)).
        destruct (handler.cap (outputChan st) - length (handler.buf (outputChan st)))%nat
          as [|room'] eqn:Hroom'; [lia|].
        replace (handler.cap (outputChan st) - (length (handler.buf (outputChan st)) + 1))%nat
          with room' by lia.
        simpl. rewrite <- app_assoc. simpl. auto.
      * apply Nat.ltb_ge in Hroom.
        destruct (IH (mkRx (outputChan st)
                      (rxlog st ++ [RxDiscarded (packet_of listener payload addr)]) false))
          as (Hb & Hd & Hr); simpl; [reflexivity | lia |].
        simpl in *. rewrite Hb, Hd.
        replace (handler.cap (outputChan st) - length (handler.buf (outputChan st)))%nat
          with 0%nat by lia.
        simpl. unfold discarded. rewrite omap_app. simpl. rewrite <- app_assoc. simpl. auto.
Qed.

(** X25. Once the loop sees the running flag cleared at the top of a turn it
    returns: the turns after it change nothing, and that turn itself
    reads no datagram. *)
Theorem receiveLoop_stops (before after : list Turn) (t : Turn) (st : RxState) :
  running_at_top t = false ->
  let st' := receiveLoop listener (before ++ t :: after) st in
  returned st' = true
  /\ st' = receiveLoop listener (before ++ [t]) st
  /\ rxlog st' = rxlog (receiveLoop listener before st).
Proof.
  intros Htop. cbv zeta. unfold receiveLoop.
  rewrite !fold_left_app. simpl.
  set (mid := fold_left (fun st t => turn listener t st) before st).
  assert (Hret : returned (turn listener t mid) = true).
  { unfold turn. destruct (returned mid) eqn:Hr; [exact Hr|]. rewrite Htop. reflexivity. }
  pose proof (receiveLoop_returned after _ Hret) as Hsame. unfold receiveLoop in Hsame.
  rewrite Hsame. split; [exact Hret|]. split; [reflexivity|].
  unfold turn. destruct (returned mid); [reflexivity|]. rewrite Htop. reflexivity.
Qed.
End ReceiveLoopFacts.
(** ** The life cycle of the server *)

Section LifecycleFacts.
Import server.
Variable ListenUDP : Z -> result net.UDPConn.
Variable CloseUDP : net.UDPConn -> option error.

(** X26. After a successful [Start] the server, its receiver and its handler
    are running, the receiver listens on the configured port, the
    ingress queue is empty with the configured capacity and the egress
    queue is empty with twice that capacity; the server was not running
    before and its configuration is unchanged. *)
Theorem Start_success (s s' : SNMPServer) :
  Start ListenUDP s = Some (s', None) ->
  running s = false /\ running s' = true /\ config s' = config s
  /\ 0 <= config.MidChannelSize (config s)
  /\ exists r h l,
       receiver s' = Some r /\ r_running r = true /\ listener r = Some l
       /\ ListenUDP (config.Port (config.ReceiverConf (config s))) = Ok l
       /\ handler s' = Some h /\ handler.running h = true
       /\ midChannel s'
          = Some (handler.mkChan [] (Z.to_nat (config.MidChannelSize (config s))))
       /\ outChannel s'
          = Some (handler.mkChan [] (2 * Z.to_nat (config.MidChannelSize (config s)))).
Proof.
  unfold Start, receiver_start, handler.start, handler.newTrapHandler, newUDPReceiver.
  intros H.
  destruct (running s) eqn:Hrun; [simplify_eq|]. simpl in H.
  destruct (config.MidChannelSize (config s) <? 0) eqn:Hneg; [discriminate|].
  apply Z.ltb_ge in Hneg.
  destruct (ListenUDP _) as [l|err] eqn:Hl; simpl in H; [|simplify_eq].
  inversion H; subst s'; clear H. simpl.
  repeat split; try assumption.
  exists (mkReceiver true (Some l)), (handler.mkHandler true
     (time.Duration_of_int (config.LockTimeout (config.TrapHandlerConf (config s))))), l.
  repeat split; try assumption.
  unfold PipelineBufferScale. do 2 f_equal. lia.
Qed.

(** X27. [Start] on a running server fails and changes nothing; on a negative
    queue size it panics; and when the port cannot be bound it fails
    with the handler stopped again, so that nothing is left running. *)
Theorem Start_failures (s : SNMPServer) :
  (running s = true -> exists err, Start ListenUDP s = Some (s, Some err))
  /\ (running s = false -> config.MidChannelSize (config s) < 0 ->
        Start ListenUDP s = None)
  /\ (running s = false -> 0 <= config.MidChannelSize (config s) ->
      forall err, ListenUDP (config.Port (config.ReceiverConf (config s))) = Err err ->
      exists s' err',
        Start ListenUDP s = Some (s', Some err')
        /\ all_stopped s' /\ config s' = config s).
Proof.
  unfold Start, receiver_start, handler.start, handler.stop, handler.newTrapHandler,
    newUDPReceiver, all_stopped.
  split; [|split].
  - intros ->. eauto.
  - intros -> Hneg. apply Z.ltb_lt in Hneg. simpl. rewrite Hneg. reflexivity.
  - intros -> Hpos err Hl. apply Z.ltb_ge in Hpos. simpl. rewrite Hpos, Hl. simpl.
    eexists _, _. split; [reflexivity|]. simpl.
    repeat split; intros; simplify_eq; reflexivity.
Qed.

(** What is running after a successful [Start]. *)
Lemma Start_running_parts (s s' : SNMPServer) :
  Start ListenUDP s = Some (s', None) ->
  running s' = true /\ config s' = config s
  /\ exists r h l,
       receiver s' = Some r /\ r_running r = true /\ listener r = Some l
       /\ handler s' = Some h /\ handler.running h = true.
Proof.
  unfold Start, receiver_start, handler.start, handler.newTrapHandler, newUDPReceiver.
  intros H.
  destruct (running s); [simplify_eq|]. simpl in H.
  destruct (config.MidChannelSize (config s) <? 0); [discriminate|].
  destruct (ListenUDP _) as [l|err]; simpl in H; [|simplify_eq].
  inversion H; subst s'. simpl. eauto 12.
Qed.

(** X28. A [Stop] that returns after a successful [Start] returns no error,
    even if closing the listener failed, and leaves server, receiver and
    handler stopped: the receiver is stopped first, the handler last,
    with only sleeps of 100 ms between. A second [Stop] then fails and
    changes nothing, as does a second [Start] on the running server. *)
Theorem Start_Stop_lifecycle (s s1 s2 : SNMPServer) (fuel : nat) (polls : nat -> Z)
    (err : option error) (steps : list StopStep) :
  Start ListenUDP s = Some (s1, None) ->
  Stop CloseUDP fuel polls s1 = Some (s2, err, steps) ->
  err = None
  /\ all_stopped s2
  /\ config s2 = config s
  /\ (exists rerr sleeps,
        steps = [StReceiverStop rerr] ++ repeat (StSleep (100 * time.Millisecond)) sleeps
                  ++ [StHandlerStop None])
  /\ (forall fuel' polls',
        exists err', Stop CloseUDP fuel' polls' s2 = Some (s2, Some err', []))
  /\ (exists err', Start ListenUDP s1 = Some (s1, Some err')).
Proof.
  intros Hstart Hstop.
  destruct (Start_running_parts s s1 Hstart)
    as (Hrun & Hcfg & r & h & l & Hr & Hrr & Hlis & Hh & Hhr).
  unfold Stop in Hstop. rewrite Hrun, Hr, Hh in Hstop. simpl in Hstop.
  unfold receiver_stop in Hstop. rewrite Hrr in Hstop. simpl in Hstop.
  unfold handler.stop in Hstop. rewrite Hhr in Hstop. simpl in Hstop.
  destruct (drain fuel polls 0) as [sleeps|]; [|rewrite Hlis in Hstop;
    destruct (CloseUDP l); discriminate].
  rewrite Hlis in Hstop.
  assert (Hs2 : err = None /\ all_stopped s2 /\ config s2 = config s1
                /\ exists rerr, steps = [StReceiverStop rerr]
                     ++ repeat (StSleep (100 * time.Millisecond)) sleeps
                     ++ [StHandlerStop None]).
  { unfold all_stopped.
    destruct (CloseUDP l); inversion Hstop; subst; simpl;
      repeat split; intros; simplify_eq; eauto. }
  destruct Hs2 as (-> & Hall & Hc & rerr & ->).
  split; [reflexivity|]. split; [exact Hall|]. split; [congruence|].
  split; [eauto|]. split.
  - intros fuel' polls'. unfold Stop. destruct Hall as (-> & _). simpl. eauto.
  - unfold Start. rewrite Hrun. eauto.
Qed.
End LifecycleFacts.
(** ** Lock keys and engine identities *)

Section IdentityFacts.
(** [DecodeString] reads back what [EncodeToString] wrote. *)
Lemma digit_value (n : Z) : 0 <= n < 16 -> hex.fromHexChar (hex.digit n) = Some n.
Proof.
  intros Hn. rewrite <- (Z2Nat.id n) by lia.
  assert (Hk : (Z.to_nat n < 16)%nat) by lia.
  revert Hk. generalize (Z.to_nat n) as k. intros k Hk.
  do 16 (destruct k as [|k]; [reflexivity|]). lia.
Qed.

Lemma byte_nibbles (b : byte) :
  Byte.of_N (Z.to_N (Z.lor (Z.shiftl (Z.shiftr (b2z b) 4) 4) (Z.land (b2z b) 15))) = Some b.
Proof. destruct b; reflexivity. Qed.

Lemma nibble_ranges (b : byte) :
  0 <= Z.shiftr (b2z b) 4 < 16 /\ 0 <= Z.land (b2z b) 15 < 16.
Proof. destruct b; vm_compute; repeat split; discriminate. Qed.

Lemma hex_round_trip (src : bytes) : hex.DecodeString (hex.EncodeToString src) = Some src.
Proof.
  induction src as [|b src IH]; [reflexivity|].
  cbn [hex.EncodeToString hex.DecodeString].
  destruct (nibble_ranges b) as [Hh Hl].
  rewrite (digit_value _ Hh), (digit_value _ Hl), IH, byte_nibbles. reflexivity.
Qed.

Lemma hex_length (src : bytes) :
  String.length (hex.EncodeToString src) = (2 * length src)%nat.
Proof. induction src as [|b src IH]; [reflexivity|]. simpl in *. rewrite IH. lia. Qed.

Lemma string_length_app (a b : string) :
  String.length (a +:+ b) = (String.length a + String.length b)%nat.
Proof. induction a as [|c a IH]; [reflexivity|]. simpl. rewrite IH. reflexivity. Qed.

Lemma string_app_inv_head (a b c : string) : a +:+ b = a +:+ c -> b = c.
Proof. induction a as [|x a IH]; [auto|]. simpl. intros H. inversion H. auto. Qed.

Lemma substring_full (s : string) : String.substring 0 (String.length s) s = s.
Proof. induction s as [|c s IH]; [reflexivity|]. simpl. rewrite IH. reflexivity. Qed.

Lemma substring_app_head (a b : string) :
  String.substring 0 (String.length a) (a +:+ b) = a.
Proof.
  induction a as [|c a IH]; simpl; [destruct b; reflexivity|].
  rewrite IH. reflexivity.
Qed.

Lemma substring_app_tail (a b : string) :
  String.substring (String.length a) (String.length b) (a +:+ b) = b.
Proof. induction a as [|c a IH]; simpl; [apply substring_full | exact IH]. Qed.

Lemma substring_length (n : nat) (s : string) :
  String.length (String.substring 0 n s) = (n `min` String.length s)%nat.
Proof.
  revert s; induction n as [|n IH]; intros [|c s]; simpl; try reflexivity.
  rewrite IH. reflexivity.
Qed.

Lemma substring_substring (n m : nat) (s : string) :
  (n <= m)%nat ->
  String.substring 0 n (String.substring 0 m s) = String.substring 0 n s.
Proof.
  revert m s; induction n as [|n IH]; intros m s Hle.
  - destruct s, m; reflexivity.
  - destruct m as [|m]; [lia|]. destruct s as [|c s]; [reflexivity|].
    simpl. rewrite IH by lia. reflexivity.
Qed.

Lemma list_byte_of_string_length (s : string) :
  length (String.list_byte_of_string s) = String.length s.
Proof.
  unfold String.list_byte_of_string. rewrite length_map.
  induction s as [|c s IH]; [reflexivity|]. simpl. rewrite IH. reflexivity.
Qed.

Section LockKey.
Context `{Cli : redis.Client}.
(** [sha256.Sum256]. *)
Variable Sum256 : bytes -> bytes.

(** X29. The Redis lock key is [trap_lock:] followed by the lower-case
    hexadecimal digest, two digits per byte, from which the digest can be
    read back; so two payloads get the same key exactly when their
    digests are equal. *)
Theorem GenerateTrapLockKey_fingerprint (a b : bytes) :
  (redis.GenerateTrapLockKey Sum256 a = redis.GenerateTrapLockKey Sum256 b
   <-> Sum256 a = Sum256 b)
  /\ String.substring 0 10 (redis.GenerateTrapLockKey Sum256 a) = "trap_lock:"
  /\ String.length (redis.GenerateTrapLockKey Sum256 a)
     = (10 + 2 * length (Sum256 a))%nat
  /\ hex.DecodeString (String.substring 10 (2 * length (Sum256 a))
                         (redis.GenerateTrapLockKey Sum256 a))
     = Some (Sum256 a).
Proof.
  unfold redis.GenerateTrapLockKey. split; [|split; [|split]].
  - split.
    + intros H. apply string_app_inv_head in H.
      apply (f_equal hex.DecodeString) in H. rewrite !hex_round_trip in H.
      congruence.
    + intros ->. reflexivity.
  - exact (substring_app_head "trap_lock:" _).
  - rewrite string_length_app, hex_length. reflexivity.
  - rewrite <- hex_length.
    change 10%nat with (String.length "trap_lock:").
    rewrite substring_app_tail. apply hex_round_trip.
Qed.
End LockKey.

(** X30. The v3 engine identity is the hexadecimal form of a text of 11 to
    32 bytes that starts with [v3-engine-], whatever the time and the
    random bytes: the text is cut at 32 bytes before it is encoded, so
    the identity has between 22 and 64 digits. *)
Theorem generateV3EngineID_shape (timestamp : Z) (randomPart : bytes) :
  exists data : string,
    hex.DecodeString (engineid.generateV3EngineID timestamp randomPart)
      = Some (String.list_byte_of_string data)
    /\ String.substring 0 10 data = "v3-engine-"
    /\ (11 <= String.length data <= 32)%nat
    /\ String.length (engineid.generateV3EngineID timestamp randomPart)
       = (2 * String.length data)%nat.
Proof.
  unfold engineid.generateV3EngineID.
  set (full := "v3-engine-" +:+ pretty timestamp +:+ "-" +:+ hex.EncodeToString randomPart).
  assert (Hhead : String.substring 0 10 full = "v3-engine-")
    by exact (substring_app_head "v3-engine-" _).
  assert (Hlen : (11 <= String.length full)%nat).
  { unfold full. rewrite !string_length_app. simpl. lia. }
  exists (if (32 <? String.length full)%nat then String.substring 0 32 full else full).
  split; [apply hex_round_trip|].
  rewrite hex_length, list_byte_of_string_length.
  destruct (32 <? String.length full)%nat eqn:Hlong.
  - apply Nat.ltb_lt in Hlong.
    rewrite substring_substring by lia. rewrite substring_length.
    split; [exact Hhead|]. split; [lia|reflexivity].
  - apply Nat.ltb_ge in Hlong. split; [exact Hhead|]. split; [lia|reflexivity].
Qed.

End IdentityFacts.

(** * Scenarios: the properties at concrete datagrams *)

Module scenarios.
Import gosnmp goasn1 fixture.

(** C5 on datagrams: version 2 is illegal, version 3 is v3, an OCTET
    STRING at the outer level and one in the place of the version are
    parse failures. *)
Lemma parseSNMPVersion_cases_witness :
  snmp.parseSNMPVersion no_engines version2_bytes = Err ErrIligelVersion
  /\ snmp.parseSNMPVersion no_engines v3_inform_bytes = Ok Version3
  /\ snmp.parseSNMPVersion no_engines [x04; x01; x00] = Err ErrParseSNMPVersion
  /\ snmp.parseSNMPVersion no_engines [x30; x03; x04; x01; x00] = Err ErrParseSNMPVersion.
Proof.
  split; [|split; [|split]].
  - destruct (parseSNMPVersion_cases no_engines version2_bytes) as [_ H].
    edestruct H as [_ H1]; [reflexivity|].
    edestruct H1 as [_ H2]; [split; reflexivity|].
    edestruct H2 as [_ H3]; [reflexivity|].
    edestruct H3 as [_ H4]; [reflexivity|].
    edestruct H4 as (_ & _ & _ & H5); [reflexivity|].
    apply H5; intros Hc; vm_compute in Hc; discriminate.
  - destruct (parseSNMPVersion_cases no_engines v3_inform_bytes) as [_ H].
    edestruct H as [_ H1]; [reflexivity|].
    edestruct H1 as [_ H2]; [split; reflexivity|].
    edestruct H2 as [_ H3]; [reflexivity|].
    edestruct H3 as [_ H4]; [reflexivity|].
    edestruct H4 as (_ & _ & H5 & _); [reflexivity|].
    apply H5; reflexivity.
  - destruct (parseSNMPVersion_cases no_engines [x04; x01; x00]) as [_ H].
    edestruct H as [H1 _]; [reflexivity|].
    apply H1. unfold universal_sequence. simpl. intros [Ht _]. discriminate.
  - destruct (parseSNMPVersion_cases no_engines [x30; x03; x04; x01; x00]) as [_ H].
    edestruct H as [_ H1]; [reflexivity|].
    edestruct H1 as [_ H2]; [split; reflexivity|].
    edestruct H2 as [H3 _]; [reflexivity|].
    apply H3. simpl. discriminate.
Defined.

(** C6 on four first bindings: a uint64 above the range, a negative
    int64, a uint32 and a string. *)
Lemma sysUpTime_normalized_witness :
  models.V2cV3Timestamp
    (handler.convertToTrapMessage 1700000000 (v2c_trap_with (VUint64 5000000000))
       (raw v2c_trap_bytes)) = MaxUint32
  /\ models.V2cV3Timestamp
       (handler.convertToTrapMessage 1700000000 (v2c_trap_with (VInt64 (-7)))
          (raw v2c_trap_bytes)) = 0
  /\ models.V2cV3Timestamp
       (handler.convertToTrapMessage 1700000000 (v2c_trap_with (VUint32 12345))
          (raw v2c_trap_bytes)) = 12345
  /\ models.V2cV3Timestamp
       (handler.convertToTrapMessage 1700000000 (v2c_trap_with (VString "soon"))
          (raw v2c_trap_bytes)) = 0.
Proof.
  split; [|split; [|split]].
  - apply (sysUpTime_normalized 1700000000 (v2c_trap_with (VUint64 5000000000))
             (raw v2c_trap_bytes) _ _ (or_introl eq_refl) eq_refl).
    unfold MaxUint32. lia.
  - apply (sysUpTime_normalized 1700000000 (v2c_trap_with (VInt64 (-7)))
             (raw v2c_trap_bytes) _ _ (or_introl eq_refl) eq_refl).
    lia.
  - exact (sysUpTime_normalized 1700000000 (v2c_trap_with (VUint32 12345))
             (raw v2c_trap_bytes) _ _ (or_introl eq_refl) eq_refl).
  - exact (sysUpTime_normalized 1700000000 (v2c_trap_with (VString "soon"))
             (raw v2c_trap_bytes) _ _ (or_introl eq_refl) eq_refl).
Defined.

(** C7 on a v1 trap decoded with three bindings. *)
Lemma v1_short_packet_defaults_witness :
  gosnmp.Version v1_short_packet = Version1
  /\ (length (Variables v1_short_packet) < 4)%nat
  /\ models.V1GenericTrap
       (handler.convertToTrapMessage 1700000000 v1_short_packet (raw v1_trap_bytes)) = 0
  /\ models.V1SpecificTrap
       (handler.convertToTrapMessage 1700000000 v1_short_packet (raw v1_trap_bytes)) = 0
  /\ models.V1EnterpriseOID
       (handler.convertToTrapMessage 1700000000 v1_short_packet (raw v1_trap_bytes)) = "".
Proof.
  assert (Hlen : (length (Variables v1_short_packet) < 4)%nat) by (simpl; lia).
  split; [reflexivity|]. split; [exact Hlen|].
  exact (proj2 (v1_short_packet_defaults 1700000000 v1_short_packet (raw v1_trap_bytes)
                  eq_refl Hlen)).
Defined.
(** C4 on a backend that holds the key, on one that is down, and on the
    same datagram arriving twice at a free backend. *)
Lemma processTrap_dedup_witness :
  (let w := world busy_backend quiet in
   let w' := handler.processTrap respond_all started_handler (raw v2c_trap_bytes) w in
   handler.rm w' = quiet /\ handler.buf (handler.outputChan w') = []
   /\ handler.responded (handler.log w') = 0%nat)
  /\ (let w := world dead_backend quiet in
      let w' := handler.processTrap respond_all started_handler (raw v2c_trap_bytes) w in
      handler.rm w' = quiet /\ handler.buf (handler.outputChan w') = []
      /\ handler.responded (handler.log w') = 0%nat)
  /\ (let w' := handler.worker respond_all started_handler
                  [raw v2c_trap_bytes; raw v2c_trap_bytes] (world free_backend quiet) in
      (length (handler.buf (handler.outputChan w')) <= handler.acquired (handler.log w'))%nat).
Proof.
  split; [|split].
  - destruct (processTrap_dedup respond_all started_handler (raw v2c_trap_bytes)
                (world busy_backend quiet)) as [H _].
    destruct (H busy_backend (Ok false) eq_refl ltac:(discriminate))
      as (Hrm & Hout & _ & Hresp & _).
    cbv zeta in *. rewrite Hrm, Hout, Hresp. repeat split.
  - destruct (processTrap_dedup respond_all started_handler (raw v2c_trap_bytes)
                (world dead_backend quiet)) as [H _].
    destruct (H dead_backend (Err (LibError "redis down")) eq_refl ltac:(discriminate))
      as (Hrm & Hout & _ & Hresp & _).
    cbv zeta in *. rewrite Hrm, Hout, Hresp. repeat split.
  - destruct (processTrap_dedup respond_all started_handler (raw v2c_trap_bytes)
                (world free_backend quiet)) as [_ H].
    destruct (H [raw v2c_trap_bytes; raw v2c_trap_bytes]) as (Hbuf & Hle & _).
    simpl in *. unfold handler.emitted, handler.acquired in *. simpl in *. lia.
Defined.


(** C1 on the InformRequest with request id 0xDEADBEEF: returned, and
    the outbox stays empty. *)
Lemma v2c_inform_gets_no_reply_witness :
  snmp.ResponseRequest (manager_of cfg_all_enabled) (raw v2c_inform_bytes) quiet
  = (quiet, Ok v2c_inform_packet)
  /\ outbox quiet = [].
Proof.
  split; [|reflexivity].
  refine (proj1 (v2c_inform_gets_no_reply (manager_of cfg_all_enabled)
            (raw v2c_inform_bytes) v2c_inform_bytes v2c_engine "public"
            (snmp.community_decoder "public" Version2c) v2c_inform_packet quiet
            eq_refl eq_refl eq_refl eq_refl eq_refl eq_refl eq_refl eq_refl eq_refl _)).
  discriminate.
Defined.



(** C8, amended, on a queue found empty at the third test and on one
    that is never found empty. *)
Lemma Stop_waits_until_drained_witness :
  server.running started_server = true
  /\ first_empty empty_at_third_test 0 2
  /\ snd <$> server.Stop CloseUDP 10 empty_at_third_test started_server
     = Some [server.StReceiverStop None;
             server.StSleep (100 * time.Millisecond);
             server.StSleep (100 * time.Millisecond);
             server.StHandlerStop None]
  /\ server.Stop CloseUDP 1000 never_empty started_server = None.
Proof.
  assert (Hfirst : first_empty empty_at_third_test 0 2).
  { split; [lia | split; [reflexivity |]].
    intros j Hj. assert (j = 0 \/ j = 1)%nat as [-> | ->] by lia; discriminate. }
  destruct (Stop_waits_until_drained CloseUDP empty_at_third_test started_server
              (server.mkReceiver true (Some socket)) started_handler
              eq_refl eq_refl eq_refl) as (Hstop & _ & _).
  destruct (Stop_waits_until_drained CloseUDP never_empty started_server
              (server.mkReceiver true (Some socket)) started_handler
              eq_refl eq_refl eq_refl) as (_ & _ & Hspin).
  split; [reflexivity|]. split; [exact Hfirst|]. split.
  - destruct (Hstop 2%nat 10%nat Hfirst ltac:(lia)) as (s' & Hs & _).
    rewrite Hs. reflexivity.
  - apply Hspin. intros j. discriminate.
Defined.

(** C8 as stated fails: there is a queue behaviour under which [Stop]
    has not returned after any number of tests. *)
Lemma Stop_never_returns_while_queue_is_busy :
  exists polls : nat -> Z,
    server.running started_server = true
    /\ forall fuel, server.Stop CloseUDP fuel polls started_server = None.
Proof.
  exists never_empty. split; [reflexivity|].
  intros fuel. unfold server.Stop. simpl.
  rewrite (drain_never never_empty); [reflexivity|].
  intros j. discriminate.
Qed.

(** C3 on the configuration of the server tests: [LockTimeout: 30] is
    passed to the backend as 30 ns. *)
Lemma lock_ttl_is_config_in_nanoseconds_witness :
  server.Start ListenUDP new_server = Some (started_server, None)
  /\ server.handler started_server = Some started_handler
  /\ config.LockTimeout (config.TrapHandlerConf (server.config new_server)) = 30
  /\ (exists r tail,
        handler.log (handler.processTrap respond_all started_handler (raw v2c_trap_bytes)
                       (world free_backend quiet))
        = handler.EvAcquireLock (lock_key (raw v2c_trap_bytes)) 30 r :: tail)
  /\ handler.LockTimeout started_handler <> 30 * time.Second.
Proof.
  split; [reflexivity|]. split; [reflexivity|]. split; [reflexivity|].
  destruct (lock_ttl_is_config_in_nanoseconds ListenUDP respond_all new_server
              started_server started_handler (raw v2c_trap_bytes)
              (world free_backend quiet) eq_refl eq_refl) as [Hlog Hne].
  split.
  - destruct Hlog as (r & tail & Hl). exists r, tail. exact Hl.
  - apply Hne. discriminate.
Defined.
(** The sniffer on the shortest well-formed header, for every version
    octet: 0, 1 and 3 are the versions, every other octet is illegal. *)
Lemma sniff_single_octet_version (b : byte) :
  snmp.parseSNMPVersion no_engines [x30; x03; x02; x01; b]
  = match b with
    | x00 => Ok Version1
    | x01 => Ok Version2c
    | x03 => Ok Version3
    | _ => Err ErrIligelVersion
    end.
Proof. destruct b; vm_compute; reflexivity. Qed.

(** Tag number 2 in the context class is not an INTEGER, and an integer
    of nine octets is not read: both are parse failures. *)
Lemma sniff_unreadable_version :
  snmp.parseSNMPVersion no_engines [x30; x03; x82; x01; x00] = Err ErrParseSNMPVersion
  /\ snmp.parseSNMPVersion no_engines
       [x30; x0b; x02; x09; x01; x00; x00; x00; x00; x00; x00; x00; x00]
     = Err ErrParseSNMPVersion.
Proof. split; vm_compute; reflexivity. Qed.

(** The cases of the repository's test of [CheckAccess]. *)
Lemma CheckAccess_test_cases :
  let m := snmp.NewCommunitySecurityModel "public" "private" in
  snmp.CheckAccess m (SnmpVersion_String Version1) Trap = (true, None)
  /\ snmp.CheckAccess m (SnmpVersion_String Version2c) InformRequest = (true, None)
  /\ snmp.CheckAccess m (SnmpVersion_String Version1) GetRequest = (false, None)
  /\ snmp.CheckAccess m (SnmpVersion_String Version1) InformRequest = (false, None).
Proof. repeat split. Qed.

(** ** The further properties at concrete inputs *)

Ltac by_evaluation := vm_compute; reflexivity.

(** X3 on the SNMPv2 trap of community "public". *)
Lemma V1_V2c_engine_accepts_notifications_only_witness :
  snmp.enabled v2c_engine = true
  /\ notification v2c_trap_packet
  /\ Community v2c_trap_packet <> "".
Proof.
  assert (Hok : snd (snmp.V1_V2c_ProcessRequest v2c_engine (raw v2c_trap_bytes) quiet)
                = Ok v2c_trap_packet) by by_evaluation.
  destruct (V1_V2c_engine_accepts_notifications_only (Stack := stack) v2c_engine (raw v2c_trap_bytes)
              quiet v2c_trap_packet Hok) as (H1 & H2 & H3 & _).
  repeat split; assumption.
Defined.

(** X4 on the same trap at the engine that is switched off. *)
Lemma V1_V2c_engine_refuses_other_PDUs_witness :
  snmp.V1_V2c_ProcessRequest v2c_engine_off (raw v2c_trap_bytes) quiet
  = (quiet, Err ErrUnsupportedPDUType).
Proof.
  apply (V1_V2c_engine_refuses_other_PDUs (Stack := stack) v2c_engine_off
           (raw v2c_trap_bytes) quiet
           "public" (snmp.community_decoder "public" Version2c) v2c_trap_packet);
    [by_evaluation | by_evaluation | by_evaluation | left; reflexivity].
Defined.

(** X5 on the engine for "public" and "private", and a datagram of
    community "secret". *)
Lemma NewV1_V2c_decoders_witness :
  is_Some (snmp.decodeerMap v2c_engine !! "public")
  /\ is_Some (snmp.decodeerMap v2c_engine !! "private")
  /\ snmp.V1_V2c_ProcessRequest v2c_engine (raw secret_trap_bytes) quiet
     = (quiet, Err ErrInvalidCommunity).
Proof.
  assert (Hnew : snmp.NewV1_V2cResponseEngine generateEngineID "public" "private" true
                   Version2c = Some v2c_engine) by by_evaluation.
  destruct (NewV1_V2c_decoders (Stack := stack) generateEngineID "public" "private" true
              Version2c v2c_engine Hnew) as (_ & H1 & H2 & H3).
  split; [exact H1|]. split; [exact H2|].
  apply (H3 (raw secret_trap_bytes) quiet "secret");
    [by_evaluation | discriminate | discriminate].
Defined.

(** X7 on the factory with every version enabled: the engine under 2c. *)
Lemma factory_engines_wellformed_witness :
  snmp.GetVersion (snmp.EngineV1V2c v2c_engine) = Version2c
  /\ snmp.Enable (snmp.EngineV1V2c v2c_engine) = true.
Proof.
  assert (Hnew : snmp.NewResponseEngineFactory generateEngineID
                   (config.EngineFactoryConfig cfg_all_enabled)
                 = Some (snmp.factory (manager_of cfg_all_enabled))) by by_evaluation.
  assert (Hlook : snmp.engines (snmp.factory (manager_of cfg_all_enabled)) !! Version2c
                  = Some (snmp.EngineV1V2c v2c_engine)) by by_evaluation.
  destruct (factory_engines_wellformed generateEngineID
              (config.EngineFactoryConfig cfg_all_enabled)
              (snmp.factory (manager_of cfg_all_enabled)) Version2c
              (snmp.EngineV1V2c v2c_engine) Hnew Hlook) as (H1 & _ & H2 & _).
  split; [exact H1|]. apply H2. discriminate.
Defined.


(** X10 on the SNMPv2 trap at the manager with every version enabled. *)
Lemma ResponseRequest_ok_engine_enabled_witness :
  exists data v engine,
    models.Data (raw v2c_trap_bytes) = Some data
    /\ snmp.parseSNMPVersion (manager_of cfg_all_enabled) data = Ok v
    /\ snmp.engines (snmp.factory (manager_of cfg_all_enabled)) !! v = Some engine
    /\ snmp.Enable engine = true.
Proof.
  assert (Hok : snd (snmp.ResponseRequest (manager_of cfg_all_enabled)
                       (raw v2c_trap_bytes) quiet) = Ok v2c_trap_packet) by by_evaluation.
  destruct (ResponseRequest_ok_engine_enabled (Stack := stack) (manager_of cfg_all_enabled)
              (raw v2c_trap_bytes) quiet v2c_trap_packet Hok)
    as (data & v & engine & H1 & H2 & H3 & H4 & _).
  exists data, v, engine. repeat split; assumption.
Defined.

(** X11 on a packet without data, and on a v2c datagram at a manager
    that has v2c switched off. *)
Lemma ResponseRequest_failure_witness :
  fst (snmp.ResponseRequest (manager_of cfg_all_enabled) nil_packet quiet) = quiet
  /\ fst (snmp.ResponseRequest (manager_of cfg_only_v1) (raw v2c_inform_bytes) quiet) = quiet
  /\ ErrUnsupportedVersion <> ErrNilRequest.
Proof.
  assert (H1 : snd (snmp.ResponseRequest (manager_of cfg_all_enabled) nil_packet quiet)
               = Err ErrNilRequest) by by_evaluation.
  assert (H2 : snd (snmp.ResponseRequest (manager_of cfg_only_v1) (raw v2c_inform_bytes)
                      quiet) = Err ErrUnsupportedVersion) by by_evaluation.
  destruct (ResponseRequest_failure (Stack := stack) _ _ _ _ H1) as (Hn1 & _ & _).
  destruct (ResponseRequest_failure (Stack := stack) _ _ _ _ H2) as (Hn2 & Hnil & _).
  split; [exact Hn1|]. split; [exact Hn2|].
  intros Heq. apply Hnil in Heq. discriminate.
Defined.

(** X14 on a sysUpTime of type uint32. *)
Lemma V2cV3Timestamp_fits_uint32_witness :
  0 <= models.V2cV3Timestamp
         (handler.convertToTrapMessage 1700000000 (v2c_trap_with (VUint32 12345))
            (raw v2c_trap_bytes))
    <= MaxUint32.
Proof.
  apply V2cV3Timestamp_fits_uint32.
  intros x Hx. vm_compute in Hx. inversion Hx. unfold MaxUint32. lia.
Defined.

(** X15 on a sysUpTime of type int: 12345 as it is, and 2^32 + 5 cut to 5. *)
Lemma V2cV3Timestamp_of_integers_witness :
  models.V2cV3Timestamp
    (handler.convertToTrapMessage 1700000000 (v2c_trap_with (VInt 12345))
       (raw v2c_trap_bytes)) = 12345
  /\ models.V2cV3Timestamp
       (handler.convertToTrapMessage 1700000000 (v2c_trap_with (VInt 4294967301))
          (raw v2c_trap_bytes)) = 4294967301 mod 2 ^ 32
  /\ 4294967301 mod 2 ^ 32 = 5.
Proof.
  split; [|split].
  - refine (proj1 (V2cV3Timestamp_of_integers 1700000000 (v2c_trap_with (VInt 12345))
                     (raw v2c_trap_bytes) (sysUpTime_pdu (VInt 12345)) _ 12345
                     (or_introl eq_refl) eq_refl) _ _).
    + unfold MaxUint32. lia.
    + right. left. reflexivity.
  - refine (proj2 (V2cV3Timestamp_of_integers 1700000000 (v2c_trap_with (VInt 4294967301))
                     (raw v2c_trap_bytes) (sysUpTime_pdu (VInt 4294967301)) _ 4294967301
                     (or_introl eq_refl) eq_refl) _ eq_refl).
    unfold MaxUint32. lia.
  - reflexivity.
Defined.

(** X17 on a v1 trap with its four leading bindings. *)
Lemma v1_fields_from_bindings_witness :
  let t := handler.convertToTrapMessage 1700000000 v1_full_packet (raw v1_trap_bytes) in
  models.V1GenericTrap t = 6 /\ models.V1SpecificTrap t = 42
  /\ models.V1EnterpriseOID t = ".1.3.6.1.4.1.9.1.1.1".
Proof.
  exact (v1_fields_from_bindings 1700000000 v1_full_packet (raw v1_trap_bytes)
           _ _ _ _ _ eq_refl eq_refl).
Defined.


(** The in-memory backend keeps the set-if-absent contract. *)
Lemma memlock_held_not_granted (l : MemLocker) (key : string) (ttl : time.Duration) :
  memlock_holds l key -> snd (storage.AcquireLock l key ttl) <> Ok true.
Proof.
  unfold memlock_holds. simpl. unfold AcquireLock. intros [v Hv].
  destruct (down l); [discriminate|]. rewrite Hv. discriminate.
Qed.

Lemma memlock_granted_is_held (l : MemLocker) (key : string) (ttl : time.Duration)
    (l' : MemLocker) :
  storage.AcquireLock l key ttl = (l', Ok true) -> memlock_holds l' key.
Proof.
  unfold memlock_holds. simpl. unfold AcquireLock.
  destruct (down l); [discriminate|].
  destruct (held l !! key); [discriminate|].
  intros H. inversion H. simpl. rewrite lookup_insert_eq. eauto.
Qed.

Lemma memlock_held_stays_held (l : MemLocker) (key : string) (ttl : time.Duration)
    (key' : string) :
  memlock_holds l key' -> memlock_holds (fst (storage.AcquireLock l key ttl)) key'.
Proof.
  unfold memlock_holds. simpl. unfold AcquireLock. intros Hk.
  destruct (down l); [exact Hk|].
  destruct (held l !! key) eqn:Hl; [exact Hk|]. simpl.
  destruct (decide (key = key')) as [->|Hne].
  - rewrite lookup_insert_eq. eauto.
  - rewrite lookup_insert_ne by exact Hne. exact Hk.
Qed.

(** X21 on the in-memory backend: the same trap three times and an
    InformRequest give two messages at most; with the key of the trap held
    already, the trap gives none. *)
Lemma worker_dedup_witness :
  (length (handler.buf (handler.outputChan
             (handler.worker respond_all started_handler
                [raw v2c_trap_bytes; raw v2c_trap_bytes; raw v2c_inform_bytes;
                 raw v2c_trap_bytes]
                (world free_backend quiet)))) <= 2)%nat
  /\ handler.buf (handler.outputChan
        (handler.worker respond_all started_handler
           [raw v2c_trap_bytes; raw v2c_trap_bytes] (world busy_backend quiet))) = [].
Proof.
  split.
  - exact (proj1 (worker_dedup (Lock := memlock) respond_all memlock_holds memlock_held_not_granted
                    memlock_granted_is_held memlock_held_stays_held started_handler
                    [raw v2c_trap_bytes; raw v2c_trap_bytes; raw v2c_inform_bytes;
                     raw v2c_trap_bytes]
                    (world free_backend quiet))).
  - destruct (worker_dedup (Lock := memlock) respond_all memlock_holds memlock_held_not_granted
                memlock_granted_is_held memlock_held_stays_held started_handler
                [raw v2c_trap_bytes; raw v2c_trap_bytes] (world busy_backend quiet))
      as (_ & _ & Hheld & _).
    apply Hheld. intros rawPacket Hin.
    assert (Hkey : lock_key rawPacket = GenerateTrapLockKey v2c_trap_bytes).
    { apply elem_of_cons in Hin. destruct Hin as [-> | Hin]; [reflexivity|].
      apply elem_of_cons in Hin. destruct Hin as [-> | Hin]; [reflexivity|].
      apply elem_of_nil in Hin. contradiction. }
    rewrite Hkey. unfold memlock_holds. simpl. rewrite lookup_singleton_eq. eauto.
Defined.

(** X24 on three datagrams and a time-out at a queue of two slots: two
    are enqueued, the third is discarded. *)
Lemma receiveLoop_burst_witness :
  let st' := receiver.receiveLoop socket burst rx_start in
  handler.buf (receiver.outputChan st')
  = [receiver.packet_of socket v2c_trap_bytes sender;
     receiver.packet_of socket v2c_inform_bytes sender]
  /\ receiver.discarded (receiver.rxlog st')
     = [receiver.packet_of socket v1_trap_bytes sender]
  /\ receiver.returned st' = false.
Proof.
  apply (receiveLoop_burst socket burst rx_start).
  - reflexivity.
  - repeat constructor.
  - simpl. lia.
Defined.

(** X25 on the same turns followed by a cleared flag and more datagrams. *)
Lemma receiveLoop_stops_witness :
  let st' := receiver.receiveLoop socket (burst ++ last_turn :: burst) rx_start in
  receiver.returned st' = true
  /\ receiver.rxlog st' = receiver.rxlog (receiver.receiveLoop socket burst rx_start).
Proof.
  destruct (receiveLoop_stops socket burst burst last_turn rx_start eq_refl)
    as (H1 & _ & H2).
  split; [exact H1 | exact H2].
Defined.

(** X26 on the server of the server tests: queues of 100 and 200 slots. *)
Lemma Start_success_witness :
  server.running started_server = true
  /\ server.midChannel started_server = Some (handler.mkChan [] 100)
  /\ server.outChannel started_server = Some (handler.mkChan [] 200).
Proof.
  assert (Hstart : server.Start ListenUDP new_server = Some (started_server, None))
    by by_evaluation.
  destruct (Start_success ListenUDP new_server started_server Hstart)
    as (_ & Hrun & _ & _ & r & h & l & _ & _ & _ & _ & _ & _ & Hmid & Hout).
  split; [exact Hrun|]. split; [exact Hmid | exact Hout].
Defined.

(** X28 on the same server, the queue empty at the third test. *)
Lemma Start_Stop_lifecycle_witness :
  all_stopped stopped_server
  /\ server.config stopped_server = server_config
  /\ exists err, server.Stop CloseUDP 1 never_empty stopped_server
                 = Some (stopped_server, Some err, []).
Proof.
  assert (Hstart : server.Start ListenUDP new_server = Some (started_server, None))
    by by_evaluation.
  assert (Hstop : server.Stop CloseUDP 5 empty_at_third_test started_server
                  = Some (stopped_server, None,
                          [server.StReceiverStop None;
                           server.StSleep (100 * time.Millisecond);
                           server.StSleep (100 * time.Millisecond);
                           server.StHandlerStop None])) by by_evaluation.
  destruct (Start_Stop_lifecycle ListenUDP CloseUDP new_server started_server
              stopped_server 5 empty_at_third_test None _ Hstart Hstop)
    as (_ & Hall & Hcfg & _ & Hagain & _).
  split; [exact Hall|]. split; [exact Hcfg|]. exact (Hagain 1%nat never_empty).
Defined.
End scenarios.
